(** * bacon-mcp: the diagnostic and test-result layer of [utils.ts]

    A shallow embedding of the parsing and report functions of the
    bacon-mcp server ([parseCargoDiagnostics], [parseTestOutput],
    [formatTestResults], [validateRustProject]) and of the guard that opens
    the tool-call handler of [index.ts], with the properties of the
    specification stated over them; then of the rest of the two files
    ([runCargoCommand], [formatDiagnostics], [getProjectInfo], the list of
    the tools and the cases of the handler), with properties read off the
    code. *)

From Stdlib Require Import List Bool Arith NArith ZArith Lia String Ascii.
From Stdlib Require Import DecimalString.
Import ListNotations.

(* ===================================================================== *)
(** * JavaScript strings *)
(* ===================================================================== *)

(** A JavaScript string is a sequence of UTF-16 code units.  The regular
    expressions of the source have no [u] flag and therefore work on code
    units, as [split] and [trim] do, so the model is exact on every input
    text, not only on ASCII. *)
Definition jsstring := list N.

(** The code units of a source literal (all literals of the source that are
    written this way are ASCII). *)
Definition js (s : string) : jsstring :=
  map N_of_ascii (list_ascii_of_string s).

(** Literals of the source that hold a double quote are written with an
    apostrophe in its place. *)
Definition js' (s : string) : jsstring :=
  map (fun c => if N.eqb c 39 then 34%N else c) (js s).

Definition jseq (a b : jsstring) : bool :=
  if list_eq_dec N.eq_dec a b then true else false.

(** [LineTerminator] of ECMAScript: LF, CR, LS, PS. *)
Definition isLineTerminator (c : N) : bool :=
  (N.eqb c 10 || N.eqb c 13 || N.eqb c 8232 || N.eqb c 8233)%N.

(** [WhiteSpace] of ECMAScript: TAB, VT, FF, SP, NBSP, ZWNBSP and the
    space separators of Unicode. *)
Definition isWhiteSpace (c : N) : bool :=
  (N.eqb c 9 || N.eqb c 11 || N.eqb c 12 || N.eqb c 32 || N.eqb c 160
   || N.eqb c 5760 || (N.leb 8192 c && N.leb c 8202) || N.eqb c 8239
   || N.eqb c 8287 || N.eqb c 12288 || N.eqb c 65279)%N.

(** What [trim] strips and what [\s] matches. *)
Definition isSpace (c : N) : bool := isWhiteSpace c || isLineTerminator c.

Definition isDigit (c : N) : bool := (N.leb 48 c && N.leb c 57)%N.

(** The class of [.] in a pattern without the [s] flag. *)
Definition isDot (c : N) : bool := negb (isLineTerminator c).

Fixpoint dropWhile (p : N -> bool) (s : jsstring) : jsstring :=
  match s with
  | [] => []
  | c :: s' => if p c then dropWhile p s' else s
  end.

(** [String.prototype.trim]. *)
Definition trim (s : jsstring) : jsstring :=
  rev (dropWhile isSpace (rev (dropWhile isSpace s))).

(** [s.split(sep)] for a separator of one code unit. *)
Fixpoint split (sep : N) (s : jsstring) : list jsstring :=
  match s with
  | [] => [[]]
  | c :: s' =>
      if N.eqb c sep then [] :: split sep s'
      else match split sep s' with
           | l :: ls => (c :: l) :: ls
           | [] => [[c]]
           end
  end.

Definition LF : N := 10.

(** [lines.join("\n")]. *)
Fixpoint joinLines (lines : list jsstring) : jsstring :=
  match lines with
  | [] => []
  | [l] => l
  | l :: lines' => l ++ LF :: joinLines lines'
  end.

(** [s.startsWith(p)]. *)
Fixpoint startsWith (p s : jsstring) : bool :=
  match p, s with
  | [], _ => true
  | _ :: _, [] => false
  | a :: p', b :: s' => N.eqb a b && startsWith p' s'
  end.

(** [s.includes(p)]. *)
Fixpoint includes (p s : jsstring) : bool :=
  startsWith p s ||
  match s with
  | [] => false
  | _ :: s' => includes p s'
  end.

(** [toLowerCase] on the basic Latin letters; the source applies it to the
    second capture of the outcome pattern only, one of [ok], [FAILED] and
    [ignored]. *)
Definition toLowerCase (s : jsstring) : jsstring :=
  map (fun c => if (N.leb 65 c && N.leb c 90)%N then (c + 32)%N else c) s.

(** The decimal digits of an array length, as a template literal prints
    it. *)
Definition Number_toString (n : nat) : jsstring :=
  js (NilZero.string_of_uint (Nat.to_uint n)).

(** ToBoolean of a string: the empty string is the only false one. *)
Definition truthy_string (s : jsstring) : bool :=
  match s with [] => false | _ => true end.

(** What is left starts with no code unit of the class [p]. *)
Definition stopsAt (p : N -> bool) (s : jsstring) : Prop :=
  match s with
  | [] => True
  | x :: _ => p x = false
  end.

(* ===================================================================== *)
(** * Regular expressions *)
(* ===================================================================== *)

(** The fragment of ECMAScript patterns the source uses, with the
    backtracking semantics of the language specification: alternatives in
    order, greedy and lazy quantifiers, numbered captures. *)
Module RegExp.

Inductive regex : Type :=
| Chr (c : N)                         (* a literal code unit *)
| Class (p : N -> bool)               (* \s, \d, . *)
| Seq (r1 r2 : regex)
| Alt (r1 r2 : regex)                 (* r1|r2 *)
| Star (greedy : bool) (r : regex)    (* r* and r*? *)
| Group (i : nat) (r : regex)         (* the i-th capturing parenthesis *)
| Bol.                                (* ^ without the m flag *)

(** [r+] and [r+?]. *)
Definition Plus (greedy : bool) (r : regex) : regex :=
  Seq r (Star greedy r).

(** A run of literal code units; the empty run matches the empty string. *)
Fixpoint Lit (s : jsstring) : regex :=
  match s with
  | [] => Star true (Class (fun _ => false))
  | [c] => Chr c
  | c :: s' => Seq (Chr c) (Lit s')
  end.

(** The state of a match: how many code units lie before the current
    position, what is left of the input, and the captures so far (the
    latest first). *)
Record MatchState : Type := mkState {
  endIndex : nat;
  rest : jsstring;
  captures : list (nat * jsstring)
}.

Definition advance (st : MatchState) (s' : jsstring) : MatchState :=
  mkState (S (endIndex st)) s' (captures st).

Definition setCapture (i : nat) (from to : MatchState) : MatchState :=
  mkState (endIndex to) (rest to)
    ((i, firstn (endIndex to - endIndex from) (rest from)) :: captures to).

Definition orElse {A} (a b : option A) : option A :=
  match a with Some _ => a | None => b end.

(** The iterations of a quantifier, as RepeatMatcher of the language
    specification runs them: [mr] matches the quantified pattern once, [k]
    is what follows the quantifier.  An iteration that consumes nothing is
    rejected, so the number of iterations is at most the length of what is
    left, which is what [fuel] starts from. *)
Fixpoint repeatMatcher
    (mr : (MatchState -> option MatchState) -> MatchState
          -> option MatchState)
    (greedy : bool) (k : MatchState -> option MatchState)
    (fuel : nat) (st : MatchState) : option MatchState :=
  match fuel with
  | O => k st
  | S fuel' =>
      let more :=
        mr (fun st' =>
              if endIndex st <? endIndex st'
              then repeatMatcher mr greedy k fuel' st'
              else None) st in
      if greedy then orElse more (k st) else orElse (k st) more
  end.

(** The matcher of a pattern, in continuation-passing style: [k] is what
    the rest of the pattern does with the state this one leaves. *)
Fixpoint m (r : regex) (k : MatchState -> option MatchState)
    (st : MatchState) : option MatchState :=
  match r with
  | Chr c =>
      match rest st with
      | x :: s' => if N.eqb x c then k (advance st s') else None
      | [] => None
      end
  | Class p =>
      match rest st with
      | x :: s' => if p x then k (advance st s') else None
      | [] => None
      end
  | Seq r1 r2 => m r1 (m r2 k) st
  | Alt r1 r2 => orElse (m r1 k st) (m r2 k st)
  | Star greedy r1 =>
      repeatMatcher (m r1) greedy k (List.length (rest st)) st
  | Group i r1 => m r1 (fun st' => k (setCapture i st st')) st
  | Bol => if endIndex st =? 0 then k st else None
  end.

(** The search of [RegExp.prototype.exec] for a pattern without the [g]
    and [y] flags: the first start position, from the left, at which the
    pattern matches. *)
Fixpoint search (r : regex) (idx : nat) (s : jsstring) : option MatchState :=
  match m r Some (mkState idx s []) with
  | Some st => Some st
  | None =>
      match s with
      | [] => None
      | _ :: s' => search r (S idx) s'
      end
  end.

(** [s.match(r)]: [None] is the [null] of a failed match. *)
Definition exec (r : regex) (s : jsstring) : option MatchState :=
  search r 0 s.

Fixpoint lookup (i : nat) (l : list (nat * jsstring)) : option jsstring :=
  match l with
  | [] => None
  | (j, s) :: l' => if i =? j then Some s else lookup i l'
  end.

(** [match[i]] inside a template literal; a capture that took no part in
    the match is [undefined] there.  Every parenthesis of the two patterns
    of the source takes part in each of their matches. *)
Definition group (st : MatchState) (i : nat) : jsstring :=
  match lookup i (captures st) with
  | Some s => s
  | None => js "undefined"
  end.

End RegExp.

Import RegExp.

(** The words a pattern can consume, whatever the order in which the
    matcher tries them. *)
Fixpoint lang (r : regex) (w : jsstring) : Prop :=
  match r with
  | Chr c => w = [c]
  | Class p => exists x, w = [x] /\ p x = true
  | Seq r1 r2 => exists w1 w2, w = w1 ++ w2 /\ lang r1 w1 /\ lang r2 w2
  | Alt r1 r2 => lang r1 w \/ lang r2 w
  | Star _ r1 => exists ws, w = List.concat ws /\ Forall (lang r1) ws
  | Group _ r1 => lang r1 w
  | Bol => w = []
  end.

(** [st'] lies further on in the input of [st]. *)
Definition reaches (st st' : MatchState) : Prop :=
  exists w, rest st = w ++ rest st'
            /\ endIndex st' = endIndex st + List.length w.

(** The parenthesis [i] takes part in every match of the pattern. *)
Fixpoint sets (r : regex) (i : nat) : bool :=
  match r with
  | Seq r1 r2 => sets r1 i || sets r2 i
  | Alt r1 r2 => sets r1 i && sets r2 i
  | Group j r1 => (i =? j) || sets r1 i
  | _ => false
  end.

(** [match[i]] is not [undefined]. *)
Definition captured (st : MatchState) (i : nat) : bool :=
  match lookup i (captures st) with
  | Some _ => true
  | None => false
  end.

(* ===================================================================== *)
(** * [parseTestOutput] *)
(* ===================================================================== *)

Record TestResult : Type := mkTestResult {
  name : jsstring;
  status : jsstring
}.

(** [/^test\s+(.+?)\s+\.\.\.\s+(ok|FAILED|ignored)/] *)
Definition outcomeRe : regex :=
  Seq Bol
 (Seq (Lit (js "test"))
 (Seq (Plus true (Class isSpace))
 (Seq (Group 1 (Plus false (Class isDot)))
 (Seq (Plus true (Class isSpace))
 (Seq (Lit (js "..."))
 (Seq (Plus true (Class isSpace))
      (Group 2 (Alt (Lit (js "ok"))
               (Alt (Lit (js "FAILED")) (Lit (js "ignored"))))))))))).

(** [/test result: (.*?)\. (\d+) passed; (\d+) failed; (\d+) ignored/] *)
Definition summaryRe : regex :=
  Seq (Lit (js "test result: "))
 (Seq (Group 1 (Star false (Class isDot)))
 (Seq (Lit (js ". "))
 (Seq (Group 2 (Plus true (Class isDigit)))
 (Seq (Lit (js " passed; "))
 (Seq (Group 3 (Plus true (Class isDigit)))
 (Seq (Lit (js " failed; "))
 (Seq (Group 4 (Plus true (Class isDigit)))
      (Lit (js " ignored"))))))))).

(** The body of the loop over the lines: a line that matches the outcome
    pattern pushes one result. *)
Definition testOfLine (line : jsstring) : list TestResult :=
  match exec outcomeRe line with
  | Some mt => [mkTestResult (group mt 1) (toLowerCase (group mt 2))]
  | None => []
  end.

Definition testsOf (output : jsstring) : list TestResult :=
  flat_map testOfLine (split LF output).

Definition summaryOf (output : jsstring) (tests : list TestResult)
    : jsstring :=
  match exec summaryRe output with
  | Some mt =>
      group mt 2 ++ js " passed, " ++ group mt 3 ++ js " failed, "
        ++ group mt 4 ++ js " ignored"
  | None => Number_toString (List.length tests) ++ js " tests found"
  end.

Definition parseTestOutput (output : jsstring)
    : list TestResult * jsstring :=
  let tests := testsOf output in
  (tests, summaryOf output tests).

(** A line is an outcome line when the outcome pattern matches it. *)
Definition isOutcomeLine (ln : jsstring) : bool :=
  match exec outcomeRe ln with
  | Some _ => true
  | None => false
  end.

(** ** The summary line, read off the text *)

(** The definitions of this part are not taken from the source.  They say
    directly, without a pattern and a matcher, where a text holds the
    summary line of the test harness, so that the properties can speak of
    a text with or without one; the facts below show that the summary
    pattern matches in exactly these texts. *)

(** The words that open the summary line of the test harness. *)
Definition resultPrefix : jsstring := js "test result: ".

(** One or more decimal digits. *)
Definition isCount (d : jsstring) : bool :=
  truthy_string d && forallb isDigit d.

(** What stands between the opening words and the counts: code units of
    one line, none of them a full stop. *)
Definition isStatusWord (w : jsstring) : bool :=
  forallb (fun c => isDot c && negb (N.eqb c 46)) w.

(** One or more digits and then [word]: what follows them. *)
Definition countAt (word s : jsstring) : option jsstring :=
  match s with
  | c :: _ =>
      if isDigit c then
        let r := dropWhile isDigit s in
        if startsWith word r then Some (skipn (List.length word) r) else None
      else None
  | [] => None
  end.

(** [<n> passed; <n> failed; <n> ignored] starts here. *)
Definition countsAt (s : jsstring) : bool :=
  match countAt (js " passed; ") s with
  | Some s1 =>
      match countAt (js " failed; ") s1 with
      | Some s2 =>
          match countAt (js " ignored") s2 with
          | Some _ => true
          | None => false
          end
      | None => false
      end
  | None => false
  end.

(** A full stop, a space and the counts come further on the same line. *)
Fixpoint countsOnLine (s : jsstring) : bool :=
  (startsWith (js ". ") s && countsAt (skipn 2 s)) ||
  match s with
  | c :: s' => isDot c && countsOnLine s'
  | [] => false
  end.

(** The summary line of the test harness starts here. *)
Definition summaryLineAt (s : jsstring) : bool :=
  startsWith resultPrefix s
  && countsOnLine (skipn (List.length resultPrefix) s).

(** The text holds a summary line. *)
Fixpoint hasSummaryLine (s : jsstring) : bool :=
  summaryLineAt s ||
  match s with
  | [] => false
  | _ :: s' => hasSummaryLine s'
  end.

(** The text holds the three counts, the summary line in the words of the
    specification: [<n> passed; <n> failed; <n> ignored]. *)
Fixpoint hasCounts (s : jsstring) : bool :=
  countsAt s ||
  match s with
  | [] => false
  | _ :: s' => hasCounts s'
  end.

(** A summary line starts at one of the first [n] positions of the
    text. *)
Fixpoint summaryLineBefore (n : nat) (s : jsstring) : bool :=
  match n with
  | O => false
  | S n' =>
      summaryLineAt s ||
      match s with
      | [] => false
      | _ :: s' => summaryLineBefore n' s'
      end
  end.

(* ===================================================================== *)
(** * Values and completions *)
(* ===================================================================== *)

(** A Number that [JSON.parse] read, kept as the decimal it was written
    as: [mantissa * 10 ^ exponent10].  The source hands numbers on and
    tests them for truth, nothing else. *)
Record number : Type := mkNumber {
  mantissa : Z;
  exponent10 : Z
}.

(** The values the decoded output of cargo is made of, and [undefined],
    which reading an absent property gives. *)
Unset Elimination Schemes.
Inductive value : Type :=
| VUndefined
| VNull
| VBool (b : bool)
| VNumber (n : number)
| VString (s : jsstring)
| VArray (elements : list value)
| VObject (properties : list (jsstring * value)).
Set Elimination Schemes.

Inductive error : Type :=
| SyntaxError
| TypeError
| RangeError.

(** How an evaluation ends: with a value or with a thrown exception. *)
Inductive completion (A : Type) : Type :=
| Normal (a : A)
| Throw (e : error).

Arguments Normal {A} a.
Arguments Throw {A} e.

(** A decimal is read as the double nearest to it (ties to even), which is
    zero from half the least subnormal, [2 ^ -1075], downwards. *)
Definition roundsToZero (n : number) : bool :=
  (Z.eqb (mantissa n) 0 ||
   (Z.ltb (exponent10 n) 0 &&
    Z.leb (Z.abs (mantissa n) * 2 ^ 1075) (10 ^ (- exponent10 n))))%Z.

(** ToBoolean. *)
Definition toBoolean (v : value) : bool :=
  match v with
  | VUndefined | VNull => false
  | VBool b => b
  | VNumber n => negb (roundsToZero n)
  | VString s => truthy_string s
  | VArray _ | VObject _ => true
  end.

(** The value of the last property of that name: a name that occurs twice
    in a JSON text keeps its last value. *)
Fixpoint lookupProp (k : jsstring) (ps : list (jsstring * value))
    : option value :=
  match ps with
  | [] => None
  | (k', v) :: ps' =>
      match lookupProp k ps' with
      | Some v' => Some v'
      | None => if jseq k k' then Some v else None
      end
  end.

(** [v.k], for the property names of the source ([reason], [message],
    [spans], [label], [path] and so on): none of them is an index, [length]
    or a property of a built-in prototype, so only an object can have one.
    Reading a property of [null] or [undefined] throws. *)
Definition get (v : value) (k : string) : completion value :=
  match v with
  | VUndefined | VNull => Throw TypeError
  | VObject ps =>
      match lookupProp (js k) ps with
      | Some x => Normal x
      | None => Normal VUndefined
      end
  | _ => Normal VUndefined
  end.

(** [v === null]. *)
Definition isNull (v : value) : bool :=
  match v with VNull => true | _ => false end.

(** [v === s] for a string literal [s]. *)
Definition strictEqString (v : value) (s : jsstring) : bool :=
  match v with VString x => jseq x s | _ => false end.

(** [a ?? b]. *)
Definition nullish (v : value) : bool :=
  match v with VUndefined | VNull => true | _ => false end.

(* ===================================================================== *)
(** * [parseCargoDiagnostics] *)
(* ===================================================================== *)

(** The fields of a [Diagnostic] hold what the record held: the
    annotations of the interface are erased when the code runs. *)
Record Diagnostic : Type := mkDiagnostic {
  level : value;
  code : value;
  message : value;
  file : value;
  line : value;
  column : value;
  rendered : value;
  suggestion : value
}.

(** Computations over the array [diagnostics]: what [push] has added stays
    added when an exception is thrown afterwards. *)
Definition M (A : Type) : Type :=
  list Diagnostic -> completion A * list Diagnostic.

Definition ret {A} (a : A) : M A := fun ds => (Normal a, ds).

Definition bind {A B} (c : M A) (f : A -> M B) : M B :=
  fun ds =>
    match c ds with
    | (Normal a, ds') => f a ds'
    | (Throw e, ds') => (Throw e, ds')
    end.

Definition lift {A} (c : completion A) : M A := fun ds => (c, ds).

(** [diagnostics.push(d)]. *)
Definition push (d : Diagnostic) : M unit :=
  fun ds => (Normal tt, ds ++ [d]).

(** [try { body } catch { handler }]. *)
Definition tryCatch {A} (body : M A) (handler : error -> M A) : M A :=
  fun ds =>
    match body ds with
    | (Normal a, ds') => (Normal a, ds')
    | (Throw e, ds') => handler e ds'
    end.

(** [for (const x of xs) body]. *)
Fixpoint forOf {A} (xs : list A) (body : A -> M unit) : M unit :=
  match xs with
  | [] => ret tt
  | x :: xs' => bind (body x) (fun _ => forOf xs' body)
  end.

(** A computation is framed when it only appends to the array it is given:
    its completion and what it appends do not depend on the array. *)
Definition framed {A} (c : M A) : Prop :=
  forall ds, c ds = (fst (c []), ds ++ snd (c [])).

Declare Scope js_scope.
Delimit Scope js_scope with js.
Notation "x <- c ;; k" := (bind c (fun x => k))
  (at level 61, c at next level, right associativity) : js_scope.

(** [arr.find(s => s.label !== null)]: the first element whose [label] is
    not [null]; [undefined] when there is none.  The callback reads a
    property and so throws on an element that is [null]; a value that is
    not an array has no [find] to call. *)
Fixpoint findLabelled (elements : list value) : completion value :=
  match elements with
  | [] => Normal VUndefined
  | s :: rest' =>
      match get s "label" with
      | Throw e => Throw e
      | Normal l => if negb (isNull l) then Normal s else findLabelled rest'
      end
  end.

Definition find_label (spans : value) : completion value :=
  match spans with
  | VArray elements => findLabelled elements
  | _ => Throw TypeError
  end.

(** [spans[0]], read only after [find] has returned, that is on an
    array. *)
Definition index0 (spans : value) : completion value :=
  match spans with
  | VArray (s :: _) => Normal s
  | VArray [] => Normal VUndefined
  | VUndefined | VNull => Throw TypeError
  | _ => Normal VUndefined
  end.

(** [m.code?.code]. *)
Definition optCode (c : value) : completion value :=
  if nullish c then Normal VUndefined else get c "code".

(** A decoded line is a compiler message when its [reason] says so. *)
Definition isCompilerMessage (msg : value) : bool :=
  match get msg "reason" with
  | Normal reason => strictEqString reason (js "compiler-message")
  | Throw _ => false
  end.

(** [m.spans.find((s) => s.label !== null) ?? m.spans[0]] *)
Definition primarySpanOf (spans : value) : completion value :=
  match find_label spans with
  | Throw e => Throw e
  | Normal found => if nullish found then index0 spans else Normal found
  end.

Section Parser.

(** [JSON.parse]: the decoded value, or the exception thrown.  The
    properties below hold for every decoder; [JSON.parse] further down is
    the one the examples run. *)
Variable JSON_parse : jsstring -> completion value.

Local Open Scope js_scope.

(** The statements inside the [try] of the loop. *)
Definition tryBody (line : jsstring) : M unit :=
  msg <- lift (JSON_parse line) ;;
  reason <- lift (get msg "reason") ;;
  cond <- (if strictEqString reason (js "compiler-message")
           then lift (get msg "message")
           else ret (VBool false)) ;;
  if toBoolean cond then
    m <- lift (get msg "message") ;;
    spans <- lift (get m "spans") ;;
    primarySpan <- lift (primarySpanOf spans) ;;
    if toBoolean primarySpan then
      level <- lift (get m "level") ;;
      mcode <- lift (get m "code") ;;
      code <- lift (optCode mcode) ;;
      message <- lift (get m "message") ;;
      file <- lift (get primarySpan "file_name") ;;
      line <- lift (get primarySpan "line_start") ;;
      column <- lift (get primarySpan "column_start") ;;
      rendered <- lift (get m "rendered") ;;
      repl <- lift (get primarySpan "suggested_replacement") ;;
      push (mkDiagnostic level code message file line column rendered
              (if nullish repl then VUndefined else repl))
    else ret tt
  else ret tt.

Definition loopBody (line : jsstring) : M unit :=
  tryCatch (tryBody line) (fun _ => ret tt).

(** The diagnostics one line adds. *)
Definition emitted (line : jsstring) : list Diagnostic :=
  snd (loopBody line []).

(** The lines that are not blank. *)
Definition linesOf (output : jsstring) : list jsstring :=
  filter (fun l => truthy_string (trim l)) (split LF output).

Definition parseCargoDiagnostics (output : jsstring)
    : completion (list Diagnostic) :=
  match forOf (linesOf output) loopBody [] with
  | (Normal _, diagnostics) => Normal diagnostics
  | (Throw e, _) => Throw e
  end.

End Parser.

(** The location of a diagnostic is that of the span (a notion of the
    properties, not of the source). *)
Definition locatedAt (d : Diagnostic) (span : value) : Prop :=
  get span "file_name" = Normal (file d) /\
  get span "line_start" = Normal (line d) /\
  get span "column_start" = Normal (column d).

Definition diagnosticLevels : list value :=
  [VString (js "error"); VString (js "warning"); VString (js "note");
   VString (js "help")].

Definition str (s : string) : value := VString (js s).
Definition num (n : Z) : value := VNumber (mkNumber n 0).

(* ===================================================================== *)
(** * [JSON.parse] *)
(* ===================================================================== *)

(** A decoder of the JSON grammar (ECMA-404), to run the parser on
    concrete texts.  Limits of an engine on the depth of nesting are not
    part of it. *)
Module JSON.

Definition isWs (c : N) : bool :=
  (N.eqb c 32 || N.eqb c 9 || N.eqb c 10 || N.eqb c 13)%N.

Definition skipWs (s : jsstring) : jsstring := dropWhile isWs s.

Definition hexValue (c : N) : option N :=
  if (N.leb 48 c && N.leb c 57)%N then Some (c - 48)%N
  else if (N.leb 97 c && N.leb c 102)%N then Some (c - 87)%N
  else if (N.leb 65 c && N.leb c 70)%N then Some (c - 55)%N
  else None.

Definition hex4 (a b c d : N) : option N :=
  match hexValue a, hexValue b, hexValue c, hexValue d with
  | Some x, Some y, Some z, Some w =>
      Some (((x * 16 + y) * 16 + z) * 16 + w)%N
  | _, _, _, _ => None
  end.

(** The code units of a string, from behind its opening quote to its
    closing quote, and what follows. *)
Fixpoint stringBody (s : jsstring) : option (jsstring * jsstring) :=
  let cons c r :=
    match r with Some (body, s') => Some (c :: body, s') | None => None end in
  match s with
  | [] => None
  | 34%N :: s' => Some ([], s')
  | 92%N :: s' =>
      match s' with
      | 34%N :: s2 => cons 34%N (stringBody s2)
      | 92%N :: s2 => cons 92%N (stringBody s2)
      | 47%N :: s2 => cons 47%N (stringBody s2)
      | 98%N :: s2 => cons 8%N (stringBody s2)
      | 102%N :: s2 => cons 12%N (stringBody s2)
      | 110%N :: s2 => cons 10%N (stringBody s2)
      | 114%N :: s2 => cons 13%N (stringBody s2)
      | 116%N :: s2 => cons 9%N (stringBody s2)
      | 117%N :: a :: b :: c :: d :: s2 =>
          match hex4 a b c d with
          | Some u => cons u (stringBody s2)
          | None => None
          end
      | _ => None
      end
  | c :: s' => if N.ltb c 32 then None else cons c (stringBody s')
  end.

Fixpoint digitsValue (acc : Z) (ds : jsstring) : Z :=
  match ds with
  | [] => acc
  | d :: ds' => digitsValue (acc * 10 + Z.of_N (d - 48)) ds'
  end.

Fixpoint spanDigits (s : jsstring) : jsstring * jsstring :=
  match s with
  | c :: s' =>
      if isDigit c then let (ds, r) := spanDigits s' in (c :: ds, r)
      else ([], s)
  | [] => ([], [])
  end.

(** A number: an optional minus sign, an integer part without a leading
    zero (unless it is zero), an optional fraction, an optional exponent. *)
Definition numberLit (s : jsstring) : option (number * jsstring) :=
  let (neg, s1) :=
    match s with 45%N :: s' => (true, s') | _ => (false, s) end in
  let (int, s2) := spanDigits s1 in
  match int with
  | [] => None
  | 48%N :: _ :: _ => None
  | _ =>
      let fracPart :=
        match s2 with
        | 46%N :: s3 =>
            let (fr, s4) := spanDigits s3 in
            match fr with [] => None | _ => Some (fr, s4) end
        | _ => Some ([], s2)
        end in
      match fracPart with
      | None => None
      | Some (fr, s4) =>
          let expPart :=
            match s4 with
            | c :: s5 =>
                if (N.eqb c 101 || N.eqb c 69)%N then
                  let (eneg, s6) :=
                    match s5 with
                    | 45%N :: s' => (true, s')
                    | 43%N :: s' => (false, s')
                    | _ => (false, s5)
                    end in
                  let (ex, s7) := spanDigits s6 in
                  match ex with
                  | [] => None
                  | _ =>
                      let e := digitsValue 0 ex in
                      Some (if eneg then (- e)%Z else e, s7)
                  end
                else Some (0%Z, s4)
            | [] => Some (0%Z, s4)
            end in
          match expPart with
          | None => None
          | Some (e, s8) =>
              let mag := digitsValue 0 (int ++ fr) in
              Some (mkNumber (if neg then (- mag)%Z else mag)
                      (e - Z.of_nat (List.length fr)), s8)
          end
      end
  end.

Fixpoint parseValue (fuel : nat) (s : jsstring)
    : option (value * jsstring) :=
  match fuel with
  | O => None
  | S fuel' =>
      match skipWs s with
      | 91%N :: s1 =>                                        (* [ *)
          match skipWs s1 with
          | 93%N :: s2 => Some (VArray [], s2)
          | _ =>
              (fix elements (n : nat) (s : jsstring) (acc : list value)
                 : option (value * jsstring) :=
                 match n with
                 | O => None
                 | S n' =>
                     match parseValue fuel' s with
                     | None => None
                     | Some (v, r) =>
                         match skipWs r with
                         | 44%N :: r' => elements n' r' (v :: acc)
                         | 93%N :: r' => Some (VArray (rev (v :: acc)), r')
                         | _ => None
                         end
                     end
                 end) (List.length s1) s1 []
          end
      | 123%N :: s1 =>                                       (* { *)
          match skipWs s1 with
          | 125%N :: s2 => Some (VObject [], s2)
          | _ =>
              (fix members (n : nat) (s : jsstring)
                   (acc : list (jsstring * value))
                 : option (value * jsstring) :=
                 match n with
                 | O => None
                 | S n' =>
                     match skipWs s with
                     | 34%N :: s2 =>
                         match stringBody s2 with
                         | None => None
                         | Some (k, s3) =>
                             match skipWs s3 with
                             | 58%N :: s4 =>
                                 match parseValue fuel' s4 with
                                 | None => None
                                 | Some (v, r) =>
                                     match skipWs r with
                                     | 44%N :: r' =>
                                         members n' r' ((k, v) :: acc)
                                     | 125%N :: r' =>
                                         Some (VObject (rev ((k, v) :: acc)),
                                               r')
                                     | _ => None
                                     end
                                 end
                             | _ => None
                             end
                         end
                     | _ => None
                     end
                 end) (List.length s1) s1 []
          end
      | 34%N :: s1 =>
          match stringBody s1 with
          | Some (body, r) => Some (VString body, r)
          | None => None
          end
      | s0 =>
          if startsWith (js "true") s0 then
            Some (VBool true, skipn 4 s0)
          else if startsWith (js "false") s0 then
            Some (VBool false, skipn 5 s0)
          else if startsWith (js "null") s0 then
            Some (VNull, skipn 4 s0)
          else
            match numberLit s0 with
            | Some (n, r) => Some (VNumber n, r)
            | None => None
            end
      end
  end.

Definition parse (text : jsstring) : completion value :=
  match parseValue (S (List.length text)) text with
  | Some (v, r) =>
      match skipWs r with
      | [] => Normal v
      | _ => Throw SyntaxError
      end
  | None => Throw SyntaxError
  end.

End JSON.

(* ===================================================================== *)
(** * Texts of the toolchain *)
(* ===================================================================== *)

(** A compiler message with one span, and one without spans, as the tests
    of the repository have them. *)
Definition locatedRecord : jsstring :=
  js' "{'reason':'compiler-message','message':{'code':null,'level':'note','message':'some note','spans':[{'file_name':'src/main.rs','line_start':1,'line_end':1,'column_start':1,'column_end':1,'label':null}]}}".

Definition spanlessRecord : jsstring :=
  js' "{'reason':'compiler-message','message':{'code':{'code':'E0001'},'level':'error','message':'error without location','spans':[]}}".

(** A compiler message of two spans: the first has no [label] property,
    the second is labelled. *)
Definition unlabelledFirst : jsstring :=
  js' "{'reason':'compiler-message','message':{'code':null,'level':'error','message':'mismatched types','spans':[{'file_name':'src/a.rs','line_start':1,'line_end':1,'column_start':1,'column_end':2},{'file_name':'src/b.rs','line_start':2,'line_end':2,'column_start':3,'column_end':4,'label':'expected u32'}]}}".

(** A compiler message whose level is none of the four of the interface
    [Diagnostic]; the compiler writes this level on the notes that close a
    failed run. *)
Definition failureNote : jsstring :=
  js' "{'reason':'compiler-message','message':{'code':null,'level':'failure-note','message':'some details are omitted','spans':[{'file_name':'src/main.rs','line_start':1,'line_end':1,'column_start':1,'column_end':1,'label':null}]}}".

(** Lines that are not JSON, a blank line, and a record of another kind. *)
Definition noiseOnly : jsstring :=
  js "warning: unused variable" ++ LF :: js "{ broken json" ++ LF :: LF
    :: js' "{'reason':'build-script-executed'}".

(* ===================================================================== *)
(** * [formatTestResults] *)
(* ===================================================================== *)

Definition nl : jsstring := [LF].

(** The code units of the three pictographs of the report. *)
Definition crossMark : jsstring := [10060%N].
Definition checkMark : jsstring := [9989%N].
Definition nextTrack : jsstring := [9197%N; 65039%N].

Definition hasStatus (s : string) (t : TestResult) : bool :=
  jseq (status t) (js s).

Definition compilationHeading : jsstring := js "Compilation or other error:".

Definition formatTestResults (tests : list TestResult) (summary : jsstring)
    (exitCode : Z) (stderr : jsstring) : jsstring :=
  let output := js "Test Results: " ++ summary ++ nl ++ nl in
  let failed := filter (hasStatus "failed") tests in
  let passed := filter (hasStatus "ok") tests in
  let ignored := filter (hasStatus "ignored") tests in
  let output :=
    if 0 <? List.length failed then
      let output := output ++ crossMark ++ js " Failed tests:" ++ nl in
      let output :=
        fold_left (fun output t => output ++ js "   - " ++ name t ++ nl)
          failed output in
      output ++ nl
    else output in
  let output :=
    if 0 <? List.length passed then
      output ++ checkMark ++ js " Passed: "
        ++ Number_toString (List.length passed) ++ js " tests" ++ nl
    else output in
  let output :=
    if 0 <? List.length ignored then
      output ++ nextTrack ++ js " Ignored: "
        ++ Number_toString (List.length ignored) ++ js " tests" ++ nl
    else output in
  let output :=
    if negb (Z.eqb exitCode 0) && (List.length failed =? 0) then
      output ++ nl ++ compilationHeading ++ nl ++ stderr
    else output in
  output.

Definition failedOf (tests : list TestResult) : list TestResult :=
  filter (hasStatus "failed") tests.

(** The lines of the failed tests. *)
Definition failedLines (failed : list TestResult) : jsstring :=
  flat_map (fun t => js "   - " ++ name t ++ nl) failed.

(** The section of the failed tests: the heading, a line for each name in
    the order of the list, and an empty line; nothing for no failed
    test.  It is written apart from [formatTestResults], to state what
    the function prints. *)
Definition failedSection (failed : list TestResult) : jsstring :=
  match failed with
  | [] => []
  | _ => crossMark ++ js " Failed tests:" ++ nl ++ failedLines failed ++ nl
  end.

(** The line that counts a group of outcomes; nothing for an empty
    group. *)
Definition countLine (mark label : jsstring) (group : list TestResult)
    : jsstring :=
  match group with
  | [] => []
  | _ =>
      mark ++ label ++ Number_toString (List.length group) ++ js " tests"
        ++ nl
  end.

(** The report without the section of the compilation error. *)
Definition reportOf (tests : list TestResult) (summary : jsstring)
    : jsstring :=
  formatTestResults tests summary 0 [].

Definition headingTail : jsstring := js "ompilation or other error:".

(* ===================================================================== *)
(** * The tool-call handler *)
(* ===================================================================== *)

Record CommandResult : Type := mkCommandResult {
  stdout : jsstring;
  stderr : jsstring;
  exitCode : Z
}.

(** The answer to a tool call; [isError] is absent from an answer that
    does not set it. *)
Record Response : Type := mkResponse {
  text : jsstring;
  isError : bool
}.

(** What the handler does to the world outside: the files it looks for and
    the processes it spawns, in order. *)
Inductive event : Type :=
| ExistsSync (path : jsstring)
| Spawn (command : jsstring) (args : list jsstring) (cwd : jsstring).

Definition isSpawn (e : event) : bool :=
  match e with Spawn _ _ _ => true | ExistsSync _ => false end.

(** A computation that appends to the log of events. *)
Definition IO (A : Type) : Type := list event -> A * list event.

Definition ioret {A} (a : A) : IO A := fun log => (a, log).

Definition iobind {A B} (c : IO A) (f : A -> IO B) : IO B :=
  fun log => let (a, log') := c log in f a log'.

Section Handler.

(** The file system and the toolchain, and [path.join] of Node. *)
Variable existsSync : jsstring -> bool.
Variable join : jsstring -> jsstring -> jsstring.
Variable cargo : list jsstring -> jsstring -> CommandResult.

(** [runCargoCommand]: the promise resolves when the process has closed,
    or failed to start. *)
Definition runCargoCommand (args : list jsstring) (cwd : jsstring)
    : IO CommandResult :=
  fun log => (cargo args cwd, log ++ [Spawn (js "cargo") args cwd]).

(** [validateRustProject]; [join] throws on a path that is not a
    string. *)
Definition validateRustProject (path : value) : IO (completion bool) :=
  match path with
  | VString p =>
      fun log =>
        (Normal (existsSync (join p (js "Cargo.toml"))),
         log ++ [ExistsSync (join p (js "Cargo.toml"))])
  | _ => ioret (Throw TypeError)
  end.

(** The [switch] over the tool names, which the handler reaches with the
    name, the arguments and the validated path. *)
Variable switch : jsstring -> value -> jsstring -> IO (completion Response).

(** The handler of [CallToolRequestSchema]. *)
Definition handler (name : jsstring) (args : value)
    : IO (completion Response) :=
  match get args "path" with
  | Throw e => ioret (Throw e)
  | Normal path =>
      if negb (toBoolean path) then
        ioret (Normal (mkResponse (js "Error: path is required") true))
      else
        iobind (validateRustProject path) (fun valid =>
          match valid, path with
          | Throw e, _ => ioret (Throw e)
          | Normal false, VString p =>
              ioret (Normal (mkResponse
                (js "Error: No Cargo.toml found at " ++ p
                   ++ js ". Is this a Rust project?") true))
          | Normal false, _ => ioret (Throw TypeError)
          | Normal true, VString p => switch name args p
          | Normal true, _ => ioret (Throw TypeError)
          end)
  end.

(** The switch cut down to two of its tools, [bacon_test] and
    [bacon_fmt]: every other name falls to the default here. *)
Definition someCases (name : jsstring) (args : value) (path : jsstring)
    : IO (completion Response) :=
  if jseq name (js "bacon_test") then
    match get args "filter", get args "no_capture" with
    | Normal filter, Normal no_capture =>
        let cargoArgs := [js "test"] in
        let pushed :=
          if toBoolean filter then
            match filter with
            | VString f => Normal (cargoArgs ++ [f])
            | _ => Throw TypeError
            end
          else Normal cargoArgs in
        match pushed with
        | Throw e => ioret (Throw e)
        | Normal cargoArgs =>
            let cargoArgs :=
              if toBoolean no_capture
              then cargoArgs ++ [js "--"; js "--nocapture"]
              else cargoArgs in
            iobind (runCargoCommand cargoArgs path) (fun result =>
              let (tests, summary) :=
                parseTestOutput (stderr result ++ stdout result) in
              ioret (Normal (mkResponse
                (formatTestResults tests summary (exitCode result)
                   (stderr result)) false)))
        end
    | Throw e, _ | _, Throw e => ioret (Throw e)
    end
  else if jseq name (js "bacon_fmt") then
    iobind (runCargoCommand [js "fmt"] path) (fun result =>
      ioret (Normal (mkResponse
        (if Z.eqb (exitCode result) 0
         then checkMark ++ js " Code formatted successfully!"
         else crossMark ++ js " Formatting failed:" ++ nl ++ stderr result)
        false)))
  else
    ioret (Normal (mkResponse (js "Unknown tool: " ++ name) true)).

End Handler.

(** A file system without any [Cargo.toml], and a toolchain that answers
    with nothing. *)
Definition noFiles (path : jsstring) : bool := false.
Definition allFiles (path : jsstring) : bool := true.
Definition joinPosix (a b : jsstring) : jsstring := a ++ js "/" ++ b.
Definition silentCargo (args : list jsstring) (cwd : jsstring)
    : CommandResult :=
  mkCommandResult [] [] 0.

(* ===================================================================== *)
(** * Conversions of values *)
(* ===================================================================== *)

(** Evaluations that may throw, in sequence. *)
Definition andThen {A B} (c : completion A) (f : A -> completion B)
    : completion B :=
  match c with
  | Normal a => f a
  | Throw e => Throw e
  end.

Declare Scope completion_scope.
Delimit Scope completion_scope with completion.
Notation "x <- c ;; k" := (andThen c (fun x => k))
  (at level 61, c at next level, right associativity) : completion_scope.

(** The integer a decimal denotes, when it denotes one. *)
Definition integerOf (n : number) : option Z :=
  if (0 <=? exponent10 n)%Z then Some (mantissa n * 10 ^ exponent10 n)%Z
  else
    let d := (10 ^ (- exponent10 n))%Z in
    if (mantissa n mod d =? 0)%Z then Some (mantissa n / d)%Z else None.

(** The decimal digits of an integer, with its sign. *)
Definition Z_toString (z : Z) : jsstring :=
  js (NilZero.string_of_int (Z.to_int z)).

(** A run of digits of the base [b] that is not empty and not all
    zeros. *)
Definition positiveDigits (b : N) (ds : jsstring) : bool :=
  match ds with
  | [] => false
  | _ =>
      forallb (fun c => match JSON.hexValue c with
                        | Some v => N.ltb v b
                        | None => false
                        end) ds
      && existsb (fun c => negb (N.eqb c 48)) ds
  end.

(** [StrUnsignedDecimalLiteral] without [Infinity]: digits with an
    optional fraction and an optional exponent, digits on one side of the
    point at least.  The result is the decimal read, [None] when the text
    is no such literal. *)
Definition unsignedDecimal (s : jsstring) : option number :=
  let (int, s1) := JSON.spanDigits s in
  let (fr, s2) :=
    match s1 with
    | 46%N :: s' => JSON.spanDigits s'
    | _ => ([], s1)
    end in
  match int ++ fr with
  | [] => None
  | _ =>
      let mag := JSON.digitsValue 0 (int ++ fr) in
      let shift := Z.of_nat (List.length fr) in
      match s2 with
      | [] => Some (mkNumber mag (- shift))
      | c :: s3 =>
          if (N.eqb c 101 || N.eqb c 69)%N then
            let (eneg, s4) :=
              match s3 with
              | 45%N :: s' => (true, s')
              | 43%N :: s' => (false, s')
              | _ => (false, s3)
              end in
            let (ex, s5) := JSON.spanDigits s4 in
            match ex, s5 with
            | _ :: _, [] =>
                let e := JSON.digitsValue 0 ex in
                Some (mkNumber mag ((if eneg then - e else e) - shift))
            | _, _ => None
            end
          else None
      end
  end.

(** A Number is greater than zero. *)
Definition positive (n : number) : bool :=
  (0 <? mantissa n)%Z && negb (roundsToZero n).

(** [StringToNumber(s) > 0]: white space around the literal is skipped;
    the literal is a binary, octal or hexadecimal integer without a sign,
    or a decimal with an optional sign; any other text is [NaN]. *)
Definition stringPositive (s : jsstring) : bool :=
  match trim s with
  | 48%N :: x :: ds =>
      if (N.eqb x 120 || N.eqb x 88)%N then positiveDigits 16 ds
      else if (N.eqb x 111 || N.eqb x 79)%N then positiveDigits 8 ds
      else if (N.eqb x 98 || N.eqb x 66)%N then positiveDigits 2 ds
      else match unsignedDecimal (48%N :: x :: ds) with
           | Some n => positive n
           | None => false
           end
  | 45%N :: _ => false
  | t =>
      let u := match t with 43%N :: u => u | _ => t end in
      if jseq u (js "Infinity") then true
      else match unsignedDecimal u with
           | Some n => positive n
           | None => false
           end
  end.

(** [arr.join(sep)] over a conversion of the elements: [undefined] and
    [null] give the empty string. *)
Definition joinValues (toStr : value -> completion jsstring)
    (sep : jsstring) : list value -> completion jsstring :=
  fix join (elements : list value) : completion jsstring :=
    match elements with
    | [] => Normal []
    | x :: rest' =>
        andThen (if nullish x then Normal [] else toStr x) (fun a =>
          match rest' with
          | [] => Normal a
          | _ => andThen (join rest') (fun b => Normal (a ++ sep ++ b))
          end)
    end.

Section Printing.

(** [Number::toString] on the numbers that are not integers below
    [2 ^ 53]: the shortest digits that read back as the same double.  The
    properties hold whatever these are. *)
Variable otherNumber : number -> jsstring.

Definition numberToString (n : number) : jsstring :=
  match integerOf n with
  | Some z => if (Z.abs z <? 2 ^ 53)%Z then Z_toString z else otherNumber n
  | None => otherNumber n
  end.

(** ToString, as a template literal applies it.  The objects are those
    that [JSON.parse] builds: their prototype is [Object.prototype], so an
    object prints as [[object Object]], unless it has a property [toString]
    of its own, which is no function and leaves nothing to call (the
    [valueOf] tried next gives no primitive either); an array prints its
    elements joined by commas. *)
Fixpoint toString (v : value) : completion jsstring :=
  match v with
  | VUndefined => Normal (js "undefined")
  | VNull => Normal (js "null")
  | VBool true => Normal (js "true")
  | VBool false => Normal (js "false")
  | VNumber n => Normal (numberToString n)
  | VString s => Normal s
  | VArray elements => joinValues toString (js ",") elements
  | VObject properties =>
      match lookupProp (js "toString") properties with
      | Some _ => Throw TypeError
      | None => Normal (js "[object Object]")
      end
  end.

(** [v > 0]: the operand is converted to a primitive, a string to the
    Number it spells. *)
Definition greaterThanZero (v : value) : completion bool :=
  match v with
  | VUndefined | VNull => Normal false
  | VBool b => Normal b
  | VNumber n => Normal (positive n)
  | VString s => Normal (stringPositive s)
  | VArray _ | VObject _ =>
      andThen (toString v) (fun s => Normal (stringPositive s))
  end.

End Printing.

(** A stand-in for the examples, none of which prints such a number: the
    digits and the exponent as they were read. *)
Definition noOtherNumber (n : number) : jsstring :=
  Z_toString (mantissa n) ++ js "e" ++ Z_toString (exponent10 n).


(* ===================================================================== *)
(** * [formatDiagnostics] *)
(* ===================================================================== *)

(** The code units of the other pictographs and of the arrow. *)
Definition warningSign : jsstring := [9888%N; 65039%N].
Definition infoSign : jsstring := [8505%N; 65039%N].
Definition arrow : jsstring := [8594%N].
Definition lightBulb : jsstring := [55357%N; 56481%N].

Definition hasLevel (s : string) (d : Diagnostic) : bool :=
  strictEqString (level d) (js s).

Section Report.

Variable otherNumber : number -> jsstring.

Local Open Scope completion_scope.

(** The body of the loop over the diagnostics: what it makes of the
    output so far. *)
Definition formatEntry (output : jsstring) (d : Diagnostic)
    : completion jsstring :=
  let icon :=
    if hasLevel "error" d then crossMark
    else if hasLevel "warning" d then warningSign
    else infoSign in
  code' <- (if toBoolean (code d)
            then c <- toString otherNumber (code d) ;;
                 Normal (js "[" ++ c ++ js "] ")
            else Normal []) ;;
  message' <- toString otherNumber (message d) ;;
  let output := output ++ icon ++ js " " ++ code' ++ message' ++ nl in
  file' <- toString otherNumber (file d) ;;
  line' <- toString otherNumber (line d) ;;
  column' <- toString otherNumber (column d) ;;
  let output :=
    output ++ js "   " ++ arrow ++ js " " ++ file' ++ js ":" ++ line'
      ++ js ":" ++ column' ++ nl in
  output <- (if toBoolean (suggestion d)
             then s <- toString otherNumber (suggestion d) ;;
                  Normal (output ++ js "   " ++ lightBulb
                            ++ js " Suggestion: " ++ s ++ nl)
             else Normal output) ;;
  Normal (output ++ nl).

Definition formatDiagnostics (diagnostics : list Diagnostic)
    : completion jsstring :=
  if List.length diagnostics =? 0 then Normal (js "No issues found.")
  else
    let errors := filter (hasLevel "error") diagnostics in
    let warnings := filter (hasLevel "warning") diagnostics in
    let output :=
      js "Found " ++ Number_toString (List.length errors)
        ++ js " error(s) and " ++ Number_toString (List.length warnings)
        ++ js " warning(s):" ++ nl ++ nl in
    fold_left (fun output d => output <- output ;; formatEntry output d)
      diagnostics (Normal output).

End Report.

(* ===================================================================== *)
(** * [getProjectInfo] *)
(* ===================================================================== *)

Module ProjectInfo.

Record t : Type := mk {
  name : jsstring;
  version : jsstring
}.

End ProjectInfo.

(** The class of the pattern that excludes the double quote; it holds the
    line terminators. *)
Definition notQuote (c : N) : bool := negb (N.eqb c 34).

(** [/name\s*=\s*'([^']+)'/], with the double quotes of the pattern
    written as apostrophes here. *)
Definition nameRe : regex :=
  Seq (Lit (js "name"))
 (Seq (Star true (Class isSpace))
 (Seq (Chr 61)
 (Seq (Star true (Class isSpace))
 (Seq (Chr 34)
 (Seq (Group 1 (Plus true (Class notQuote)))
      (Chr 34)))))).

(** The same pattern for [version]. *)
Definition versionRe : regex :=
  Seq (Lit (js "version"))
 (Seq (Star true (Class isSpace))
 (Seq (Chr 61)
 (Seq (Star true (Class isSpace))
 (Seq (Chr 34)
 (Seq (Group 1 (Plus true (Class notQuote)))
      (Chr 34)))))).

(** [match?.[1] ?? fallback] *)
Definition firstGroupOr (mt : option MatchState) (fallback : jsstring)
    : jsstring :=
  match mt with
  | Some st =>
      match lookup 1 (captures st) with
      | Some s => s
      | None => fallback
      end
  | None => fallback
  end.

Section Files.

Variable join : jsstring -> jsstring -> jsstring.

(** [readFile(path, "utf-8")]: the text of the file, or the exception the
    promise is rejected with. *)
Variable readFile : jsstring -> completion jsstring.

(** [None] is the [null] of the [catch]; [join] throws on a path that is
    not a string, inside the [try]. *)
Definition getProjectInfo (path : value) : option ProjectInfo.t :=
  match path with
  | VString p =>
      match readFile (join p (js "Cargo.toml")) with
      | Normal cargoToml =>
          let nameMatch := exec nameRe cargoToml in
          let versionMatch := exec versionRe cargoToml in
          Some (ProjectInfo.mk
                  (firstGroupOr nameMatch (js "unknown"))
                  (firstGroupOr versionMatch (js "0.0.0")))
      | Throw _ => None
      end
  | _ => None
  end.

End Files.

(* ===================================================================== *)
(** * The process of [runCargoCommand] *)
(* ===================================================================== *)

(** What the child process emits: chunks of its two streams (each already
    turned into a string), [close] with the exit code, which is [null]
    when a signal ended the process, and [error]. *)
Inductive emission : Type :=
| StdoutData (data : jsstring)
| StderrData (data : jsstring)
| Close (code : option Z)
| ProcessError (message : jsstring).

(** The variables of the closure and the value the promise has been
    resolved with, if it has. *)
Record Collector : Type := mkCollector {
  collectedStdout : jsstring;
  collectedStderr : jsstring;
  resolved : option CommandResult
}.

(** [resolve]: a promise keeps its first value. *)
Definition resolve (c : Collector) (r : CommandResult) : Collector :=
  match resolved c with
  | Some _ => c
  | None => mkCollector (collectedStdout c) (collectedStderr c) (Some r)
  end.

(** The four listeners. *)
Definition listen (c : Collector) (e : emission) : Collector :=
  match e with
  | StdoutData data =>
      mkCollector (collectedStdout c ++ data) (collectedStderr c) (resolved c)
  | StderrData data =>
      mkCollector (collectedStdout c) (collectedStderr c ++ data) (resolved c)
  | Close code =>
      resolve c (mkCommandResult (collectedStdout c) (collectedStderr c)
                   (match code with Some n => n | None => 1%Z end))
  | ProcessError message =>
      resolve c (mkCommandResult (collectedStdout c) message 1%Z)
  end.

(** What the promise of [runCargoCommand] holds after the emissions of the
    process; [None] while it is pending. *)
Definition settled (emissions : list emission) : option CommandResult :=
  resolved (fold_left listen emissions (mkCollector [] [] None)).

(* ===================================================================== *)
(** * The tools *)
(* ===================================================================== *)

Record Property : Type := mkProperty {
  propertyName : jsstring;
  propertyType : jsstring;
  propertyDescription : jsstring
}.

Record Tool : Type := mkTool {
  toolName : jsstring;
  toolDescription : jsstring;
  inputProperties : list Property;
  required : list jsstring
}.

Definition pathProperty : Property :=
  mkProperty (js "path") (js "string")
    (js "Absolute path to the Rust project directory (containing Cargo.toml)").

(** The array [tools]. *)
Definition tools : list Tool :=
  [ mkTool (js "bacon_check")
      (js "Run `cargo check` on a Rust project and return all compiler errors and warnings. This is the fastest way to find compilation issues without generating code.")
      [ pathProperty;
        mkProperty (js "all_targets") (js "boolean")
          (js "Check all targets (lib, bins, tests, examples). Default: false");
        mkProperty (js "all_features") (js "boolean")
          (js "Activate all available features. Default: false") ]
      [js "path"];
    mkTool (js "bacon_clippy")
      (js "Run `cargo clippy` on a Rust project for comprehensive linting. Returns warnings about common mistakes, style issues, and potential bugs with suggested fixes.")
      [ pathProperty;
        mkProperty (js "all_targets") (js "boolean")
          (js "Check all targets (lib, bins, tests, examples). Default: true");
        mkProperty (js "pedantic") (js "boolean")
          (js "Enable pedantic lints for stricter checking. Default: false");
        mkProperty (js "fix") (js "boolean")
          (js "Automatically apply suggested fixes where possible. Default: false") ]
      [js "path"];
    mkTool (js "bacon_test")
      (js "Run `cargo test` on a Rust project and return test results. Shows which tests passed, failed, or were ignored.")
      [ pathProperty;
        mkProperty (js "filter") (js "string")
          (js "Filter to run only tests matching this pattern (e.g., 'test_parse')");
        mkProperty (js "no_capture") (js "boolean")
          (js "Show stdout/stderr from tests (don't capture). Default: false") ]
      [js "path"];
    mkTool (js "bacon_build")
      (js "Run `cargo build` on a Rust project. Compiles the project and returns any errors or warnings.")
      [ pathProperty;
        mkProperty (js "release") (js "boolean")
          (js "Build in release mode with optimizations. Default: false");
        mkProperty (js "all_targets") (js "boolean")
          (js "Build all targets. Default: false") ]
      [js "path"];
    mkTool (js "bacon_doc")
      (js "Run `cargo doc` to generate and check documentation. Returns any documentation warnings or errors.")
      [ pathProperty;
        mkProperty (js "no_deps") (js "boolean")
          (js "Don't build documentation for dependencies. Default: true");
        mkProperty (js "open") (js "boolean")
          (js "Open documentation in browser after building. Default: false") ]
      [js "path"];
    mkTool (js "bacon_fmt_check")
      (js "Run `cargo fmt --check` to verify code formatting without modifying files. Returns a list of files that need formatting.")
      [ pathProperty ]
      [js "path"];
    mkTool (js "bacon_fmt")
      (js "Run `cargo fmt` to automatically format all Rust code in the project according to rustfmt rules.")
      [ pathProperty ]
      [js "path"];
    mkTool (js "bacon_audit")
      (js "Run `cargo audit` to check for known security vulnerabilities in dependencies. Requires cargo-audit to be installed.")
      [ pathProperty ]
      [js "path"];
    mkTool (js "rust_project_info")
      (js "Get information about a Rust project including name, version, and basic structure.")
      [ pathProperty ]
      [js "path"] ].

(* ===================================================================== *)
(** * The cases of the tool-call handler *)
(* ===================================================================== *)

Definition package : jsstring := [55357%N; 56550%N].
Definition fileFolder : jsstring := [55357%N; 56513%N].
Definition clipboard : jsstring := [55357%N; 56523%N].
Definition books : jsstring := [55357%N; 56538%N].

(** An effect that may throw, and what follows it when it does not. *)
Definition iotry {A B} (c : IO (completion A))
    (f : A -> IO (completion B)) : IO (completion B) :=
  iobind c (fun r =>
    match r with
    | Normal a => f a
    | Throw e => ioret (Throw e)
    end).

Declare Scope io_scope.
Delimit Scope io_scope with io.
Notation "x <- c ;; k" := (iotry c (fun x => k))
  (at level 61, c at next level, right associativity) : io_scope.

(** An answer without [isError]. *)
Definition answer (text : jsstring) : IO (completion Response) :=
  ioret (Normal (mkResponse text false)).

(** A destructured property with a default: the default stands in for
    [undefined] only. *)
Definition withDefault (default v : value) : value :=
  match v with
  | VUndefined => default
  | _ => v
  end.

(** [cargoArgs.push(...more)] under a condition. *)
Definition pushIf (cond : value) (more cargoArgs : list value)
    : list value :=
  if toBoolean cond then cargoArgs ++ more else cargoArgs.

(** An argument that [spawn] hands to the process as it is: a string
    without the code unit 0. *)
Definition plainArg (v : value) : option jsstring :=
  match v with
  | VString s => if existsb (N.eqb 0) s then None else Some s
  | _ => None
  end.

Fixpoint plainArgs (args : list value) : option (list jsstring) :=
  match args with
  | [] => Some []
  | v :: args' =>
      match plainArg v, plainArgs args' with
      | Some s, Some ss => Some (s :: ss)
      | _, _ => None
      end
  end.

(** [v[0]] on a value that is neither [undefined] nor [null]. *)
Definition at0 (v : value) : value :=
  match v with
  | VArray (x :: _) => x
  | VString (c :: _) => VString [c]
  | VObject properties =>
      match lookupProp (js "0") properties with
      | Some x => x
      | None => VUndefined
      end
  | _ => VUndefined
  end.

(** [v.length] on a value that is neither [undefined] nor [null]. *)
Definition lengthOf (v : value) : value :=
  match v with
  | VString s => VNumber (mkNumber (Z.of_nat (List.length s)) 0)
  | VArray elements => VNumber (mkNumber (Z.of_nat (List.length elements)) 0)
  | VObject properties =>
      match lookupProp (js "length") properties with
      | Some x => x
      | None => VUndefined
      end
  | _ => VUndefined
  end.

(** The strings a string iterator yields: the code points, a surrogate
    pair in one piece. *)
Fixpoint codePoints (s : jsstring) : list jsstring :=
  match s with
  | [] => []
  | a :: s' =>
      match s' with
      | b :: s'' =>
          if (N.leb 55296 a && N.leb a 56319 && N.leb 56320 b
              && N.leb b 57343)%N
          then [a; b] :: codePoints s''
          else [a] :: codePoints s'
      | [] => [[a]]
      end
  end.

(** What [for ... of] iterates over. *)
Definition iterate (v : value) : completion (list value) :=
  match v with
  | VArray elements => Normal elements
  | VString s => Normal (map VString (codePoints s))
  | _ => Throw TypeError
  end.

Section Server.

Variable existsSync : jsstring -> bool.
Variable join : jsstring -> jsstring -> jsstring.
Variable cargo : list jsstring -> jsstring -> CommandResult.
Variable readFile : jsstring -> completion jsstring.
Variable JSON_parse : jsstring -> completion value.
Variable otherNumber : number -> jsstring.

(** What [spawn] makes of arguments that are not all plain: it converts
    them or throws, which depends on the version of the runtime. *)
Variable argvOf : list value -> completion (list jsstring).

(** [runCargoCommand] on the array [cargoArgs]. *)
Definition runCargo (cargoArgs : list value) (cwd : jsstring)
    : IO (completion CommandResult) :=
  match (match plainArgs cargoArgs with
         | Some argv => Normal argv
         | None => argvOf cargoArgs
         end) with
  | Normal argv =>
      iobind (runCargoCommand cargo argv cwd) (fun r => ioret (Normal r))
  | Throw e => ioret (Throw e)
  end.

(** [formatDiagnostics(parseCargoDiagnostics(stdout))] *)
Definition diagnosticsOf (stdout : jsstring) : completion jsstring :=
  andThen (parseCargoDiagnostics JSON_parse stdout)
    (formatDiagnostics otherNumber).

(** The line of one target. *)
Definition targetLine (target : value) : completion jsstring :=
  (name <- get target "name" ;;
   name' <- toString otherNumber name ;;
   kind <- get target "kind" ;;
   kinds <- match kind with
            | VArray elements =>
                joinValues (toString otherNumber) (js ", ") elements
            | _ => Throw TypeError
            end ;;
   Normal (js "   - " ++ name' ++ js " (" ++ kinds ++ js ")" ++ nl)
  )%completion.

(** The loop over the targets, on the output so far: the lines it has
    appended stay when a later target throws. *)
Fixpoint listTargets (targets : list value) (output : jsstring)
    : completion unit * jsstring :=
  match targets with
  | [] => (Normal tt, output)
  | target :: targets' =>
      match targetLine target with
      | Normal l => listTargets targets' (output ++ l)
      | Throw e => (Throw e, output)
      end
  end.

(** The line of the dependencies, if there is to be one. *)
Definition dependenciesLine (pkg : value) : completion jsstring :=
  (dependencies <- get pkg "dependencies" ;;
   let len :=
     if nullish dependencies then VUndefined else lengthOf dependencies in
   more <- greaterThanZero otherNumber len ;;
   if more : bool then
     len' <- toString otherNumber len ;;
     Normal (nl ++ books ++ js " Dependencies: " ++ len' ++ nl)
   else Normal []
  )%completion.

(** The statements inside the [try] of [rust_project_info], on the output
    so far. *)
Definition describeMetadata (stdout output : jsstring)
    : completion unit * jsstring :=
  match (metadata <- JSON_parse stdout ;;
         packages <- get metadata "packages" ;;
         Normal (if nullish packages then VUndefined else at0 packages)
        )%completion with
  | Throw e => (Throw e, output)
  | Normal pkg =>
      if toBoolean pkg then
        let output := output ++ nl ++ clipboard ++ js " Targets:" ++ nl in
        match (targets <- get pkg "targets" ;;
               iterate (if toBoolean targets then targets else VArray [])
              )%completion with
        | Throw e => (Throw e, output)
        | Normal targets =>
            match listTargets targets output with
            | (Throw e, output) => (Throw e, output)
            | (Normal _, output) =>
                match dependenciesLine pkg with
                | Throw e => (Throw e, output)
                | Normal l => (Normal tt, output ++ l)
                end
            end
        end
      else (Normal tt, output)
  end.

Local Open Scope io_scope.

(** The [switch] over the tool names. *)
Definition toolSwitch (name : jsstring) (args : value) (path : jsstring)
    : IO (completion Response) :=
  if jseq name (js "bacon_check") then
    all_targets <- ioret (get args "all_targets") ;;
    all_features <- ioret (get args "all_features") ;;
    let cargoArgs := [str "check"; str "--message-format=json"] in
    let cargoArgs := pushIf all_targets [str "--all-targets"] cargoArgs in
    let cargoArgs := pushIf all_features [str "--all-features"] cargoArgs in
    result <- runCargo cargoArgs path ;;
    text <- ioret (diagnosticsOf (stdout result)) ;;
    answer text
  else if jseq name (js "bacon_clippy") then
    all_targets <- ioret (get args "all_targets") ;;
    pedantic <- ioret (get args "pedantic") ;;
    fix' <- ioret (get args "fix") ;;
    let all_targets := withDefault (VBool true) all_targets in
    let cargoArgs := [str "clippy"; str "--message-format=json"] in
    let cargoArgs := pushIf all_targets [str "--all-targets"] cargoArgs in
    let cargoArgs :=
      pushIf fix' [str "--fix"; str "--allow-dirty"; str "--allow-staged"]
        cargoArgs in
    let cargoArgs :=
      pushIf pedantic [str "--"; str "-W"; str "clippy::pedantic"]
        cargoArgs in
    result <- runCargo cargoArgs path ;;
    text <- ioret (diagnosticsOf (stdout result)) ;;
    answer text
  else if jseq name (js "bacon_test") then
    filter' <- ioret (get args "filter") ;;
    no_capture <- ioret (get args "no_capture") ;;
    let cargoArgs := [str "test"] in
    let cargoArgs := pushIf filter' [filter'] cargoArgs in
    let cargoArgs := pushIf no_capture [str "--"; str "--nocapture"]
                       cargoArgs in
    result <- runCargo cargoArgs path ;;
    let (tests, summary) :=
      parseTestOutput (stderr result ++ stdout result) in
    answer (formatTestResults tests summary (exitCode result)
              (stderr result))
  else if jseq name (js "bacon_build") then
    release <- ioret (get args "release") ;;
    all_targets <- ioret (get args "all_targets") ;;
    let cargoArgs := [str "build"; str "--message-format=json"] in
    let cargoArgs := pushIf release [str "--release"] cargoArgs in
    let cargoArgs := pushIf all_targets [str "--all-targets"] cargoArgs in
    result <- runCargo cargoArgs path ;;
    let output :=
      if Z.eqb (exitCode result) 0
      then checkMark ++ js " Build successful!" ++ nl ++ nl
      else crossMark ++ js " Build failed!" ++ nl ++ nl in
    text <- ioret (diagnosticsOf (stdout result)) ;;
    answer (output ++ text)
  else if jseq name (js "bacon_doc") then
    no_deps <- ioret (get args "no_deps") ;;
    open <- ioret (get args "open") ;;
    let no_deps := withDefault (VBool true) no_deps in
    let cargoArgs := [str "doc"; str "--message-format=json"] in
    let cargoArgs := pushIf no_deps [str "--no-deps"] cargoArgs in
    let cargoArgs := pushIf open [str "--open"] cargoArgs in
    result <- runCargo cargoArgs path ;;
    let output :=
      if Z.eqb (exitCode result) 0
      then checkMark ++ js " Documentation generated successfully!"
             ++ nl ++ nl
      else crossMark ++ js " Documentation generation failed!"
             ++ nl ++ nl in
    text <- ioret (diagnosticsOf (stdout result)) ;;
    answer (output ++ text)
  else if jseq name (js "bacon_fmt_check") then
    result <- runCargo [str "fmt"; str "--check"] path ;;
    if Z.eqb (exitCode result) 0 then
      answer (checkMark ++ js " All files are properly formatted!")
    else
      let unformatted :=
        filter (startsWith (js "Diff in")) (split LF (stdout result)) in
      answer (warningSign ++ js " "
                ++ Number_toString (List.length unformatted)
                ++ js " file(s) need formatting:" ++ nl
                ++ joinLines unformatted ++ nl ++ nl
                ++ js "Run bacon_fmt to fix.")
  else if jseq name (js "bacon_fmt") then
    result <- runCargo [str "fmt"] path ;;
    answer (if Z.eqb (exitCode result) 0
            then checkMark ++ js " Code formatted successfully!"
            else crossMark ++ js " Formatting failed:" ++ nl
                   ++ stderr result)
  else if jseq name (js "bacon_audit") then
    result <- runCargo [str "audit"] path ;;
    if Z.eqb (exitCode result) 0 then
      answer (checkMark
                ++ js " No known vulnerabilities found in dependencies!")
    else
      answer (warningSign ++ js " Security audit results:" ++ nl ++ nl
                ++ stdout result ++ nl ++ stderr result)
  else if jseq name (js "rust_project_info") then
    match getProjectInfo join readFile (VString path) with
    | None =>
        ioret (Normal (mkResponse (js "Error: Could not parse Cargo.toml")
                         true))
    | Some info =>
        treeResult <-
          runCargo [str "metadata"; str "--no-deps";
                    str "--format-version=1"] path ;;
        let output :=
          package ++ js " Project: " ++ ProjectInfo.name info ++ js " v"
            ++ ProjectInfo.version info ++ nl in
        let output := output ++ fileFolder ++ js " Path: " ++ path ++ nl in
        let output := snd (describeMetadata (stdout treeResult) output) in
        answer output
    end
  else
    ioret (Normal (mkResponse (js "Unknown tool: " ++ name) true)).

(** The handler of [CallToolRequestSchema] with its [switch]. *)
Definition callTool (name : jsstring) (args : value)
    : IO (completion Response) :=
  handler existsSync join toolSwitch name args.

End Server.

(* ===================================================================== *)
(** * What a match captures *)
(* ===================================================================== *)

(** The definitions of this part are not taken from the source: they say
    which word a match consumes and which captures it leaves, whatever the
    order in which the matcher tries the alternatives. *)

Definition Captures : Type := list (nat * jsstring).

(** The iterations of a quantifier. *)
Inductive iterated (R : jsstring -> Captures -> Captures -> Prop)
    : jsstring -> Captures -> Captures -> Prop :=
| iterated_nil c : iterated R [] c c
| iterated_cons w1 w2 c c1 c2 :
    R w1 c c1 -> iterated R w2 c1 c2 -> iterated R (w1 ++ w2) c c2.

(** [matches r w c c']: the pattern [r] can consume the word [w], turning
    the captures [c] into [c']. *)
Fixpoint matches (r : regex) (w : jsstring) (c c' : Captures) : Prop :=
  match r with
  | Chr x => w = [x] /\ c' = c
  | Class p => (exists x, w = [x] /\ p x = true) /\ c' = c
  | Seq r1 r2 =>
      exists w1 w2 c1,
        w = w1 ++ w2 /\ matches r1 w1 c c1 /\ matches r2 w2 c1 c'
  | Alt r1 r2 => matches r1 w c c' \/ matches r2 w c c'
  | Star _ r1 => iterated (matches r1) w c c'
  | Group i r1 => exists c1, matches r1 w c c1 /\ c' = (i, w) :: c1
  | Bol => w = [] /\ c' = c
  end.

(** The pattern matches at one of the [n] positions of the text from
    [idx] on. *)
Fixpoint matchesBefore (r : regex) (n idx : nat) (s : jsstring) : bool :=
  match n with
  | O => false
  | S n' =>
      match m r Some (mkState idx s []) with
      | Some _ => true
      | None =>
          match s with
          | [] => false
          | _ :: s' => matchesBefore r n' (S idx) s'
          end
      end
  end.

(** The text assigns a quoted value to a key, after [pre]: the key, an
    equals sign with white space around it at will, and the value between
    double quotes. *)
Definition assigns (key value' pre post text : jsstring) : Prop :=
  exists ws1 ws2,
    text = pre ++ key ++ ws1 ++ [61%N] ++ ws2 ++ [34%N] ++ value'
               ++ [34%N] ++ post
    /\ forallb isSpace ws1 = true /\ forallb isSpace ws2 = true.

(** A value that is no array and no object. *)
Definition isPrimitive (v : value) : bool :=
  match v with
  | VArray _ | VObject _ => false
  | _ => true
  end.

(** The fields of a diagnostic that the report prints. *)
Definition printedFields (d : Diagnostic) : list value :=
  [code d; message d; file d; line d; column d; suggestion d].

(** The first line of the report. *)
Definition foundLine (diagnostics : list Diagnostic) : jsstring :=
  js "Found "
    ++ Number_toString (List.length (filter (hasLevel "error") diagnostics))
    ++ js " error(s) and "
    ++ Number_toString (List.length (filter (hasLevel "warning") diagnostics))
    ++ js " warning(s):" ++ nl ++ nl.

(** A run of white space that is not empty. *)
Definition isSpaces (ws : jsstring) : Prop :=
  ws <> [] /\ forallb isSpace ws = true.

(** The three words of the outcome pattern. *)
Definition outcomeWords : list jsstring :=
  [js "ok"; js "FAILED"; js "ignored"].

(** What follows the key in the two patterns of [getProjectInfo]. *)
Definition quotedValue : regex :=
  Seq (Star true (Class isSpace))
 (Seq (Chr 61)
 (Seq (Star true (Class isSpace))
 (Seq (Chr 34)
 (Seq (Group 1 (Plus true (Class notQuote)))
      (Chr 34))))).

(** The emissions that settle the promise. *)
Definition isSettling (e : emission) : bool :=
  match e with
  | Close _ | ProcessError _ => true
  | StdoutData _ | StderrData _ => false
  end.

(** The chunks of one stream, in order. *)
Definition stdoutOf (emissions : list emission) : jsstring :=
  flat_map (fun e => match e with StdoutData data => data | _ => [] end)
    emissions.

Definition stderrOf (emissions : list emission) : jsstring :=
  flat_map (fun e => match e with StderrData data => data | _ => [] end)
    emissions.

(** The names of the tools. *)
Definition toolNames : list jsstring := map toolName tools.

(** How a case of the [switch] ends: with an exception before any
    process; with one of its two refusals before any process; or, for a
    tool of the list, after one process, with an exception or an answer
    that is no error. *)
Definition switchOutcome (name path : jsstring) (log : list event)
    (res : completion Response * list event) : Prop :=
  (exists e, res = (Throw e, log))
  \/ (exists resp,
        res = (Normal resp, log) /\ isError resp = true
        /\ ((text resp = js "Unknown tool: " ++ name
             /\ ~ In name toolNames)
            \/ (text resp = js "Error: Could not parse Cargo.toml"
                /\ name = js "rust_project_info")))
  \/ (exists argv,
        In name toolNames
        /\ snd res = log ++ [Spawn (js "cargo") argv path]
        /\ ((exists e, fst res = Throw e)
            \/ exists resp, fst res = Normal resp /\ isError resp = false)).

(** What follows the process in every case: no effect, and no error in
    the answer. *)
Definition quiet (c : IO (completion Response)) : Prop :=
  forall log,
    (exists e, c log = (Throw e, log))
    \/ exists resp, c log = (Normal resp, log) /\ isError resp = false.

(** [v[k]] for a property name that is given as a value: [get] on the
    code units of the name. *)
Definition getKey (v : value) (k : jsstring) : completion value :=
  match v with
  | VUndefined | VNull => Throw TypeError
  | VObject ps =>
      match lookupProp k ps with
      | Some x => Normal x
      | None => Normal VUndefined
      end
  | _ => Normal VUndefined
  end.

(** Two readings of a flag that are true together and given together. *)
Definition sameTruth (c1 c2 : completion value) : Prop :=
  match c1, c2 with
  | Normal v1, Normal v2 =>
      toBoolean v1 = toBoolean v2 /\ (v1 = VUndefined <-> v2 = VUndefined)
  | Throw e1, Throw e2 => e1 = e2
  | _, _ => False
  end.

(** Two objects of arguments agree on a property of a schema: on a
    boolean property as flags, on another property as values. *)
Definition agreeAt (pr : Property) (args1 args2 : value) : Prop :=
  if jseq (propertyType pr) (js "boolean")
  then sameTruth (getKey args1 (propertyName pr))
         (getKey args2 (propertyName pr))
  else getKey args1 (propertyName pr) = getKey args2 (propertyName pr).

(* ===================================================================== *)
(** * A project and a toolchain for the examples *)
(* ===================================================================== *)

(** A manifest whose package declares its least compiler before its own
    version. *)
Definition sampleManifest : jsstring :=
  js' "[package]" ++ nl ++ js' "name = 'demo'" ++ nl
    ++ js' "rust-version = '1.70'" ++ nl ++ js' "version = '0.1.0'" ++ nl.

Definition readManifest (path : jsstring) : completion jsstring :=
  Normal sampleManifest.

Definition unreadable (path : jsstring) : completion jsstring :=
  Throw TypeError.

Definition sampleArgs : value := VObject [(js "path", str "/crate")].

(** A toolchain that fails before it compiles anything, and one that
    prints what a successful run of each command prints. *)
Definition failingCargo (args : list jsstring) (cwd : jsstring)
    : CommandResult :=
  mkCommandResult [] (js "error: could not find `Cargo.lock`") 101.

Definition sampleMetadata : jsstring :=
  js' "{'packages':[{'name':'demo','targets':[{'name':'demo','kind':['lib','rlib']},{'name':'cli','kind':['bin']}],'dependencies':[{'name':'serde'},{'name':'log'}]},{'name':'other'}]}".

Definition brokenMetadata : jsstring :=
  js' "{'packages':[{'name':'demo','targets':[{'name':'demo','kind':['lib']},{'name':'cli','kind':'bin'},{'name':'late','kind':['bin']}],'dependencies':[{'name':'serde'}]}]}".

Definition workingCargo (args : list jsstring) (cwd : jsstring)
    : CommandResult :=
  match args with
  | sub :: _ =>
      if jseq sub (js "metadata") then mkCommandResult sampleMetadata [] 0
      else if jseq sub (js "test") then
        mkCommandResult
          (js "running 2 tests" ++ nl ++ js "test tests::adds ... ok" ++ nl
             ++ js "test tests::subtracts ... FAILED" ++ nl ++ nl
             ++ js "test result: FAILED. 1 passed; 1 failed; 0 ignored"
             ++ nl)
          (js "   Compiling demo v0.1.0" ++ nl) 101
      else if jseq sub (js "fmt") then
        mkCommandResult
          (js "Diff in /crate/src/lib.rs:1:" ++ nl ++ js "-fn  f(){}" ++ nl
             ++ js "+fn f() {}" ++ nl) [] 1
      else mkCommandResult locatedRecord [] 0
  | [] => mkCommandResult [] [] 0
  end.

(** A runtime whose [spawn] refuses what is not plain. *)
Definition refuseOdd (args : list value) : completion (list jsstring) :=
  Throw TypeError.

(* ===================================================================== *)
(** * Facts on the diagnostics parser *)
(* ===================================================================== *)

(** The comparison of strings decides their equality. *)
Lemma jseq_spec a b : reflect (a = b) (jseq a b).
Proof.
  unfold jseq. destruct (list_eq_dec N.eq_dec a b); constructor; assumption.
Qed.

Lemma framed_ret A (a : A) : framed (ret a).
Proof. intros ds. cbn. now rewrite app_nil_r. Qed.

Lemma framed_lift A (c : completion A) : framed (lift c).
Proof. intros ds. cbn. now rewrite app_nil_r. Qed.

Lemma framed_push d : framed (push d).
Proof. intros ds. reflexivity. Qed.

Lemma framed_bind A B (c : M A) (f : A -> M B) :
  framed c -> (forall a, framed (f a)) -> framed (bind c f).
Proof.
  intros Hc Hf ds. unfold bind.
  rewrite (Hc ds). destruct (c []) as [[a|e] app0]; cbn [fst snd].
  - rewrite (Hf a (ds ++ app0)), (Hf a app0). cbn [fst snd].
    now rewrite app_assoc.
  - reflexivity.
Qed.

Lemma framed_tryCatch A (c : M A) (h : error -> M A) :
  framed c -> (forall e, framed (h e)) -> framed (tryCatch c h).
Proof.
  intros Hc Hh ds. unfold tryCatch.
  rewrite (Hc ds). destruct (c []) as [[a|e] app0]; cbn [fst snd].
  - reflexivity.
  - rewrite (Hh e (ds ++ app0)), (Hh e app0). cbn [fst snd].
    now rewrite app_assoc.
Qed.

Lemma framed_if A (b : bool) (x y : M A) :
  framed x -> framed y -> framed (if b then x else y).
Proof. now destruct b. Qed.

Create HintDb framed.
#[local] Hint Resolve framed_ret framed_lift framed_push framed_bind
  framed_tryCatch framed_if : framed.

(** Case analysis on the innermost scrutinee of the goal, or of [H]. *)
Ltac innermost x :=
  lazymatch x with
  | context [match _ with _ => _ end] => fail
  | _ => idtac
  end.

Ltac step :=
  match goal with
  | |- context [match ?x with _ => _ end] =>
      innermost x; destruct x eqn:?
  end.

Ltac step_in H :=
  match type of H with
  | context [match ?x with _ => _ end] =>
      innermost x; destruct x eqn:?
  end.

Lemma split_nonempty sep s : split sep s <> [].
Proof.
  destruct s as [|c s]; cbn; [discriminate|].
  destruct (N.eqb c sep); [discriminate|].
  destruct (split sep s); discriminate.
Qed.

(** Splitting distributes over a separator. *)
Lemma split_app sep a b :
  split sep (a ++ sep :: b) = split sep a ++ split sep b.
Proof.
  induction a as [|c a IH]; cbn.
  - now rewrite N.eqb_refl.
  - destruct (N.eqb c sep); [now rewrite IH|].
    rewrite IH. pose proof (split_nonempty sep a) as Hne.
    destruct (split sep a); [contradiction|reflexivity].
Qed.

(** Splitting undoes joining, for lines that hold no line feed. *)
Lemma split_joinLines lines :
  lines <> [] -> Forall (fun l => split LF l = [l]) lines ->
  split LF (joinLines lines) = lines.
Proof.
  induction lines as [|l lines IH]; intros Hne Hall; [contradiction|].
  inversion Hall as [|? ? Hl Hrest]; subst.
  destruct lines as [|l' lines]; [exact Hl|].
  change (joinLines (l :: l' :: lines))
    with (l ++ LF :: joinLines (l' :: lines)).
  rewrite split_app, Hl, IH; [reflexivity|discriminate|assumption].
Qed.

Lemma linesOf_app a b : linesOf (a ++ LF :: b) = linesOf a ++ linesOf b.
Proof. unfold linesOf. now rewrite split_app, filter_app. Qed.

Lemma linesOf_In line output :
  In line (linesOf output) -> In line (split LF output).
Proof. unfold linesOf. rewrite filter_In. tauto. Qed.

(** The members of an array that [find] can return. *)
Lemma findLabelled_In elements s :
  findLabelled elements = Normal s -> nullish s = false -> In s elements.
Proof.
  induction elements as [|x xs IH]; cbn; intros H Hs.
  - injection H as <-. discriminate.
  - destruct (get x "label") as [l|]; [|discriminate].
    destruct (negb (isNull l)).
    + injection H as ->. now left.
    + right. now apply IH.
Qed.

Section ParserFacts.

Variable JSON_parse : jsstring -> completion value.

Lemma framed_tryBody line : framed (tryBody JSON_parse line).
Proof. unfold tryBody. auto 30 with framed. Qed.

Lemma framed_loopBody line : framed (loopBody JSON_parse line).
Proof.
  unfold loopBody. apply framed_tryCatch.
  - apply framed_tryBody.
  - intros _. apply framed_ret.
Qed.

(** The [catch] leaves no exception behind. *)
Lemma loopBody_spec line ds :
  loopBody JSON_parse line ds = (Normal tt, ds ++ emitted JSON_parse line).
Proof.
  rewrite (framed_loopBody line ds). unfold emitted. f_equal.
  unfold loopBody, tryCatch.
  destruct (tryBody JSON_parse line []) as [[[]|e] ds']; reflexivity.
Qed.

Lemma forOf_loopBody lines ds :
  forOf lines (loopBody JSON_parse) ds
  = (Normal tt, ds ++ flat_map (emitted JSON_parse) lines).
Proof.
  revert ds. induction lines as [|l lines IH]; intros ds; cbn [forOf flat_map].
  - cbn. now rewrite app_nil_r.
  - unfold bind. rewrite loopBody_spec, IH. now rewrite app_assoc.
Qed.

Lemma parseCargoDiagnostics_spec output :
  parseCargoDiagnostics JSON_parse output
  = Normal (flat_map (emitted JSON_parse) (linesOf output)).
Proof.
  unfold parseCargoDiagnostics. now rewrite forOf_loopBody.
Qed.

Ltac open_body :=
  unfold emitted, loopBody, tryCatch, tryBody, bind, lift, ret, push;
  cbn [fst snd app].

Lemma emitted_throw line e :
  JSON_parse line = Throw e -> emitted JSON_parse line = [].
Proof. intros H. open_body. now rewrite H. Qed.

Lemma emitted_other line msg :
  JSON_parse line = Normal msg -> isCompilerMessage msg = false ->
  emitted JSON_parse line = [].
Proof.
  unfold isCompilerMessage. intros H Hr. open_body. rewrite H.
  destruct (get msg "reason") as [reason|]; [|reflexivity].
  now rewrite Hr.
Qed.

(** What a line adds comes from a span of the record it decodes to. *)
Lemma emitted_In ln d :
  In d (emitted JSON_parse ln) ->
  exists msg body spans span,
    JSON_parse ln = Normal msg /\
    isCompilerMessage msg = true /\
    get msg "message" = Normal body /\
    get body "spans" = Normal (VArray spans) /\
    In span spans /\
    get body "level" = Normal (level d) /\
    get span "file_name" = Normal (file d) /\
    get span "line_start" = Normal (line d) /\
    get span "column_start" = Normal (column d).
Proof.
  open_body. unfold isCompilerMessage. intros H.
  repeat (step_in H; cbn [fst snd app In] in H; try contradiction).
  all: try (destruct H as [<-|[]]).
  all: repeat match goal with
         | E : (_, _) = (_, _) |- _ => injection E as ? ?; subst
         | E : (if ?b then _ else _) _ = _ |- _ => destruct b eqn:?
         | E : Normal _ = Normal _ |- _ => injection E as ?; subst
         end; try discriminate; try contradiction.
  all: match goal with
       | F : primarySpanOf ?sp = Normal _ |- _ =>
           unfold primarySpanOf in F;
           destruct sp as [| | | | |elements|]; try discriminate;
           cbn [find_label] in F;
           destruct (findLabelled elements) as [found|] eqn:Hfound;
           [|discriminate]; destruct (nullish found) eqn:Hnull
       end.
  all: match goal with
       | P : JSON_parse _ = Normal ?msg, B : get ?msg "message" = Normal ?b,
         T : toBoolean ?s = true |- _ =>
           exists msg, b, elements, s
       end.
  all: cbn [level file line column].
  all: repeat split; try assumption.
  all: try (match goal with R : get _ "reason" = _ |- _ => now rewrite R end).
  all: try (match goal with
            | F : Normal _ = Normal _ |- _ =>
                injection F as <-; now apply findLabelled_In
            end).
  all: match goal with
       | I : index0 (VArray ?els) = Normal ?s, T : toBoolean ?s = true |- _ =>
           destruct els; cbn in I; injection I as <-;
           [discriminate T | now left]
       end.
Qed.


(** The diagnostic of a compiler message that has a primary span. *)
Lemma emitted_located ln msg body spans span :
  JSON_parse ln = Normal msg ->
  isCompilerMessage msg = true ->
  get msg "message" = Normal body ->
  toBoolean body = true ->
  get body "spans" = Normal spans ->
  primarySpanOf spans = Normal span ->
  toBoolean span = true ->
  exists lv c ms f l cl r sr,
    get body "level" = Normal lv /\ get body "message" = Normal ms /\
    get body "rendered" = Normal r /\
    get span "file_name" = Normal f /\ get span "line_start" = Normal l /\
    get span "column_start" = Normal cl /\
    get span "suggested_replacement" = Normal sr /\
    emitted JSON_parse ln
    = [mkDiagnostic lv c ms f l cl r (if nullish sr then VUndefined else sr)].
Proof.
  unfold isCompilerMessage.
  intros H Hr Hb Tb Hs Hp Ts. open_body. rewrite H.
  destruct (get msg "reason") as [reason|]; [|discriminate].
  rewrite Hr, Hb, Tb, Hs.
  rewrite Hp, Ts.
  assert (Hg : forall v k, toBoolean v = true -> exists x, get v k = Normal x).
  { intros v k Hv. destruct v; try discriminate; cbn; eauto.
    destruct (lookupProp _ properties); eauto. }
  destruct (Hg body "level"%string Tb) as [lv ->].
  destruct (Hg body "code"%string Tb) as [mc ->].
  assert (Hc : exists c, optCode mc = Normal c).
  { unfold optCode. destruct mc; cbn; eauto.
    destruct (lookupProp _ properties); eauto. }
  destruct Hc as [c ->].
  destruct (Hg body "message"%string Tb) as [ms ->].
  destruct (Hg span "file_name"%string Ts) as [f ->].
  destruct (Hg span "line_start"%string Ts) as [l ->].
  destruct (Hg span "column_start"%string Ts) as [cl ->].
  destruct (Hg body "rendered"%string Tb) as [r ->].
  destruct (Hg span "suggested_replacement"%string Ts) as [sr ->].
  exists lv, c, ms, f, l, cl, r, sr. repeat split; reflexivity.
Qed.

Lemma emitted_length ln : List.length (emitted JSON_parse ln) <= 1.
Proof.
  open_body.
  repeat (step; cbn [fst snd app List.length]; try lia).
Qed.

End ParserFacts.

Lemma flat_map_nil A B (f : A -> list B) l :
  (forall x, In x l -> f x = []) -> flat_map f l = [].
Proof.
  induction l as [|x l IH]; intros H; [reflexivity|].
  cbn. rewrite (H x) by now left. apply IH. intros y Hy. apply H. now right.
Qed.

Lemma parse_one_line JSON_parse ln :
  linesOf ln = [ln] ->
  parseCargoDiagnostics JSON_parse ln = Normal (emitted JSON_parse ln).
Proof.
  intros H. rewrite parseCargoDiagnostics_spec, H. cbn.
  now rewrite app_nil_r.
Qed.

Lemma truthy_not_nullish v : toBoolean v = true -> nullish v = false.
Proof. now destruct v. Qed.

(* ===================================================================== *)
(** * Facts on the matcher *)
(* ===================================================================== *)

Lemma startsWith_app l x : startsWith l (l ++ x) = true.
Proof.
  induction l as [|c l IH]; cbn; [reflexivity|]. now rewrite N.eqb_refl.
Qed.

Lemma startsWith_true l s :
  startsWith l s = true -> s = l ++ skipn (List.length l) s.
Proof.
  revert s. induction l as [|c l IH]; intros [|x s]; cbn; try discriminate;
    try reflexivity.
  intros H. apply andb_prop in H as [Hc Hl]. apply N.eqb_eq in Hc as ->.
  f_equal. now apply IH.
Qed.

Lemma skipn_length_app (l x : jsstring) : skipn (List.length l) (l ++ x) = x.
Proof. induction l; cbn; auto. Qed.

Lemma firstn_length_app (l x : jsstring) : firstn (List.length l) (l ++ x) = l.
Proof. induction l; cbn; [reflexivity|now f_equal]. Qed.

Lemma repeatMatcher_S mr greedy k fuel st :
  repeatMatcher mr greedy k (S fuel) st
  = if greedy
    then orElse (mr (fun st' => if endIndex st <? endIndex st'
                                then repeatMatcher mr greedy k fuel st'
                                else None) st) (k st)
    else orElse (k st)
           (mr (fun st' => if endIndex st <? endIndex st'
                           then repeatMatcher mr greedy k fuel st'
                           else None) st).
Proof. reflexivity. Qed.

Lemma m_Class_cons p k i x s caps :
  m (Class p) k (mkState i (x :: s) caps)
  = if p x then k (mkState (S i) s caps) else None.
Proof. reflexivity. Qed.

Lemma m_Class_nil p k i caps : m (Class p) k (mkState i [] caps) = None.
Proof. reflexivity. Qed.

Section Matcher.

Variable k : MatchState -> option MatchState.

(** A literal consumes itself. *)
Lemma m_Lit l : forall i s caps,
  m (Lit l) k (mkState i (l ++ s) caps)
  = k (mkState (i + List.length l) s caps).
Proof.
  induction l as [|c l IH]; intros i s caps.
  - cbn [Lit m app rest List.length]. rewrite Nat.add_0_r.
    destruct s as [|x s]; cbn; reflexivity.
  - destruct l as [|c' l].
    + cbn. rewrite N.eqb_refl. unfold advance. cbn. now rewrite Nat.add_1_r.
    + change (Lit (c :: c' :: l)) with (Seq (Chr c) (Lit (c' :: l))).
      change ((c :: c' :: l) ++ s) with (c :: ((c' :: l) ++ s)).
      cbn [m rest]. rewrite N.eqb_refl. unfold advance.
      cbn [endIndex captures]. rewrite (IH (S i) s caps).
      do 2 f_equal. cbn [List.length]. lia.
Qed.

(** A literal fails where the input does not start with it. *)
Lemma m_Lit_fail l : forall i s caps,
  startsWith l s = false -> m (Lit l) k (mkState i s caps) = None.
Proof.
  induction l as [|c l IH]; intros i s caps H; [discriminate|].
  destruct l as [|c' l].
  - cbn in *. destruct s as [|x s]; [reflexivity|].
    rewrite andb_true_r in H. rewrite N.eqb_sym, H. reflexivity.
  - change (Lit (c :: c' :: l)) with (Seq (Chr c) (Lit (c' :: l))).
    cbn [m rest]. destruct s as [|x s]; [reflexivity|].
    cbn [startsWith] in H. rewrite (N.eqb_sym x c).
    destruct (N.eqb c x); [|reflexivity].
    unfold advance. cbn [endIndex captures]. now apply IH.
Qed.

(** A greedy run over a class takes all of it when what follows the
    quantifier accepts that. *)
Lemma repeat_greedy p w : forall fuel i tail caps res,
  forallb p w = true -> stopsAt p tail -> List.length w <= fuel ->
  k (mkState (i + List.length w) tail caps) = Some res ->
  repeatMatcher (m (Class p)) true k fuel (mkState i (w ++ tail) caps)
  = Some res.
Proof.
  induction w as [|c w IH]; intros fuel i tail caps res Hw Ht Hf Hk.
  - cbn [List.length app] in *. rewrite Nat.add_0_r in Hk.
    destruct fuel as [|fuel]; [exact Hk|].
    rewrite repeatMatcher_S.
    destruct tail as [|x tail].
    + now rewrite m_Class_nil.
    + rewrite m_Class_cons. cbn in Ht. now rewrite Ht.
  - cbn [forallb] in Hw. apply andb_prop in Hw as [Hc Hw].
    destruct fuel as [|fuel]; [cbn in Hf; lia|].
    rewrite repeatMatcher_S. cbn [app]. rewrite m_Class_cons, Hc.
    cbn [endIndex].
    replace (i <? S i) with true by (symmetry; apply Nat.ltb_lt; lia).
    rewrite (IH fuel (S i) tail caps res); try assumption.
    + reflexivity.
    + cbn in Hf. lia.
    + rewrite <- Hk. do 2 f_equal. cbn. lia.
Qed.

(** A lazy run over a class stops at the first place where what follows
    the quantifier accepts. *)
Lemma repeat_lazy p w : forall fuel i tail caps res,
  forallb p w = true -> List.length w <= fuel ->
  (forall i' c s', In c w -> k (mkState i' (c :: s') caps) = None) ->
  k (mkState (i + List.length w) tail caps) = Some res ->
  repeatMatcher (m (Class p)) false k fuel (mkState i (w ++ tail) caps)
  = Some res.
Proof.
  induction w as [|c w IH]; intros fuel i tail caps res Hw Hf Hn Hk.
  - cbn [List.length app] in *. rewrite Nat.add_0_r in Hk.
    destruct fuel as [|fuel]; [exact Hk|].
    rewrite repeatMatcher_S. now rewrite Hk.
  - cbn [forallb] in Hw. apply andb_prop in Hw as [Hc Hw].
    destruct fuel as [|fuel]; [cbn in Hf; lia|].
    rewrite repeatMatcher_S. cbn [app].
    rewrite (Hn i c (w ++ tail)) by now left.
    cbn [orElse]. rewrite m_Class_cons, Hc. cbn [endIndex].
    replace (i <? S i) with true by (symmetry; apply Nat.ltb_lt; lia).
    apply IH; try assumption.
    + cbn in Hf. lia.
    + intros i' c' s' Hin. apply Hn. now right.
    + rewrite <- Hk. do 2 f_equal. cbn. lia.
Qed.

End Matcher.

(** A capture of one or more digits, as [(\d+)] takes them. *)
Lemma m_group_digits g d tail i caps k res :
  d <> [] -> forallb isDigit d = true -> stopsAt isDigit tail ->
  k (mkState (i + List.length d) tail ((g, d) :: caps)) = Some res ->
  m (Group g (Plus true (Class isDigit))) k (mkState i (d ++ tail) caps)
  = Some res.
Proof.
  intros Hd Hall Ht Hk. destruct d as [|c d]; [contradiction|].
  cbn [forallb] in Hall. apply andb_prop in Hall as [Hc Hall].
  unfold Plus.
  change (m (Group g (Seq (Class isDigit) (Star true (Class isDigit)))) k
            (mkState i ((c :: d) ++ tail) caps))
    with (m (Class isDigit)
            (fun st => repeatMatcher (m (Class isDigit)) true
                         (fun st' => k (setCapture g
                                          (mkState i ((c :: d) ++ tail) caps)
                                          st'))
                         (List.length (rest st)) st)
            (mkState i (c :: d ++ tail) caps)).
  rewrite m_Class_cons, Hc. cbn [rest].
  apply repeat_greedy; try assumption.
  - rewrite length_app. lia.
  - unfold setCapture. cbn [endIndex rest captures].
    replace (S i + List.length d - i) with (List.length (c :: d))
      by (cbn [List.length]; lia).
    rewrite firstn_length_app. rewrite <- Hk. do 2 f_equal.
    cbn [List.length]. lia.
Qed.

(** A lazy capture, as [(.*?)] takes it: up to the first place where the
    rest of the pattern matches. *)
Lemma m_group_lazy g w tail i caps k res :
  forallb isDot w = true ->
  (forall i' c s' caps', In c w -> k (mkState i' (c :: s') caps') = None) ->
  k (mkState (i + List.length w) tail ((g, w) :: caps)) = Some res ->
  m (Group g (Star false (Class isDot))) k (mkState i (w ++ tail) caps)
  = Some res.
Proof.
  intros Hall Hn Hk.
  change (m (Group g (Star false (Class isDot))) k
            (mkState i (w ++ tail) caps))
    with (repeatMatcher (m (Class isDot)) false
            (fun st' => k (setCapture g (mkState i (w ++ tail) caps) st'))
            (List.length (w ++ tail)) (mkState i (w ++ tail) caps)).
  apply repeat_lazy; try assumption.
  - rewrite length_app. lia.
  - intros i' c s' Hin. unfold setCapture. cbn [endIndex rest captures].
    now apply Hn.
  - unfold setCapture. cbn [endIndex rest captures].
    replace (i + List.length w - i) with (List.length w) by lia.
    now rewrite firstn_length_app.
Qed.

Lemma m_Seq r1 r2 k st : m (Seq r1 r2) k st = m r1 (m r2 k) st.
Proof. reflexivity. Qed.

Lemma search_eq r idx s :
  search r idx s
  = match m r Some (mkState idx s []) with
    | Some st => Some st
    | None => match s with
              | [] => None
              | _ :: s' => search r (S idx) s'
              end
    end.
Proof. destruct s; reflexivity. Qed.

Lemma isCount_spec d :
  isCount d = true -> d <> [] /\ forallb isDigit d = true.
Proof.
  unfold isCount. intros H. apply andb_prop in H as [H1 H2].
  split; [|assumption]. now destruct d.
Qed.

Lemma isStatusWord_spec w :
  isStatusWord w = true ->
  forallb isDot w = true /\ forall c, In c w -> N.eqb c 46 = false.
Proof.
  unfold isStatusWord. induction w as [|x w IH]; cbn.
  - intros _. split; [reflexivity|]. intros c [].
  - intros H. apply andb_prop in H as [Hx Hw].
    apply andb_prop in Hx as [Hd Hne]. destruct (IH Hw) as [IH1 IH2].
    rewrite Hd, IH1. split; [reflexivity|].
    intros c [<-|Hin]; [now apply negb_true_iff in Hne|now apply IH2].
Qed.

(** The search returns the match at the first start position at which
    the pattern matches. *)
Lemma search_first r : forall i text idx st,
  i <= List.length text ->
  (forall j, j < i ->
             m r Some (mkState (idx + j) (skipn j text) []) = None) ->
  m r Some (mkState (idx + i) (skipn i text) []) = Some st ->
  search r idx text = Some st.
Proof.
  induction i as [|i IH]; intros text idx st Hlen Hbefore Hat;
    rewrite search_eq.
  - rewrite Nat.add_0_r in Hat. cbn [skipn] in Hat. now rewrite Hat.
  - pose proof (Hbefore 0 (Nat.lt_0_succ i)) as H0.
    rewrite Nat.add_0_r in H0. cbn [skipn] in H0. rewrite H0.
    destruct text as [|c text]; [cbn in Hlen; lia|].
    apply IH.
    + cbn in Hlen. lia.
    + intros j Hj. specialize (Hbefore (S j) ltac:(lia)).
      cbn [skipn] in Hbefore. now rewrite Nat.add_succ_r in Hbefore.
    + cbn [skipn] in Hat. now rewrite Nat.add_succ_r in Hat.
Qed.

(** The match of the summary pattern at the start of a summary line. *)
Lemma summary_at i w d1 d2 d3 post :
  isStatusWord w = true ->
  isCount d1 = true -> isCount d2 = true -> isCount d3 = true ->
  exists j,
    m summaryRe Some
      (mkState i (resultPrefix ++ w ++ js ". " ++ d1 ++ js " passed; "
                    ++ d2 ++ js " failed; " ++ d3 ++ js " ignored" ++ post)
         [])
    = Some (mkState j post [(4, d3); (3, d2); (2, d1); (1, w)]).
Proof.
  intros Hw H1 H2 H3.
  apply isStatusWord_spec in Hw as [Hdot Hstop].
  apply isCount_spec in H1 as [N1 D1].
  apply isCount_spec in H2 as [N2 D2].
  apply isCount_spec in H3 as [N3 D3].
  eexists. unfold summaryRe, resultPrefix.
  rewrite m_Seq, m_Lit, m_Seq.
  apply m_group_lazy; [assumption| |].
  { intros i' c s' caps' Hin. rewrite m_Seq. apply m_Lit_fail.
    change (js ". ") with [46%N; 32%N]. cbn [startsWith].
    rewrite N.eqb_sym, (Hstop c Hin). reflexivity. }
  rewrite m_Seq, m_Lit, m_Seq.
  apply m_group_digits; [assumption|assumption|reflexivity|].
  rewrite m_Seq, m_Lit, m_Seq.
  apply m_group_digits; [assumption|assumption|reflexivity|].
  rewrite m_Seq, m_Lit, m_Seq.
  apply m_group_digits; [assumption|assumption|reflexivity|].
  rewrite m_Lit. reflexivity.
Qed.

(** ** What a match implies *)

Lemma orElse_Some A (a b : option A) x :
  orElse a b = Some x -> a = Some x \/ b = Some x.
Proof. destruct a; cbn; auto. Qed.

Lemma repeatMatcher_sound mr greedy r1
  (IH : forall k st res, mr k st = Some res ->
        exists w st', rest st = w ++ rest st' /\ lang r1 w
                      /\ k st' = Some res) :
  forall fuel k st res,
    repeatMatcher mr greedy k fuel st = Some res ->
    exists w st', rest st = w ++ rest st' /\ lang (Star greedy r1) w
                  /\ k st' = Some res.
Proof.
  induction fuel as [|fuel IHf]; intros k st res H.
  - exists [], st. cbn. repeat split; [|assumption]. now exists [].
  - rewrite repeatMatcher_S in H.
    assert (Hcases :
      k st = Some res \/
      mr (fun st' => if endIndex st <? endIndex st'
                     then repeatMatcher mr greedy k fuel st' else None) st
      = Some res).
    { destruct greedy; apply orElse_Some in H; tauto. }
    destruct Hcases as [Hk|Hm].
    + exists [], st. cbn. repeat split; [|assumption]. now exists [].
    + apply IH in Hm as (w1 & st1 & E1 & L1 & K1).
      destruct (endIndex st <? endIndex st1); [|discriminate].
      apply IHf in K1 as (w2 & st2 & E2 & (ws & -> & Hws) & K2).
      exists (w1 ++ List.concat ws), st2. repeat split.
      * rewrite E1, E2. now rewrite app_assoc.
      * exists (w1 :: ws). split; [reflexivity|]. now constructor.
      * assumption.
Qed.

(** A match consumes a word of the pattern. *)
Lemma m_sound r : forall k st res,
  m r k st = Some res ->
  exists w st', rest st = w ++ rest st' /\ lang r w /\ k st' = Some res.
Proof.
  induction r as [c|p|r1 IH1 r2 IH2|r1 IH1 r2 IH2|g r1 IH1|i r1 IH1|];
    intros k st res H.
  - cbn in H. destruct (rest st) as [|x s'] eqn:E; [discriminate|].
    destruct (N.eqb_spec x c) as [->|]; [|discriminate].
    exists [c], (advance st s'). cbn. auto.
  - cbn in H. destruct (rest st) as [|x s'] eqn:E; [discriminate|].
    destruct (p x) eqn:Hp; [|discriminate].
    exists [x], (advance st s'). cbn. eauto.
  - rewrite m_Seq in H.
    apply IH1 in H as (w1 & st1 & E1 & L1 & H).
    apply IH2 in H as (w2 & st2 & E2 & L2 & H).
    exists (w1 ++ w2), st2. repeat split.
    + rewrite E1, E2. now rewrite app_assoc.
    + cbn. eauto.
    + assumption.
  - cbn [m] in H. apply orElse_Some in H as [H|H];
      [apply IH1 in H|apply IH2 in H];
      destruct H as (w & st' & E & L & H); exists w, st'; cbn; auto.
  - cbn [m] in H. eapply repeatMatcher_sound; eassumption.
  - cbn [m] in H. apply IH1 in H as (w & st' & E & L & H).
    exists w, (setCapture i st st'). cbn. auto.
  - cbn [m] in H. destruct (endIndex st =? 0); [|discriminate].
    exists [], st. cbn. auto.
Qed.

(** A successful search has found a word of the pattern in the text. *)
Lemma search_sound r s : forall idx res,
  search r idx s = Some res ->
  exists pre w post, s = pre ++ w ++ post /\ lang r w.
Proof.
  induction s as [|c s IH]; intros idx res H; rewrite search_eq in H.
  - destruct (m r Some (mkState idx [] [])) eqn:E; [|discriminate].
    apply m_sound in E as (w & st' & E & L & _). cbn in E.
    exists [], w, (rest st'). auto.
  - destruct (m r Some (mkState idx (c :: s) [])) eqn:E.
    + apply m_sound in E as (w & st' & E & L & _). cbn in E.
      exists [], w, (rest st'). auto.
    + apply IH in H as (pre & w & post & -> & L).
      exists (c :: pre), w, post. auto.
Qed.

Lemma lang_Lit l w : lang (Lit l) w -> w = l.
Proof.
  revert w. induction l as [|c l IH]; intros w H.
  - cbn in H. destruct H as (ws & -> & Hws).
    destruct Hws as [|x ws' (y & _ & Hy) _]; [reflexivity|discriminate].
  - destruct l as [|c' l]; [exact H|].
    change (Lit (c :: c' :: l)) with (Seq (Chr c) (Lit (c' :: l))) in H.
    cbn [lang] in H. destruct H as (w1 & w2 & -> & -> & H2).
    apply IH in H2 as ->. reflexivity.
Qed.

Lemma lang_Star_Class greedy p w :
  lang (Star greedy (Class p)) w -> forallb p w = true.
Proof.
  cbn. intros (ws & -> & Hws).
  induction Hws as [|x ws (y & -> & Hy) _ IH]; [reflexivity|].
  cbn. now rewrite Hy.
Qed.

Lemma lang_Plus_Class greedy p w :
  lang (Plus greedy (Class p)) w -> w <> [] /\ forallb p w = true.
Proof.
  unfold Plus. intros (w1 & w2 & -> & (x & -> & Hx) & H2).
  apply lang_Star_Class in H2.
  split; [discriminate|]. cbn. now rewrite Hx.
Qed.

(** ** The bound on the iterations *)

Lemma reaches_refl st : reaches st st.
Proof. exists []. cbn. split; [reflexivity|lia]. Qed.

Lemma reaches_trans st1 st2 st3 :
  reaches st1 st2 -> reaches st2 st3 -> reaches st1 st3.
Proof.
  intros (w1 & E1 & I1) (w2 & E2 & I2). exists (w1 ++ w2).
  rewrite E1, E2, I2, I1, length_app, <- app_assoc. split; [reflexivity|lia].
Qed.

Lemma reaches_advance st x s' : rest st = x :: s' -> reaches st (advance st s').
Proof. intros E. exists [x]. cbn. split; [assumption|lia]. Qed.

Lemma repeatMatcher_ext mr greedy
  (IH : forall k1 k2 st,
        (forall st', reaches st st' -> k1 st' = k2 st') ->
        mr k1 st = mr k2 st) :
  forall fuel k1 k2 st,
    (forall st', reaches st st' -> k1 st' = k2 st') ->
    repeatMatcher mr greedy k1 fuel st = repeatMatcher mr greedy k2 fuel st.
Proof.
  induction fuel as [|fuel IHf]; intros k1 k2 st H.
  - cbn. apply H, reaches_refl.
  - rewrite !repeatMatcher_S. rewrite (H st (reaches_refl st)).
    rewrite (IH _ (fun st' => if endIndex st <? endIndex st'
                              then repeatMatcher mr greedy k2 fuel st'
                              else None) st); [reflexivity|].
    intros st' Hr. destruct (endIndex st <? endIndex st'); [|reflexivity].
    apply IHf. intros st'' Hr'. apply H. eapply reaches_trans; eassumption.
Qed.

(** The matcher looks at its continuation only on states further on in
    the input. *)
Lemma m_ext r : forall k1 k2 st,
  (forall st', reaches st st' -> k1 st' = k2 st') ->
  m r k1 st = m r k2 st.
Proof.
  induction r as [c|p|r1 IH1 r2 IH2|r1 IH1 r2 IH2|g r1 IH1|i r1 IH1|];
    intros k1 k2 st H; cbn [m].
  - destruct (rest st) as [|x s'] eqn:E; [reflexivity|].
    destruct (N.eqb x c); [|reflexivity].
    apply H. now apply (reaches_advance st x s').
  - destruct (rest st) as [|x s'] eqn:E; [reflexivity|].
    destruct (p x); [|reflexivity].
    apply H. now apply (reaches_advance st x s').
  - apply IH1. intros st' Hr. apply IH2. intros st'' Hr'.
    apply H. eapply reaches_trans; eassumption.
  - now rewrite (IH1 k1 k2 st H), (IH2 k1 k2 st H).
  - now apply repeatMatcher_ext.
  - apply IH1. intros st' (w & E & I). apply H. exists w. cbn. auto.
  - destruct (endIndex st =? 0); [|reflexivity]. apply H, reaches_refl.
Qed.

Lemma m_none r : forall st, m r (fun _ => None) st = None.
Proof.
  induction r as [c|p|r1 IH1 r2 IH2|r1 IH1 r2 IH2|g r1 IH1|i r1 IH1|];
    intros st; cbn [m].
  - destruct (rest st) as [|x s']; [reflexivity|]. now destruct (N.eqb x c).
  - destruct (rest st) as [|x s']; [reflexivity|]. now destruct (p x).
  - rewrite (m_ext r1 _ (fun _ => None) st); [apply IH1|].
    intros st' _. apply IH2.
  - now rewrite IH1, IH2.
  - induction (List.length (rest st)) as [|fuel IHf] in st |- *;
      [reflexivity|].
    rewrite repeatMatcher_S.
    rewrite (m_ext r1 _ (fun _ => None) st).
    + rewrite IH1. now destruct g.
    + intros st' _. destruct (endIndex st <? endIndex st'); [|reflexivity].
      apply IHf.
  - apply IH1.
  - now destruct (endIndex st =? 0).
Qed.

Lemma orElse_None_r A (a : option A) : orElse a None = a.
Proof. now destruct a. Qed.

(** More fuel than the length of what is left changes nothing: the
    iterations stop for want of input, never for want of fuel. *)
Lemma repeatMatcher_fuel r greedy k : forall n st fuel,
  List.length (rest st) = n -> n <= fuel ->
  repeatMatcher (m r) greedy k fuel st
  = repeatMatcher (m r) greedy k n st.
Proof.
  induction n as [n IHn] using lt_wf_ind. intros st fuel Hn Hf.
  destruct fuel as [|fuel].
  - assert (n = 0) as -> by lia. reflexivity.
  - destruct n as [|n].
    + rewrite repeatMatcher_S. cbn [repeatMatcher].
      rewrite (m_ext r _ (fun _ => None) st).
      * rewrite m_none. destruct greedy; cbn [orElse];
          [reflexivity|apply orElse_None_r].
      * intros st' (w & E & I).
        apply length_zero_iff_nil in Hn. rewrite Hn in E.
        symmetry in E. apply app_eq_nil in E as [-> _].
        cbn in I. replace (endIndex st <? endIndex st') with false;
          [reflexivity|]. symmetry. apply Nat.ltb_ge. lia.
    + rewrite !repeatMatcher_S.
      rewrite (m_ext r
        (fun st' => if endIndex st <? endIndex st'
                    then repeatMatcher (m r) greedy k fuel st' else None)
        (fun st' => if endIndex st <? endIndex st'
                    then repeatMatcher (m r) greedy k n st' else None) st);
        [reflexivity|].
      intros st' (w & E & I).
      destruct (endIndex st <? endIndex st') eqn:L; [|reflexivity].
      apply Nat.ltb_lt in L.
      assert (Hlen : List.length (rest st') < S n).
      { rewrite <- Hn, E, length_app. lia. }
      rewrite (IHn (List.length (rest st')) Hlen st' fuel eq_refl) by lia.
      rewrite (IHn (List.length (rest st')) Hlen st' n eq_refl) by lia.
      reflexivity.
Qed.

(** ** The captures of a match *)

Lemma repeatMatcher_captures mr greedy
  (IH : forall k st res, mr k st = Some res ->
        exists st', k st' = Some res /\
                    forall i, captured st i = true -> captured st' i = true) :
  forall fuel k st res,
    repeatMatcher mr greedy k fuel st = Some res ->
    exists st', k st' = Some res /\
                forall i, captured st i = true -> captured st' i = true.
Proof.
  induction fuel as [|fuel IHf]; intros k st res H.
  - exists st. auto.
  - rewrite repeatMatcher_S in H.
    assert (Hcases :
      k st = Some res \/
      mr (fun st' => if endIndex st <? endIndex st'
                     then repeatMatcher mr greedy k fuel st' else None) st
      = Some res).
    { destruct greedy; apply orElse_Some in H; tauto. }
    destruct Hcases as [Hk|Hm]; [exists st; auto|].
    apply IH in Hm as (st1 & K1 & C1).
    destruct (endIndex st <? endIndex st1); [|discriminate].
    apply IHf in K1 as (st2 & K2 & C2). exists st2. auto.
Qed.

Lemma m_captures r : forall k st res,
  m r k st = Some res ->
  exists st', k st' = Some res /\
              forall i, sets r i = true \/ captured st i = true ->
                        captured st' i = true.
Proof.
  induction r as [c|p|r1 IH1 r2 IH2|r1 IH1 r2 IH2|g r1 IH1|j r1 IH1|];
    intros k st res H; cbn [m sets] in *.
  - destruct (rest st) as [|x s']; [discriminate|].
    destruct (N.eqb x c); [|discriminate].
    exists (advance st s'). split; [assumption|]. now intros i [|].
  - destruct (rest st) as [|x s']; [discriminate|].
    destruct (p x); [|discriminate].
    exists (advance st s'). split; [assumption|]. now intros i [|].
  - apply IH1 in H as (st1 & H & C1). apply IH2 in H as (st2 & H & C2).
    exists st2. split; [assumption|]. intros i [Hi|Hi].
    + apply orb_prop in Hi as [Hi|Hi]; auto.
    + auto.
  - apply orElse_Some in H as [H|H];
      [apply IH1 in H|apply IH2 in H]; destruct H as (st' & H & C);
      exists st'; (split; [assumption|]); intros i [Hi|Hi]; auto;
      apply andb_prop in Hi as [Ha Hb]; auto.
  - apply repeatMatcher_captures in H.
    + destruct H as (st' & H & C). exists st'. split; [assumption|].
      intros i [Hi|Hi]; [discriminate|auto].
    + intros k' st0 res' H'. apply IH1 in H' as (st' & H' & C).
      exists st'. auto.
  - apply IH1 in H as (st1 & H & C1).
    exists (setCapture j st st1). split; [assumption|].
    intros i Hi. unfold captured, setCapture. cbn [captures lookup].
    destruct (i =? j) eqn:E; [reflexivity|].
    cbn [orb] in Hi. apply C1 in Hi. exact Hi.
  - destruct (endIndex st =? 0); [|discriminate].
    exists st. split; [assumption|]. now intros i [|].
Qed.

(** Every parenthesis that takes part in each match of the pattern is set
    in the result of [exec]. *)
Lemma exec_captures r s res i :
  exec r s = Some res -> sets r i = true -> captured res i = true.
Proof.
  unfold exec. generalize 0. induction s as [|c s IH]; intros idx H Hi;
    rewrite search_eq in H.
  - destruct (m r Some (mkState idx [] [])) eqn:E; [|discriminate].
    injection H as ->. apply m_captures in E as (st' & [= ->] & C). auto.
  - destruct (m r Some (mkState idx (c :: s) [])) eqn:E.
    + injection H as ->. apply m_captures in E as (st' & [= ->] & C). auto.
    + eapply IH; eassumption.
Qed.

(** The captures that the source reads are never [undefined]. *)
Lemma groups_defined s res :
  (exec outcomeRe s = Some res ->
   captured res 1 = true /\ captured res 2 = true) /\
  (exec summaryRe s = Some res ->
   captured res 2 = true /\ captured res 3 = true /\ captured res 4 = true).
Proof.
  split; intros H; repeat split;
    (eapply exec_captures; [exact H|reflexivity]).
Qed.

(** ** The summary line *)

Lemma testsOf_length output :
  List.length (testsOf output)
  = List.length (filter isOutcomeLine (split LF output)).
Proof.
  unfold testsOf. induction (split LF output) as [|ln lines IH];
    [reflexivity|].
  cbn [flat_map filter]. rewrite length_app, IH.
  unfold testOfLine, isOutcomeLine. destruct (exec outcomeRe ln); reflexivity.
Qed.

Lemma dropWhile_run p d tail :
  forallb p d = true -> stopsAt p tail -> dropWhile p (d ++ tail) = tail.
Proof.
  induction d as [|c d IH]; cbn; intros Hd Ht.
  - destruct tail as [|x tail]; [reflexivity|]. cbn in *. now rewrite Ht.
  - apply andb_prop in Hd as [Hc Hd]. rewrite Hc. now apply IH.
Qed.

Lemma countAt_run word d r :
  d <> [] -> forallb isDigit d = true -> stopsAt isDigit (word ++ r) ->
  countAt word (d ++ word ++ r) = Some r.
Proof.
  intros Hne Hd Hw. destruct d as [|c d]; [contradiction|].
  pose proof (dropWhile_run isDigit (c :: d) (word ++ r) Hd Hw) as Hdrop.
  unfold countAt. cbn [app] in *. cbn [forallb] in Hd.
  apply andb_prop in Hd as [Hc _]. rewrite Hc, Hdrop.
  now rewrite startsWith_app, skipn_length_app.
Qed.

Lemma countsAt_run d1 d2 d3 post :
  isCount d1 = true -> isCount d2 = true -> isCount d3 = true ->
  countsAt (d1 ++ js " passed; " ++ d2 ++ js " failed; " ++ d3
              ++ js " ignored" ++ post) = true.
Proof.
  intros H1 H2 H3.
  apply isCount_spec in H1 as [N1 D1].
  apply isCount_spec in H2 as [N2 D2].
  apply isCount_spec in H3 as [N3 D3].
  unfold countsAt.
  rewrite countAt_run by (assumption || reflexivity).
  rewrite countAt_run by (assumption || reflexivity).
  rewrite countAt_run by (assumption || reflexivity).
  reflexivity.
Qed.

Lemma countsOnLine_run w s :
  forallb isDot w = true -> countsAt s = true ->
  countsOnLine (w ++ js ". " ++ s) = true.
Proof.
  intros Hw Hs. induction w as [|c w IH].
  - cbn [app]. change (js ". " ++ s) with (46%N :: 32%N :: s).
    cbn [countsOnLine]. change (js ". ") with [46%N; 32%N].
    cbn [startsWith skipn]. rewrite !N.eqb_refl, Hs. reflexivity.
  - cbn [forallb] in Hw. apply andb_prop in Hw as [Hc Hw].
    cbn [app countsOnLine]. rewrite Hc, (IH Hw). cbn.
    now rewrite orb_true_r.
Qed.

Lemma isCount_intro d : d <> [] -> forallb isDigit d = true -> isCount d = true.
Proof. intros Hne Hd. unfold isCount. rewrite Hd. now destruct d. Qed.

(** A word of the summary pattern is a summary line. *)
Lemma lang_summary w post :
  lang summaryRe w -> summaryLineAt (w ++ post) = true.
Proof.
  unfold summaryRe. cbn [lang].
  intros (w0 & r0 & -> & L0 & w1 & r1 & -> & L1 & w2 & r2 & -> & L2
          & w3 & r3 & -> & L3 & w4 & r4 & -> & L4 & w5 & r5 & -> & L5
          & w6 & r6 & -> & L6 & w7 & w8 & -> & L7 & L8).
  apply lang_Lit in L0, L2, L4, L6, L8. subst.
  apply lang_Star_Class with (greedy := false) in L1.
  apply lang_Plus_Class in L3 as [N3 D3].
  apply lang_Plus_Class in L5 as [N5 D5].
  apply lang_Plus_Class in L7 as [N7 D7].
  unfold summaryLineAt. fold resultPrefix.
  rewrite <- !app_assoc.
  rewrite startsWith_app, skipn_length_app. cbn [andb].
  apply countsOnLine_run; [assumption|].
  apply countsAt_run; now apply isCount_intro.
Qed.

Lemma hasSummaryLine_app pre s :
  summaryLineAt s = true -> hasSummaryLine (pre ++ s) = true.
Proof.
  intros H. induction pre as [|c pre IH]; cbn [app].
  - destruct s; cbn [hasSummaryLine]; now rewrite H.
  - cbn [hasSummaryLine]. rewrite IH. now rewrite orb_true_r.
Qed.

(** The summary pattern matches only in a text that holds a summary
    line. *)
Lemma exec_summary_sound text res :
  exec summaryRe text = Some res -> hasSummaryLine text = true.
Proof.
  intros H. apply search_sound in H as (pre & w & post & -> & L).
  apply hasSummaryLine_app. now apply lang_summary.
Qed.

Lemma hasCounts_skipn n : forall s,
  hasCounts (skipn n s) = true -> hasCounts s = true.
Proof.
  induction n as [|n IH]; intros s H; [exact H|].
  destruct s as [|c s]; [exact H|].
  cbn [skipn] in H. cbn [hasCounts]. rewrite (IH s H). apply orb_true_r.
Qed.

Lemma countsAt_hasCounts s : countsAt s = true -> hasCounts s = true.
Proof. intros H. destruct s; cbn [hasCounts]; now rewrite H. Qed.

Lemma countsOnLine_hasCounts s : countsOnLine s = true -> hasCounts s = true.
Proof.
  induction s as [|c s IH]; cbn [countsOnLine]; intros H.
  - rewrite orb_false_r in H. apply andb_prop in H as [H _]. discriminate H.
  - apply orb_prop in H as [H|H].
    + apply andb_prop in H as [_ H].
      apply (hasCounts_skipn 2). now apply countsAt_hasCounts.
    + apply andb_prop in H as [_ H]. cbn [hasCounts].
      rewrite (IH H). apply orb_true_r.
Qed.

(** With C8: a text without the three counts holds no summary line. *)
Lemma no_counts_no_summary_line s :
  hasCounts s = false -> hasSummaryLine s = false.
Proof.
  intros H. destruct (hasSummaryLine s) eqn:E; [|reflexivity].
  rewrite <- H. symmetry. clear H.
  induction s as [|c s IH]; cbn [hasSummaryLine] in E.
  - rewrite orb_false_r in E. unfold summaryLineAt in E.
    apply andb_prop in E as [E _]. discriminate E.
  - apply orb_prop in E as [E|E].
    + unfold summaryLineAt in E. apply andb_prop in E as [_ E].
      apply countsOnLine_hasCounts in E.
      now apply hasCounts_skipn in E.
    + cbn [hasCounts]. rewrite (IH E). apply orb_true_r.
Qed.

(** The search passes over a stretch in which no summary line starts. *)
Lemma search_skip_lines pre : forall idx x,
  summaryLineBefore (List.length pre) (pre ++ x) = false ->
  search summaryRe idx (pre ++ x)
  = search summaryRe (idx + List.length pre) x.
Proof.
  induction pre as [|c pre IH]; intros idx x H.
  - cbn [app List.length]. now rewrite Nat.add_0_r.
  - cbn [List.length summaryLineBefore app] in H.
    apply orb_false_iff in H as [Hat Hbefore].
    rewrite search_eq. cbn [app].
    destruct (m summaryRe Some (mkState idx (c :: pre ++ x) [])) eqn:E.
    + apply m_sound in E as (w & st' & E & L & _). cbn [rest] in E.
      rewrite E, (lang_summary w (rest st') L) in Hat. discriminate.
    + rewrite IH by assumption. f_equal. cbn. lia.
Qed.

(** The first summary line of a text decides the summary. *)
Lemma summary_first_line pre w d1 d2 d3 post tests :
  summaryLineBefore (List.length pre)
    (pre ++ resultPrefix ++ w ++ js ". " ++ d1 ++ js " passed; "
       ++ d2 ++ js " failed; " ++ d3 ++ js " ignored" ++ post) = false ->
  isStatusWord w = true ->
  isCount d1 = true -> isCount d2 = true -> isCount d3 = true ->
  summaryOf (pre ++ resultPrefix ++ w ++ js ". " ++ d1 ++ js " passed; "
               ++ d2 ++ js " failed; " ++ d3 ++ js " ignored" ++ post) tests
  = d1 ++ js " passed, " ++ d2 ++ js " failed, " ++ d3 ++ js " ignored".
Proof.
  intros Hpre Hw H1 H2 H3. unfold summaryOf, exec.
  rewrite search_skip_lines by assumption. rewrite search_eq.
  destruct (@summary_at (0 + List.length pre) w d1 d2 d3 post Hw H1 H2 H3)
    as [j Hj].
  rewrite Hj. reflexivity.
Qed.

Lemma dropWhile_split p s :
  exists d, s = d ++ dropWhile p s /\ forallb p d = true
            /\ stopsAt p (dropWhile p s).
Proof.
  induction s as [|c s (d & E & Hd & Hs)]; cbn [dropWhile].
  - exists []. repeat split.
  - destruct (p c) eqn:Hc.
    + exists (c :: d). cbn. rewrite Hc, Hd, <- E. repeat split. exact Hs.
    + exists []. cbn. repeat split. exact Hc.
Qed.

(** What [countAt] has read. *)
Lemma countAt_inv word s r :
  countAt word s = Some r ->
  exists d, isCount d = true /\ s = d ++ word ++ r
            /\ stopsAt isDigit (word ++ r).
Proof.
  unfold countAt. destruct s as [|c s]; [discriminate|].
  destruct (isDigit c) eqn:Hc; [|discriminate].
  destruct (dropWhile_split isDigit (c :: s)) as (d & E & Hd & Hs).
  cbv zeta. remember (dropWhile isDigit (c :: s)) as x eqn:Hx.
  destruct (startsWith word x) eqn:Hw; [|discriminate].
  intros [= <-]. apply startsWith_true in Hw. rewrite <- Hw.
  exists d. repeat split; try assumption.
  apply isCount_intro; [|assumption].
  intros ->. cbn [app] in E. rewrite <- E in Hs. cbn in Hs. congruence.
Qed.

Lemma countsAt_inv s :
  countsAt s = true ->
  exists d1 d2 d3 post,
    isCount d1 = true /\ isCount d2 = true /\ isCount d3 = true /\
    s = d1 ++ js " passed; " ++ d2 ++ js " failed; " ++ d3
          ++ js " ignored" ++ post.
Proof.
  unfold countsAt.
  destruct (countAt (js " passed; ") s) as [s1|] eqn:E1; [|discriminate].
  destruct (countAt (js " failed; ") s1) as [s2|] eqn:E2; [|discriminate].
  destruct (countAt (js " ignored") s2) as [s3|] eqn:E3; [|discriminate].
  intros _.
  apply countAt_inv in E1 as (d1 & H1 & -> & _).
  apply countAt_inv in E2 as (d2 & H2 & -> & _).
  apply countAt_inv in E3 as (d3 & H3 & -> & _).
  exists d1, d2, d3, s3. auto.
Qed.

(** The rest of the summary pattern, behind the lazy capture, matches
    where a full stop, a space and the counts stand. *)
Lemma summary_tail_matches i s caps :
  startsWith (js ". ") s && countsAt (skipn 2 s) = true ->
  m (Seq (Lit (js ". "))
    (Seq (Group 2 (Plus true (Class isDigit)))
    (Seq (Lit (js " passed; "))
    (Seq (Group 3 (Plus true (Class isDigit)))
    (Seq (Lit (js " failed; "))
    (Seq (Group 4 (Plus true (Class isDigit)))
         (Lit (js " ignored")))))))) Some (mkState i s caps) <> None.
Proof.
  intros H. apply andb_prop in H as [Hdot Hcounts].
  apply startsWith_true in Hdot.
  change (List.length (js ". ")) with 2 in Hdot.
  apply countsAt_inv in Hcounts as (d1 & d2 & d3 & post & H1 & H2 & H3 & E).
  rewrite Hdot, E.
  apply isCount_spec in H1 as [N1 D1].
  apply isCount_spec in H2 as [N2 D2].
  apply isCount_spec in H3 as [N3 D3].
  rewrite m_Seq, m_Lit, m_Seq.
  erewrite m_group_digits; [discriminate|assumption|assumption|reflexivity|].
  rewrite m_Seq, m_Lit, m_Seq.
  apply m_group_digits; [assumption|assumption|reflexivity|].
  rewrite m_Seq, m_Lit, m_Seq.
  apply m_group_digits; [assumption|assumption|reflexivity|].
  rewrite m_Lit. reflexivity.
Qed.

(** The lazy run reaches the counts that stand further on the line. *)
Lemma repeat_lazy_reaches k : forall s fuel i caps,
  (forall i' s', startsWith (js ". ") s' && countsAt (skipn 2 s') = true ->
                 k (mkState i' s' caps) <> None) ->
  countsOnLine s = true -> List.length s <= fuel ->
  repeatMatcher (m (Class isDot)) false k fuel (mkState i s caps) <> None.
Proof.
  induction s as [|c s IH]; intros fuel i caps Hk H Hf.
  - cbn [countsOnLine] in H. rewrite orb_false_r in H.
    destruct fuel; [now apply Hk|].
    rewrite repeatMatcher_S. specialize (Hk i [] H).
    destruct (k (mkState i [] caps)); [discriminate|contradiction].
  - destruct fuel as [|fuel]; [cbn in Hf; lia|].
    rewrite repeatMatcher_S. cbn [countsOnLine] in H.
    destruct (k (mkState i (c :: s) caps)) eqn:E; [discriminate|].
    cbn [orElse]. apply orb_prop in H as [H|H].
    + exfalso. now apply (Hk i (c :: s) H).
    + apply andb_prop in H as [Hc H].
      rewrite m_Class_cons, Hc. cbn [endIndex].
      replace (i <? S i) with true by (symmetry; apply Nat.ltb_lt; lia).
      apply IH; [assumption|assumption|cbn in Hf; lia].
Qed.

(** The summary pattern matches where a summary line starts. *)
Lemma summaryLineAt_matches i s :
  summaryLineAt s = true -> m summaryRe Some (mkState i s []) <> None.
Proof.
  unfold summaryLineAt. intros H. apply andb_prop in H as [Hp H].
  apply startsWith_true in Hp. revert H.
  generalize (skipn (List.length resultPrefix) s) Hp. intros x -> H.
  unfold summaryRe. fold resultPrefix. rewrite m_Seq, m_Lit, m_Seq.
  change (m (Group 1 (Star false (Class isDot))) ?k ?st)
    with (repeatMatcher (m (Class isDot)) false
            (fun st' => k (setCapture 1 st st')) (List.length (rest st)) st).
  apply repeat_lazy_reaches; [|assumption|cbn; lia].
  intros i' s' Hs'. unfold setCapture. cbn [endIndex rest captures].
  now apply summary_tail_matches.
Qed.

(** With C8: the summary pattern matches a text exactly when the text
    holds a summary line. *)
Lemma summaryRe_matches_iff text :
  exec summaryRe text = None <-> hasSummaryLine text = false.
Proof.
  split.
  - intros H. destruct (hasSummaryLine text) eqn:E; [|reflexivity].
    exfalso. revert H. unfold exec. generalize 0.
    induction text as [|c text IH]; intros idx H; rewrite search_eq in H;
      cbn [hasSummaryLine] in E.
    + rewrite orb_false_r in E.
      apply (summaryLineAt_matches idx) in E.
      destruct (m summaryRe Some (mkState idx [] [])); [discriminate|auto].
    + destruct (m summaryRe Some (mkState idx (c :: text) [])) eqn:Em;
        [discriminate|].
      apply orb_prop in E as [E|E].
      * apply (summaryLineAt_matches idx) in E. auto.
      * eapply IH; eassumption.
  - intros H. destruct (exec summaryRe text) eqn:E; [|reflexivity].
    apply exec_summary_sound in E. congruence.
Qed.

(* ===================================================================== *)
(** * Facts on the report of a test run *)
(* ===================================================================== *)

Lemma fold_left_lines failed : forall output,
  fold_left (fun output t => output ++ js "   - " ++ name t ++ nl)
    failed output
  = output ++ failedLines failed.
Proof.
  induction failed as [|t failed IH]; intros output; cbn [fold_left].
  - cbn. now rewrite app_nil_r.
  - rewrite IH. unfold failedLines. cbn [flat_map].
    now rewrite <- !app_assoc.
Qed.

(** The report, piece by piece. *)
Lemma reportOf_eq tests summary :
  reportOf tests summary
  = js "Test Results: " ++ summary ++ nl ++ nl
    ++ (if 0 <? List.length (failedOf tests)
        then crossMark ++ js " Failed tests:" ++ nl
             ++ failedLines (failedOf tests) ++ nl
        else [])
    ++ (if 0 <? List.length (filter (hasStatus "ok") tests)
        then checkMark ++ js " Passed: "
             ++ Number_toString (List.length (filter (hasStatus "ok") tests))
             ++ js " tests" ++ nl
        else [])
    ++ (if 0 <? List.length (filter (hasStatus "ignored") tests)
        then nextTrack ++ js " Ignored: "
             ++ Number_toString
                  (List.length (filter (hasStatus "ignored") tests))
             ++ js " tests" ++ nl
        else []).
Proof.
  unfold reportOf, formatTestResults, failedOf.
  cbn [Z.eqb negb andb]. rewrite fold_left_lines.
  destruct (0 <? List.length (filter (hasStatus "failed") tests));
  destruct (0 <? List.length (filter (hasStatus "ok") tests));
  destruct (0 <? List.length (filter (hasStatus "ignored") tests));
  rewrite <- ?app_assoc, ?app_nil_r; reflexivity.
Qed.

(** The section comes last, behind a report that does not depend on the
    exit code or on the error stream. *)
Lemma formatTestResults_section tests summary exitCode stderr :
  formatTestResults tests summary exitCode stderr
  = if negb (Z.eqb exitCode 0) && (List.length (failedOf tests) =? 0)
    then reportOf tests summary ++ nl ++ compilationHeading ++ nl ++ stderr
    else reportOf tests summary.
Proof.
  unfold reportOf, formatTestResults, failedOf. cbn [Z.eqb negb andb].
  destruct (negb (Z.eqb exitCode 0)
            && (List.length (filter (hasStatus "failed") tests) =? 0));
    reflexivity.
Qed.

(** ** Where the heading can occur *)

Lemma includes_skip h p (f x : jsstring) :
  (forall c, In c f -> N.eqb h c = false) ->
  includes (h :: p) (f ++ x) = includes (h :: p) x.
Proof.
  intros Hf. induction f as [|c f IH]; [reflexivity|].
  cbn [app includes startsWith]. rewrite (Hf c) by now left.
  cbn [andb orb]. apply IH. intros c' Hc'. apply Hf. now right.
Qed.

Lemma startsWith_cut p : forall v sep x,
  ~ In sep p -> startsWith p v = false ->
  startsWith p (v ++ sep :: x) = false.
Proof.
  induction p as [|h p IH]; intros v sep x Hsep H; [discriminate|].
  destruct v as [|c v]; cbn [app startsWith] in *.
  - destruct (N.eqb_spec h sep) as [->|_]; [|reflexivity].
    exfalso. apply Hsep. now left.
  - destruct (N.eqb h c); [|reflexivity]. cbn [andb] in *.
    apply IH; [|assumption]. intros Hin. apply Hsep. now right.
Qed.

Lemma includes_cut p v sep x :
  p <> [] -> ~ In sep p -> includes p v = false ->
  includes p (v ++ sep :: x) = includes p (sep :: x).
Proof.
  intros Hp Hsep. induction v as [|c v IH]; intros H; [reflexivity|].
  cbn [includes] in H. apply orb_false_iff in H as [Hs Hi].
  cbn [app includes].
  change (c :: v ++ sep :: x) with ((c :: v) ++ sep :: x).
  rewrite (@startsWith_cut p (c :: v) sep x Hsep Hs). cbn [orb]. now apply IH.
Qed.

Lemma includes_app_r p a b : includes p b = true -> includes p (a ++ b) = true.
Proof.
  intros H. induction a as [|c a IH]; [assumption|].
  cbn [app includes]. rewrite IH. apply orb_true_r.
Qed.

Lemma includes_prefix p x : includes p (p ++ x) = true.
Proof.
  destruct p as [|c p]; [now destruct x|].
  cbn [app includes].
  change (c :: p ++ x) with ((c :: p) ++ x). now rewrite startsWith_app.
Qed.

Lemma includes_mid p a b : includes p (a ++ p ++ b) = true.
Proof. apply includes_app_r, includes_prefix. Qed.

Lemma uint_digits d : forallb isDigit (js (NilEmpty.string_of_uint d)) = true.
Proof. induction d; cbn; auto. Qed.

Lemma Number_toString_digits n : forallb isDigit (Number_toString n) = true.
Proof.
  unfold Number_toString, NilZero.string_of_uint.
  destruct (Nat.to_uint n) eqn:E; try reflexivity; rewrite <- E;
    apply uint_digits.
Qed.

(** A literal holds no capital C, a digit is none, and the heading holds
    no line feed. *)
Ltac not_among :=
  let c := fresh "c" in
  let Hc := fresh "Hc" in
  intros c Hc; cbv in Hc;
  repeat (destruct Hc as [Hc|Hc]; [subst c; reflexivity|]);
  contradiction.

Lemma digits_no_C n c : In c (Number_toString n) -> N.eqb 67 c = false.
Proof.
  intros Hc. pose proof (Number_toString_digits n) as Hd.
  rewrite forallb_forall in Hd. specialize (Hd c Hc).
  unfold isDigit in Hd. apply andb_prop in Hd as [_ H2].
  apply N.leb_le in H2. apply N.eqb_neq. lia.
Qed.

Lemma heading_eq : compilationHeading = 67%N :: headingTail.
Proof. reflexivity. Qed.

Lemma heading_no_LF : ~ In LF (67%N :: headingTail).
Proof.
  intros H. cbv in H.
  repeat (destruct H as [H|H]; [discriminate H|]). contradiction.
Qed.

Lemma nl_app y : nl ++ y = LF :: y.
Proof. reflexivity. Qed.

Lemma includes_skip1 h p c x :
  N.eqb h c = false -> includes (h :: p) (c :: x) = includes (h :: p) x.
Proof. intros H. cbn [includes startsWith]. now rewrite H. Qed.

Lemma includes_failedLines failed x :
  (forall t, In t failed -> includes compilationHeading (name t) = false) ->
  includes compilationHeading (failedLines failed ++ x)
  = includes compilationHeading x.
Proof.
  intros H. induction failed as [|t failed IH]; [reflexivity|].
  unfold failedLines. cbn [flat_map]. fold (failedLines failed).
  rewrite <- !app_assoc, nl_app. rewrite heading_eq in *.
  rewrite includes_skip by not_among.
  rewrite includes_cut;
    [|discriminate|apply heading_no_LF|apply H; now left].
  rewrite includes_skip1 by reflexivity.
  apply IH. intros t' Ht'. apply H. now right.
Qed.

(** The report holds the heading only if the summary or the name of a
    failed test does. *)
Lemma reportOf_free tests summary :
  includes compilationHeading summary = false ->
  (forall t, In t (failedOf tests) ->
             includes compilationHeading (name t) = false) ->
  includes compilationHeading (reportOf tests summary) = false.
Proof.
  intros Hs Hn. rewrite reportOf_eq.
  pose proof (fun x => includes_failedLines (failedOf tests) x Hn) as Hf.
  destruct (0 <? List.length (failedOf tests));
  destruct (0 <? List.length (filter (hasStatus "ok") tests));
  destruct (0 <? List.length (filter (hasStatus "ignored") tests));
  rewrite <- ?app_assoc, ?app_nil_r, ?app_nil_l, ?nl_app.
  all: rewrite heading_eq in *.
  all: rewrite includes_skip by not_among.
  all: rewrite includes_cut;
         [|discriminate|apply heading_no_LF|assumption].
  all: rewrite !includes_skip1 by reflexivity.
  all: rewrite ?(includes_skip 67 headingTail crossMark) by not_among.
  all: rewrite ?(includes_skip 67 headingTail (js " Failed tests:"))
         by not_among.
  all: rewrite ?includes_skip1 by reflexivity.
  all: rewrite ?Hf.
  all: rewrite ?includes_skip1 by reflexivity.
  all: repeat first
         [ rewrite (includes_skip 67 headingTail checkMark) by not_among
         | rewrite (includes_skip 67 headingTail nextTrack) by not_among
         | rewrite (includes_skip 67 headingTail (js " Passed: "))
             by not_among
         | rewrite (includes_skip 67 headingTail (js " Ignored: "))
             by not_among
         | rewrite (includes_skip 67 headingTail (js " tests"))
             by not_among
         | rewrite (includes_skip 67 headingTail (Number_toString _))
             by (intros; eapply digits_no_C; eassumption)
         | rewrite includes_skip1 by reflexivity ].
  all: reflexivity.
Qed.

(* ===================================================================== *)
(** * The tests of the repository, run on the model *)
(* ===================================================================== *)

(** "should parse a simple compiler error" *)
Example test_simple_error :
  parseCargoDiagnostics JSON.parse
    (js' "{'reason':'compiler-message','message':{'code':{'code':'E0425'},'level':'error','message':'cannot find value `foo` in this scope','spans':[{'file_name':'src/main.rs','line_start':10,'line_end':10,'column_start':5,'column_end':8,'label':'not found in this scope','suggested_replacement':null}],'rendered':'error[E0425]: cannot find value `foo` in this scope'}}")
  = Normal
      [mkDiagnostic (str "error") (str "E0425")
         (str "cannot find value `foo` in this scope") (str "src/main.rs")
         (num 10) (num 5)
         (str "error[E0425]: cannot find value `foo` in this scope")
         VUndefined].
Proof. vm_compute. reflexivity. Qed.

(** "should parse a warning with suggestion" *)
Example test_warning_with_suggestion :
  exists d,
    parseCargoDiagnostics JSON.parse
      (js' "{'reason':'compiler-message','message':{'code':{'code':'unused_variables'},'level':'warning','message':'unused variable: `x`','spans':[{'file_name':'src/lib.rs','line_start':5,'line_end':5,'column_start':9,'column_end':10,'label':'help: if this is intentional, prefix it with an underscore','suggested_replacement':'_x'}],'rendered':'warning: unused variable: `x`'}}")
    = Normal [d] /\
    level d = str "warning" /\ code d = str "unused_variables" /\
    suggestion d = str "_x".
Proof. eexists. repeat split; vm_compute; reflexivity. Qed.

(** "should skip non-compiler-message lines" *)
Example test_other_reasons_skipped :
  exists d,
    parseCargoDiagnostics JSON.parse
      (js' "{'reason':'build-script-executed'}" ++ LF
         :: js' "{'reason':'compiler-artifact'}" ++ LF
         :: js' "{'reason':'compiler-message','message':{'level':'error','message':'real error','spans':[{'file_name':'src/main.rs','line_start':1,'line_end':1,'column_start':1,'column_end':1,'label':null}]}}")
    = Normal [d] /\ message d = str "real error".
Proof. eexists. repeat split; vm_compute; reflexivity. Qed.

(** "should handle empty input" *)
Example test_empty_input : parseCargoDiagnostics JSON.parse [] = Normal [].
Proof. reflexivity. Qed.

(** "should skip invalid JSON lines" *)
Example test_invalid_lines_skipped :
  exists d,
    parseCargoDiagnostics JSON.parse
      (js "not valid json" ++ LF
         :: js' "{'reason':'compiler-message','message':{'level':'error','message':'valid error','spans':[{'file_name':'src/main.rs','line_start':1,'line_end':1,'column_start':1,'column_end':1,'label':'here'}]}}"
         ++ LF :: js "{ broken json")
    = Normal [d] /\ message d = str "valid error".
Proof. eexists. repeat split; vm_compute; reflexivity. Qed.

(** "should handle messages without code" *)
Example test_without_code :
  exists d,
    parseCargoDiagnostics JSON.parse locatedRecord = Normal [d] /\
    code d = VUndefined.
Proof. eexists. repeat split; vm_compute; reflexivity. Qed.

(** "should handle messages without spans" *)
Example test_without_spans :
  parseCargoDiagnostics JSON.parse spanlessRecord = Normal [].
Proof. vm_compute. reflexivity. Qed.

(** "should parse failing tests" *)
Example test_failing_tests :
  parseTestOutput (js "
running 2 tests
test tests::test_pass ... ok
test tests::test_fail ... FAILED

test result: FAILED. 1 passed; 1 failed; 0 ignored
")
  = ([mkTestResult (js "tests::test_pass") (js "ok");
      mkTestResult (js "tests::test_fail") (js "failed")],
     js "1 passed, 1 failed, 0 ignored").
Proof. vm_compute. reflexivity. Qed.

(** "should parse ignored tests" *)
Example test_ignored_tests :
  parseTestOutput (js "
running 2 tests
test tests::test_active ... ok
test tests::test_skip ... ignored

test result: ok. 1 passed; 0 failed; 1 ignored
")
  = ([mkTestResult (js "tests::test_active") (js "ok");
      mkTestResult (js "tests::test_skip") (js "ignored")],
     js "1 passed, 0 failed, 1 ignored").
Proof. vm_compute. reflexivity. Qed.

(** "should handle empty test output" *)
Example test_empty_output : parseTestOutput [] = ([], js "0 tests found").
Proof. vm_compute. reflexivity. Qed.

(** "should parse complex test names with modules" *)
Example test_module_names :
  parseTestOutput (js "
test module::submodule::test_name ... ok
test another_module::deeply::nested::test ... FAILED
")
  = ([mkTestResult (js "module::submodule::test_name") (js "ok");
      mkTestResult (js "another_module::deeply::nested::test")
        (js "failed")],
     js "2 tests found").
Proof. vm_compute. reflexivity. Qed.

(** "should handle doc tests" *)
Example test_doc_tests :
  parseTestOutput (js "
running 1 test
test src/lib.rs - MyStruct::new (line 10) ... ok

test result: ok. 1 passed; 0 failed; 0 ignored
")
  = ([mkTestResult (js "src/lib.rs - MyStruct::new (line 10)") (js "ok")],
     js "1 passed, 0 failed, 0 ignored").
Proof. vm_compute. reflexivity. Qed.

(** "should format failing tests" *)
Example test_format_failing :
  formatTestResults
    [mkTestResult (js "test_pass") (js "ok");
     mkTestResult (js "test_fail_1") (js "failed");
     mkTestResult (js "test_fail_2") (js "failed")]
    (js "1 passed, 2 failed, 0 ignored") 1 []
  = js "Test Results: 1 passed, 2 failed, 0 ignored" ++ nl ++ nl
    ++ crossMark ++ js " Failed tests:" ++ nl
    ++ js "   - test_fail_1" ++ nl ++ js "   - test_fail_2" ++ nl ++ nl
    ++ checkMark ++ js " Passed: 1 tests" ++ nl.
Proof. vm_compute. reflexivity. Qed.

(** "should format ignored tests" *)
Example test_format_ignored :
  formatTestResults
    [mkTestResult (js "test_active") (js "ok");
     mkTestResult (js "test_ignored") (js "ignored")]
    (js "1 passed, 0 failed, 1 ignored") 0 []
  = js "Test Results: 1 passed, 0 failed, 1 ignored" ++ nl ++ nl
    ++ checkMark ++ js " Passed: 1 tests" ++ nl
    ++ nextTrack ++ js " Ignored: 1 tests" ++ nl.
Proof. vm_compute. reflexivity. Qed.

(** "should show compilation errors when no tests failed but exitCode is
    non-zero" *)
Example test_format_compilation_error :
  formatTestResults [] (js "0 tests found") 1
    (js "error[E0425]: cannot find value `x`")
  = js "Test Results: 0 tests found" ++ nl ++ nl ++ nl
    ++ js "Compilation or other error:" ++ nl
    ++ js "error[E0425]: cannot find value `x`".
Proof. vm_compute. reflexivity. Qed.

(** "should not show compilation errors when tests actually failed" *)
Example test_format_no_compilation_error :
  includes compilationHeading
    (formatTestResults [mkTestResult (js "test_fail") (js "failed")]
       (js "0 passed, 1 failed, 0 ignored") 1 (js "thread panicked"))
  = false.
Proof. vm_compute. reflexivity. Qed.


(* ===================================================================== *)
(** * The properties of the specification *)
(* ===================================================================== *)

(** ** The diagnostics parser *)

(** C1, on the code: for a record of two spans of which only the second
    carries a label, the first span having no [label] property at all,
    [parseCargoDiagnostics] places the diagnostic at the first span, not at
    the labelled one: [undefined !== null] holds, so [find] stops at the
    span without a label. *)
Theorem span_without_label_taken_for_labelled :
  exists msg body s1 s2 d,
    JSON.parse unlabelledFirst = Normal msg /\
    get msg "message" = Normal body /\
    get body "spans" = Normal (VArray [s1; s2]) /\
    get s1 "label" = Normal VUndefined /\
    get s2 "label" = Normal (str "expected u32") /\
    parseCargoDiagnostics JSON.parse unlabelledFirst = Normal [d] /\
    locatedAt d s1 /\
    ~ locatedAt d s2 /\
    file d = str "src/a.rs" /\ line d = num 1 /\ column d = num 1.
Proof.
  do 5 eexists. unfold locatedAt.
  repeat match goal with
         | |- _ /\ _ => split
         | |- _ = _ => vm_compute; reflexivity
         end.
  intros [H _]. vm_compute in H. discriminate H.
Qed.

(** With C1: of two spans that both have a [label] property, one of them
    [null], the other is the primary span, in either order. *)
Lemma labelled_span_located JSON_parse ln msg body s1 s2 l :
  linesOf ln = [ln] ->
  JSON_parse ln = Normal msg ->
  isCompilerMessage msg = true ->
  get msg "message" = Normal body ->
  toBoolean body = true ->
  get body "spans" = Normal (VArray [s1; s2]) ->
  toBoolean s1 = true -> toBoolean s2 = true ->
  isNull l = false ->
  (get s1 "label" = Normal l -> get s2 "label" = Normal VNull ->
   exists d, parseCargoDiagnostics JSON_parse ln = Normal [d]
             /\ locatedAt d s1) /\
  (get s1 "label" = Normal VNull -> get s2 "label" = Normal l ->
   exists d, parseCargoDiagnostics JSON_parse ln = Normal [d]
             /\ locatedAt d s2).
Proof.
  intros Hln Hp Hr Hb Tb Hs T1 T2 Hl.
  rewrite (parse_one_line _ _ Hln).
  split; intros L1 L2.
  - destruct (emitted_located JSON_parse ln msg body (VArray [s1; s2]) s1)
      as (lv & c & ms & f & li & cl & r & sr & _ & _ & _ & F & Li & Cl & _ & E);
      try assumption.
    { unfold primarySpanOf. cbn. rewrite L1, Hl. cbn.
      now rewrite (truthy_not_nullish _ T1). }
    rewrite E. eexists. split; [reflexivity|]. repeat split; assumption.
  - destruct (emitted_located JSON_parse ln msg body (VArray [s1; s2]) s2)
      as (lv & c & ms & f & li & cl & r & sr & _ & _ & _ & F & Li & Cl & _ & E);
      try assumption.
    { unfold primarySpanOf. cbn. rewrite L1, L2, Hl. cbn.
      now rewrite (truthy_not_nullish _ T2). }
    rewrite E. eexists. split; [reflexivity|]. repeat split; assumption.
Qed.



(** C5, on the code: the level of a diagnostic is the level of the record,
    whatever it is; the cast [as Diagnostic["level"]] checks nothing.  A
    record of level [failure-note] gives a diagnostic of that level, which
    is none of [error], [warning], [note] and [help]. *)
Theorem level_not_checked :
  exists d,
    parseCargoDiagnostics JSON.parse failureNote = Normal [d] /\
    level d = VString (js "failure-note") /\
    ~ In (level d) diagnosticLevels.
Proof.
  eexists. split; [vm_compute; reflexivity|]. split; [reflexivity|].
  cbn [level]. intros H. cbv in H.
  repeat (destruct H as [H|H]; [discriminate H|]). contradiction.
Qed.

(** With C5: the level of a diagnostic is the [level] property of the
    body of the record it comes from. *)
Lemma level_copied JSON_parse output ds d :
  parseCargoDiagnostics JSON_parse output = Normal ds ->
  In d ds ->
  exists ln msg body,
    In ln (split LF output) /\
    JSON_parse ln = Normal msg /\
    get msg "message" = Normal body /\
    get body "level" = Normal (level d).
Proof.
  intros H Hd. rewrite parseCargoDiagnostics_spec in H.
  injection H as <-. apply in_flat_map in Hd as (ln & Hln & Hd).
  apply emitted_In in Hd
    as (msg & body & spans & span & Hp & _ & Hb & _ & _ & Hl & _).
  exists ln, msg, body. repeat split; try assumption.
  now apply linesOf_In.
Qed.

(** C6: [parseCargoDiagnostics] returns a list on every text, whatever the
    decoder answers or throws; the list is empty when no line of the text
    decodes to a compiler message, as on a text no line of which decodes
    at all, and on the empty text. *)
Theorem parseCargoDiagnostics_total JSON_parse :
  (forall output,
     exists ds, parseCargoDiagnostics JSON_parse output = Normal ds) /\
  (forall output,
     (forall ln msg, In ln (split LF output) ->
                     JSON_parse ln = Normal msg ->
                     isCompilerMessage msg = false) ->
     parseCargoDiagnostics JSON_parse output = Normal []) /\
  (forall output,
     (forall ln, In ln (split LF output) ->
                 exists e, JSON_parse ln = Throw e) ->
     parseCargoDiagnostics JSON_parse output = Normal []) /\
  parseCargoDiagnostics JSON_parse [] = Normal [].
Proof.
  assert (Hempty : forall output,
    (forall ln msg, In ln (split LF output) ->
                    JSON_parse ln = Normal msg ->
                    isCompilerMessage msg = false) ->
    parseCargoDiagnostics JSON_parse output = Normal []).
  { intros output H. rewrite parseCargoDiagnostics_spec. f_equal.
    apply flat_map_nil.
    intros ln Hln. apply linesOf_In in Hln.
    destruct (JSON_parse ln) as [msg|e] eqn:E.
    - eapply emitted_other; [eassumption|]. eapply H; eassumption.
    - eapply emitted_throw; eassumption. }
  repeat split.
  - intros output. rewrite parseCargoDiagnostics_spec. eauto.
  - exact Hempty.
  - intros output H. apply Hempty. intros ln msg Hln Hp.
    destruct (H ln Hln) as [e He]. congruence.
Qed.

Lemma parseCargoDiagnostics_total_witness :
  parseCargoDiagnostics JSON.parse noiseOnly = Normal [] /\
  parseCargoDiagnostics JSON.parse (js "not valid json" ++ LF :: js "{")
  = Normal [].
Proof.
  split.
  - apply (proj1 (proj2 (parseCargoDiagnostics_total JSON.parse))).
    intros ln msg Hln Hp. vm_compute in Hln.
    repeat (destruct Hln as [Hln|Hln];
            [subst ln; vm_compute in Hp; try discriminate Hp;
             injection Hp as <-; reflexivity|]).
    contradiction.
  - apply (proj1 (proj2 (proj2 (parseCargoDiagnostics_total JSON.parse)))).
    intros ln Hln. vm_compute in Hln.
    repeat (destruct Hln as [Hln|Hln];
            [subst ln; eexists; vm_compute; reflexivity|]).
    contradiction.
Defined.

(** C9: both parsers go through the lines in order and keep what each line
    gives.  The output on lines joined by line feeds is what the lines give
    one by one, in their order, each line giving one item at most; and the
    output on two texts joined by a line feed is the output on the first
    followed by the output on the second.  So a record or an outcome that
    occurs twice is returned twice. *)
Theorem parsers_keep_order JSON_parse :
  (forall lines,
     lines <> [] -> Forall (fun l => split LF l = [l]) lines ->
     exists dss,
       Forall2 (fun l ds => parseCargoDiagnostics JSON_parse l = Normal ds
                            /\ List.length ds <= 1) lines dss /\
       parseCargoDiagnostics JSON_parse (joinLines lines)
       = Normal (List.concat dss)) /\
  (forall lines,
     lines <> [] -> Forall (fun l => split LF l = [l]) lines ->
     fst (parseTestOutput (joinLines lines))
     = flat_map (fun l => fst (parseTestOutput l)) lines /\
     Forall (fun l => List.length (fst (parseTestOutput l)) <= 1) lines) /\
  (forall a b,
     exists da db,
       parseCargoDiagnostics JSON_parse a = Normal da /\
       parseCargoDiagnostics JSON_parse b = Normal db /\
       parseCargoDiagnostics JSON_parse (a ++ LF :: b) = Normal (da ++ db)) /\
  (forall a b,
     fst (parseTestOutput (a ++ LF :: b))
     = fst (parseTestOutput a) ++ fst (parseTestOutput b)).
Proof.
  split; [|split; [|split]].
  - intros lines Hne Hall.
    exists (map (fun l => flat_map (emitted JSON_parse) (linesOf l)) lines).
    split.
    + clear Hne. induction Hall as [|l lines Hl _ IH]; constructor;
        [|exact IH].
      rewrite parseCargoDiagnostics_spec. split; [reflexivity|].
      unfold linesOf. rewrite Hl. cbn [filter].
      destruct (truthy_string (trim l)); cbn; [|lia].
      rewrite app_nil_r. apply emitted_length.
    + rewrite parseCargoDiagnostics_spec. f_equal. unfold linesOf at 1.
      rewrite (split_joinLines lines Hne Hall). clear Hne.
      induction Hall as [|l lines Hl _ IH]; [reflexivity|].
      cbn [filter map List.concat]. rewrite <- IH.
      unfold linesOf. rewrite Hl. cbn [filter].
      destruct (truthy_string (trim l)); cbn; [|reflexivity].
      now rewrite app_nil_r.
  - intros lines Hne Hall. split.
    + unfold parseTestOutput, testsOf. cbn [fst].
      rewrite (split_joinLines lines Hne Hall). clear Hne.
      induction Hall as [|l lines Hl _ IH]; [reflexivity|].
      cbn [flat_map]. rewrite Hl, <- IH. cbn. now rewrite app_nil_r.
    + clear Hne. induction Hall as [|l lines Hl _ IH]; constructor;
        [|exact IH].
      unfold parseTestOutput, testsOf. cbn [fst]. rewrite Hl. cbn.
      rewrite app_nil_r. unfold testOfLine.
      destruct (exec outcomeRe l); cbn; lia.
  - intros a b.
    exists (flat_map (emitted JSON_parse) (linesOf a)),
           (flat_map (emitted JSON_parse) (linesOf b)).
    rewrite !parseCargoDiagnostics_spec, linesOf_app, flat_map_app.
    repeat split.
  - intros a b. unfold parseTestOutput, testsOf. cbn [fst].
    now rewrite split_app, flat_map_app.
Qed.

(** The same record on two lines, the same outcome on two lines. *)
Lemma parsers_keep_order_witness :
  (exists d,
     parseCargoDiagnostics JSON.parse (joinLines [locatedRecord; locatedRecord])
     = Normal [d; d]) /\
  fst (parseTestOutput
         (joinLines [js "test a ... ok"; js "println output";
                     js "test b ... FAILED"; js "test a ... ok"]))
  = [mkTestResult (js "a") (js "ok"); mkTestResult (js "b") (js "failed");
     mkTestResult (js "a") (js "ok")].
Proof.
  split.
  - destruct (proj1 (parsers_keep_order JSON.parse)
                [locatedRecord; locatedRecord]) as (dss & Hall & Hout).
    + discriminate.
    + repeat constructor.
    + inversion Hall as [|? d1 ? ? [H1 _] Hall']; subst.
      inversion Hall' as [|? d2 ? ? [H2 _] Hall'']; subst.
      inversion Hall''; subst.
      vm_compute in H1. injection H1 as <-.
      vm_compute in H2. injection H2 as <-.
      eexists. rewrite Hout. reflexivity.
  - rewrite (proj1 (proj1 (proj2 (parsers_keep_order JSON.parse))
               [js "test a ... ok"; js "println output";
                js "test b ... FAILED"; js "test a ... ok"]
               ltac:(discriminate) ltac:(repeat constructor))).
    vm_compute. reflexivity.
Defined.

(** ** The parser of test output *)

(** C2, as the code has it: in a text whose first summary line is
    [test result: ], a status word (no full stop, no line break) and
    [. 2 passed; 1 failed; 0 ignored], the summary is
    [2 passed, 1 failed, 0 ignored], whatever outcome lines the text holds
    before and after. *)
Theorem summary_from_summary_line pre w post :
  summaryLineBefore (List.length pre)
    (pre ++ resultPrefix ++ w ++ js ". 2 passed; 1 failed; 0 ignored"
       ++ post) = false ->
  isStatusWord w = true ->
  snd (parseTestOutput
         (pre ++ resultPrefix ++ w ++ js ". 2 passed; 1 failed; 0 ignored"
            ++ post))
  = js "2 passed, 1 failed, 0 ignored".
Proof.
  intros Hpre Hw. unfold parseTestOutput. cbn [snd].
  change (js ". 2 passed; 1 failed; 0 ignored" ++ post)
    with (js ". " ++ js "2" ++ js " passed; " ++ js "1" ++ js " failed; "
            ++ js "0" ++ js " ignored" ++ post) in *.
  rewrite summary_first_line by (assumption || reflexivity).
  reflexivity.
Qed.

(** Four outcome lines in front of a summary line that counts three. *)
Lemma summary_from_summary_line_witness :
  snd (parseTestOutput
         ((js "test a ... ok" ++ LF :: js "test b ... ok" ++ LF
             :: js "test c ... FAILED" ++ LF :: js "test d ... ok" ++ [LF])
            ++ resultPrefix ++ js "FAILED"
            ++ js ". 2 passed; 1 failed; 0 ignored"
            ++ js "; 0 measured; 0 filtered out"))
  = js "2 passed, 1 failed, 0 ignored".
Proof.
  apply summary_from_summary_line; vm_compute; reflexivity.
Defined.

(** C2, as the specification words it, fails: a text that is the line
    [2 passed; 1 failed; 0 ignored] and nothing else has the summary
    [0 tests found]. *)
Lemma bare_counts_are_no_summary_line :
  snd (parseTestOutput (js "2 passed; 1 failed; 0 ignored"))
  = js "0 tests found" /\
  snd (parseTestOutput (js "2 passed; 1 failed; 0 ignored"))
  <> js "2 passed, 1 failed, 0 ignored".
Proof.
  split; [vm_compute; reflexivity|].
  vm_compute. discriminate.
Qed.

(** C8: on a text that holds no summary line the summary is the number of
    outcome lines followed by [ tests found]; it is [0 tests found] when
    there is no outcome line either. *)
Theorem summary_without_summary_line output :
  hasSummaryLine output = false ->
  snd (parseTestOutput output)
  = Number_toString (List.length (fst (parseTestOutput output)))
      ++ js " tests found" /\
  List.length (fst (parseTestOutput output))
  = List.length (filter isOutcomeLine (split LF output)) /\
  (filter isOutcomeLine (split LF output) = [] ->
   snd (parseTestOutput output) = js "0 tests found").
Proof.
  intros H.
  assert (Hs : snd (parseTestOutput output)
               = Number_toString (List.length (testsOf output))
                   ++ js " tests found").
  { unfold parseTestOutput, summaryOf. cbn [snd].
    destruct (exec summaryRe output) as [res|] eqn:E; [|reflexivity].
    apply exec_summary_sound in E. congruence. }
  repeat split.
  - exact Hs.
  - apply testsOf_length.
  - intros Hnone. rewrite Hs, testsOf_length, Hnone. reflexivity.
Qed.

(** A run that stopped before its summary, and an empty text. *)
Lemma summary_without_summary_line_witness :
  snd (parseTestOutput
         (js "running 2 tests" ++ LF :: js "test a ... ok" ++ LF
            :: js "test b ... FAILED" ++ LF
            :: js "error: test failed; 1 passed; 1 failed"))
  = js "2 tests found" /\
  snd (parseTestOutput []) = js "0 tests found".
Proof.
  split.
  - apply (summary_without_summary_line
             (js "running 2 tests" ++ LF :: js "test a ... ok" ++ LF
                :: js "test b ... FAILED" ++ LF
                :: js "error: test failed; 1 passed; 1 failed")).
    vm_compute. reflexivity.
  - apply (summary_without_summary_line []); vm_compute; reflexivity.
Defined.

(** C10: the summary comes from the first match of the summary pattern,
    the one at the first position at which the pattern matches, whatever
    matches there are further on; so it comes from the first summary line
    of the text, the one before which no summary line starts, and what
    follows that line, further summary lines included, changes nothing. *)
Theorem first_summary_line_wins :
  (forall text i st,
     i <= List.length text ->
     (forall j, j < i ->
                m summaryRe Some (mkState j (skipn j text) []) = None) ->
     m summaryRe Some (mkState i (skipn i text) []) = Some st ->
     snd (parseTestOutput text)
     = group st 2 ++ js " passed, " ++ group st 3 ++ js " failed, "
         ++ group st 4 ++ js " ignored") /\
  (forall pre w d1 d2 d3 later,
     summaryLineBefore (List.length pre)
       (pre ++ resultPrefix ++ w ++ js ". " ++ d1 ++ js " passed; "
          ++ d2 ++ js " failed; " ++ d3 ++ js " ignored" ++ later) = false ->
     isStatusWord w = true ->
     isCount d1 = true -> isCount d2 = true -> isCount d3 = true ->
     snd (parseTestOutput
            (pre ++ resultPrefix ++ w ++ js ". " ++ d1 ++ js " passed; "
               ++ d2 ++ js " failed; " ++ d3 ++ js " ignored" ++ later))
     = d1 ++ js " passed, " ++ d2 ++ js " failed, " ++ d3 ++ js " ignored").
Proof.
  split.
  - intros text i st Hlen Hbefore Hat.
    unfold parseTestOutput, summaryOf, exec. cbn [snd].
    now rewrite (search_first summaryRe i text 0 st Hlen Hbefore Hat).
  - intros pre w d1 d2 d3 later Hpre Hw H1 H2 H3.
    unfold parseTestOutput. cbn [snd]. now apply summary_first_line.
Qed.

(** The summary lines of two test binaries, behind a line that has the
    opening words of a summary line and no counts. *)
Lemma first_summary_line_wins_witness :
  snd (parseTestOutput
         (js "test a ... ok" ++ LF
            :: js "test result: ok. 3 passed; 0 failed; 0 ignored" ++ LF
            :: js "test result: FAILED. 1 passed; 4 failed; 2 ignored"))
  = js "3 passed, 0 failed, 0 ignored" /\
  snd (parseTestOutput
         ((js "running 3 tests" ++ LF :: js "test result: pending" ++ LF
             :: js "test a ... ok" ++ [LF])
            ++ resultPrefix ++ js "ok" ++ js ". " ++ js "3"
            ++ js " passed; " ++ js "0" ++ js " failed; " ++ js "0"
            ++ js " ignored"
            ++ (js "; 0 measured" ++ LF
                  :: js "test result: FAILED. 1 passed; 4 failed; 2 ignored")))
  = js "3 passed, 0 failed, 0 ignored".
Proof.
  split.
  - rewrite (proj1 first_summary_line_wins
               (js "test a ... ok" ++ LF
                  :: js "test result: ok. 3 passed; 0 failed; 0 ignored" ++ LF
                  :: js "test result: FAILED. 1 passed; 4 failed; 2 ignored")
               14
               (mkState 60
                  (LF :: js "test result: FAILED. 1 passed; 4 failed; 2 ignored")
                  [(4, js "0"); (3, js "0"); (2, js "3"); (1, js "ok")])).
    + vm_compute. reflexivity.
    + vm_compute. lia.
    + intros j Hj.
      do 14 (destruct j as [|j]; [vm_compute; reflexivity|]). lia.
    + vm_compute. reflexivity.
  - apply (proj2 first_summary_line_wins); vm_compute; reflexivity.
Defined.

(** ** The report of a test run *)

(** C3: the section of the compilation error, with the error stream as it
    is, closes the output exactly when the exit code is not zero and no
    outcome is failed; otherwise the output is the report alone.  The
    report is the line of the summary, the section of the failed tests
    and the two lines of the counts, so it holds the heading of the
    compilation error only if the summary or the name of a failed test
    holds it.  Whenever an outcome of the list is failed, whatever the
    other outcomes and the exit code, its name stands on a line of its
    own under the heading of the failed tests, between the names of the
    failed outcomes before it and after it, and the output ends with the
    lines of the counts, without the section of the compilation error.
    With one failed outcome alone and exit code 1 the output is the
    summary and the name under the heading, and nothing more. *)
Theorem compilation_section_iff tests summary exitCode stderr :
  (exitCode <> 0%Z /\ failedOf tests = [] ->
   formatTestResults tests summary exitCode stderr
   = reportOf tests summary ++ nl ++ compilationHeading ++ nl ++ stderr) /\
  (~ (exitCode <> 0%Z /\ failedOf tests = []) ->
   formatTestResults tests summary exitCode stderr
   = reportOf tests summary) /\
  (includes compilationHeading summary = false ->
   (forall t, In t (failedOf tests) ->
              includes compilationHeading (name t) = false) ->
   includes compilationHeading (reportOf tests summary) = false /\
   (includes compilationHeading
      (formatTestResults tests summary exitCode stderr) = true
    <-> exitCode <> 0%Z /\ failedOf tests = [])) /\
  (forall t, hasStatus "failed" t = true ->
     formatTestResults [t] summary 1 stderr
     = js "Test Results: " ++ summary ++ nl ++ nl
       ++ crossMark ++ js " Failed tests:" ++ nl
       ++ js "   - " ++ name t ++ nl ++ nl) /\
  reportOf tests summary
  = js "Test Results: " ++ summary ++ nl ++ nl
    ++ failedSection (failedOf tests)
    ++ countLine checkMark (js " Passed: ") (filter (hasStatus "ok") tests)
    ++ countLine nextTrack (js " Ignored: ")
         (filter (hasStatus "ignored") tests) /\
  (forall t, In t tests -> hasStatus "failed" t = true ->
     exists before after,
       failedOf tests = before ++ t :: after
       /\ formatTestResults tests summary exitCode stderr
          = js "Test Results: " ++ summary ++ nl ++ nl
            ++ crossMark ++ js " Failed tests:" ++ nl
            ++ failedLines before
            ++ js "   - " ++ name t ++ nl
            ++ failedLines after ++ nl
            ++ countLine checkMark (js " Passed: ")
                 (filter (hasStatus "ok") tests)
            ++ countLine nextTrack (js " Ignored: ")
                 (filter (hasStatus "ignored") tests)).
Proof.
  assert (Hcond :
    negb (Z.eqb exitCode 0) && (List.length (failedOf tests) =? 0) = true
    <-> exitCode <> 0%Z /\ failedOf tests = []).
  { rewrite andb_true_iff, negb_true_iff, Z.eqb_neq, Nat.eqb_eq.
    now rewrite length_zero_iff_nil. }
  assert (Hyes : exitCode <> 0%Z /\ failedOf tests = [] ->
    formatTestResults tests summary exitCode stderr
    = reportOf tests summary ++ nl ++ compilationHeading ++ nl ++ stderr).
  { intros H. rewrite formatTestResults_section.
    apply Hcond in H. now rewrite H. }
  assert (Hno : ~ (exitCode <> 0%Z /\ failedOf tests = []) ->
    formatTestResults tests summary exitCode stderr = reportOf tests summary).
  { intros H. rewrite formatTestResults_section.
    destruct (negb (Z.eqb exitCode 0)
              && (List.length (failedOf tests) =? 0)) eqn:E;
      [|reflexivity].
    exfalso. apply H, Hcond. reflexivity. }
  assert (Hrep :
    reportOf tests summary
    = js "Test Results: " ++ summary ++ nl ++ nl
      ++ failedSection (failedOf tests)
      ++ countLine checkMark (js " Passed: ") (filter (hasStatus "ok") tests)
      ++ countLine nextTrack (js " Ignored: ")
           (filter (hasStatus "ignored") tests)).
  { rewrite reportOf_eq. unfold failedSection, countLine.
    destruct (failedOf tests); destruct (filter (hasStatus "ok") tests);
      destruct (filter (hasStatus "ignored") tests); reflexivity. }
  split; [exact Hyes|]. split; [exact Hno|]. split; [|split; [|split]].
  - intros Hs Hn.
    pose proof (reportOf_free tests summary Hs Hn) as Hfree.
    split; [exact Hfree|]. split.
    + intros Hin.
      destruct (Z.eq_dec exitCode 0) as [Hz|Hz];
        [|destruct (failedOf tests) eqn:Hf; [tauto|]];
        rewrite Hno in Hin by (rewrite ?Hf; intros [? ?];
                               congruence);
        congruence.
    + intros H. rewrite (Hyes H).
      apply includes_app_r. rewrite nl_app.
      cbn [includes]. rewrite includes_prefix. apply orb_true_r.
  - intros t Ht. unfold formatTestResults. cbn [filter].
    rewrite Ht. cbn [List.length Nat.ltb Nat.leb fold_left].
    unfold hasStatus in *. apply (reflect_iff _ _ (jseq_spec _ _)) in Ht.
    rewrite Ht.
    change (jseq (js "failed") (js "ok")) with false.
    change (jseq (js "failed") (js "ignored")) with false.
    cbn [List.length Nat.ltb Nat.leb Nat.eqb Z.eqb negb andb].
    now rewrite <- !app_assoc.
  - exact Hrep.
  - intros t Hin Ht.
    assert (Hf : In t (failedOf tests)).
    { unfold failedOf. apply filter_In. now split. }
    destruct (in_split _ _ Hf) as (before & after & Hsplit).
    exists before, after. split; [exact Hsplit|].
    rewrite Hno, Hrep.
    + rewrite Hsplit. unfold failedSection.
      destruct (before ++ t :: after) eqn:E;
        [now destruct before|].
      rewrite <- E. unfold failedLines. rewrite flat_map_app.
      cbn [flat_map]. now rewrite <- !app_assoc.
    + intros [_ H]. rewrite Hsplit in H. now destruct before.
Qed.

Lemma compilation_section_iff_witness :
  formatTestResults [] (js "0 tests found") 101
    (js "error[E0425]: cannot find value")
  = reportOf [] (js "0 tests found") ++ nl ++ compilationHeading ++ nl
      ++ js "error[E0425]: cannot find value"
  /\
  formatTestResults [mkTestResult (js "test_fail") (js "failed")]
    (js "0 passed, 1 failed, 0 ignored") 1 (js "thread panicked")
  = reportOf [mkTestResult (js "test_fail") (js "failed")]
      (js "0 passed, 1 failed, 0 ignored")
  /\
  includes compilationHeading
    (reportOf [mkTestResult (js "test_fail") (js "failed")]
       (js "0 passed, 1 failed, 0 ignored")) = false
  /\
  formatTestResults [mkTestResult (js "test_fail") (js "failed")]
    (js "0 passed, 1 failed, 0 ignored") 1 (js "thread panicked")
  = js "Test Results: " ++ js "0 passed, 1 failed, 0 ignored" ++ nl ++ nl
    ++ crossMark ++ js " Failed tests:" ++ nl
    ++ js "   - " ++ js "test_fail" ++ nl ++ nl
  /\
  formatTestResults
    [mkTestResult (js "adds") (js "ok");
     mkTestResult (js "divides") (js "failed");
     mkTestResult (js "skipped") (js "ignored");
     mkTestResult (js "subtracts") (js "failed")]
    (js "1 passed, 2 failed, 1 ignored") 1 (js "thread panicked")
  = js "Test Results: 1 passed, 2 failed, 1 ignored" ++ nl ++ nl
    ++ crossMark ++ js " Failed tests:" ++ nl
    ++ js "   - divides" ++ nl
    ++ js "   - subtracts" ++ nl ++ nl
    ++ checkMark ++ js " Passed: 1 tests" ++ nl
    ++ nextTrack ++ js " Ignored: 1 tests" ++ nl.
Proof.
  split; [|split; [|split; [|split]]].
  - apply (proj1 (compilation_section_iff [] (js "0 tests found") 101
                    (js "error[E0425]: cannot find value"))).
    split; [discriminate|reflexivity].
  - apply (proj1 (proj2 (compilation_section_iff
             [mkTestResult (js "test_fail") (js "failed")]
             (js "0 passed, 1 failed, 0 ignored") 1 (js "thread panicked")))).
    intros [_ H]. vm_compute in H. discriminate H.
  - apply (proj1 (proj2 (proj2 (compilation_section_iff
             [mkTestResult (js "test_fail") (js "failed")]
             (js "0 passed, 1 failed, 0 ignored") 1 (js "thread panicked"))))).
    + vm_compute. reflexivity.
    + intros t Ht. vm_compute in Ht. destruct Ht as [<-|[]].
      vm_compute. reflexivity.
  - apply (proj1 (proj2 (proj2 (proj2 (compilation_section_iff
             [mkTestResult (js "test_fail") (js "failed")]
             (js "0 passed, 1 failed, 0 ignored") 1 (js "thread panicked")))))
             (mkTestResult (js "test_fail") (js "failed"))).
    vm_compute. reflexivity.
  - destruct (proj2 (proj2 (proj2 (proj2 (proj2 (compilation_section_iff
               [mkTestResult (js "adds") (js "ok");
                mkTestResult (js "divides") (js "failed");
                mkTestResult (js "skipped") (js "ignored");
                mkTestResult (js "subtracts") (js "failed")]
               (js "1 passed, 2 failed, 1 ignored") 1
               (js "thread panicked"))))))
               (mkTestResult (js "subtracts") (js "failed")))
      as (before & after & Hsplit & Hout).
    + cbn [In]. auto.
    + vm_compute. reflexivity.
    + rewrite Hout.
      assert (Hb : before = [mkTestResult (js "divides") (js "failed")]
                   /\ after = []).
      { vm_compute in Hsplit.
        destruct before as [|b1 [|b2 before]];
          [discriminate Hsplit| |].
        - injection Hsplit as <- <-. now split.
        - injection Hsplit as _ _ H. now destruct before. }
      destruct Hb as [-> ->]. vm_compute. reflexivity.
Defined.

(** ** The tool-call handler *)

(** C7: for every tool name and every supplied path (a string that is not
    empty: the handler takes an empty one for a missing path) under
    which there is no [Cargo.toml], the handler answers with the error
    flag set and a text that names [Cargo.toml] and the path; it has looked
    for the file and done nothing else, so every process in the log was
    spawned before the call. *)
Theorem missing_marker_rejected existsSync join switch name args p log :
  get args "path" = Normal (VString p) ->
  p <> [] ->
  existsSync (join p (js "Cargo.toml")) = false ->
  exists r log',
    handler existsSync join switch name args log = (Normal r, log') /\
    log' = log ++ [ExistsSync (join p (js "Cargo.toml"))] /\
    (forall e, In e log' -> isSpawn e = true -> In e log) /\
    isError r = true /\
    text r = js "Error: No Cargo.toml found at " ++ p
               ++ js ". Is this a Rust project?" /\
    includes (js "Cargo.toml") (text r) = true /\
    includes p (text r) = true.
Proof.
  intros Hpath Hp Hmissing.
  exists (mkResponse (js "Error: No Cargo.toml found at " ++ p
                        ++ js ". Is this a Rust project?") true),
         (log ++ [ExistsSync (join p (js "Cargo.toml"))]).
  repeat split.
  - unfold handler. rewrite Hpath. cbn [toBoolean].
    destruct p as [|c p]; [contradiction|]. cbn [truthy_string negb].
    unfold iobind, validateRustProject. now rewrite Hmissing.
  - intros e He Hs. apply in_app_or in He as [He|[<-|[]]];
      [assumption|discriminate Hs].
  - cbn [text]. apply includes_mid.
Qed.

Lemma missing_marker_rejected_witness :
  exists r log',
    handler noFiles joinPosix (someCases silentCargo) (js "bacon_test")
      (VObject [(js "path", VString (js "/tmp/empty"))]) []
    = (Normal r, log') /\
    log' = [] ++ [ExistsSync (joinPosix (js "/tmp/empty") (js "Cargo.toml"))]
    /\
    (forall e, In e log' -> isSpawn e = true -> In e []) /\
    isError r = true /\
    text r = js "Error: No Cargo.toml found at " ++ js "/tmp/empty"
               ++ js ". Is this a Rust project?" /\
    includes (js "Cargo.toml") (text r) = true /\
    includes (js "/tmp/empty") (text r) = true.
Proof.
  apply (missing_marker_rejected noFiles joinPosix (someCases silentCargo)
           (js "bacon_test")
           (VObject [(js "path", VString (js "/tmp/empty"))])
           (js "/tmp/empty") []).
  - vm_compute. reflexivity.
  - discriminate.
  - reflexivity.
Defined.

(** With C7: under a path that has a [Cargo.toml] the same call spawns
    cargo, and an empty path is answered as a missing one. *)
Lemma marker_present_spawns :
  snd (handler allFiles joinPosix (someCases silentCargo) (js "bacon_fmt")
         (VObject [(js "path", VString (js "/tmp/crate"))]) [])
  = [ExistsSync (js "/tmp/crate/Cargo.toml");
     Spawn (js "cargo") [js "fmt"] (js "/tmp/crate")].
Proof. vm_compute. reflexivity. Qed.

Lemma empty_path_is_missing existsSync join switch name log :
  handler existsSync join switch name (VObject [(js "path", VString [])]) log
  = (Normal (mkResponse (js "Error: path is required") true), log).
Proof. reflexivity. Qed.

(* ===================================================================== *)
(** * Facts on the captures of a match *)
(* ===================================================================== *)

Lemma repeatMatcher_matches mr greedy r1
  (IH : forall k st res, mr k st = Some res ->
        exists w st', rest st = w ++ rest st'
                      /\ endIndex st' = endIndex st + List.length w
                      /\ matches r1 w (captures st) (captures st')
                      /\ k st' = Some res) :
  forall fuel k st res,
    repeatMatcher mr greedy k fuel st = Some res ->
    exists w st', rest st = w ++ rest st'
                  /\ endIndex st' = endIndex st + List.length w
                  /\ matches (Star greedy r1) w (captures st) (captures st')
                  /\ k st' = Some res.
Proof.
  induction fuel as [|fuel IHf]; intros k st res H.
  - exists [], st. cbn. rewrite Nat.add_0_r.
    repeat split; [constructor|assumption].
  - rewrite repeatMatcher_S in H.
    assert (Hcases :
      k st = Some res \/
      mr (fun st' => if endIndex st <? endIndex st'
                     then repeatMatcher mr greedy k fuel st' else None) st
      = Some res).
    { destruct greedy; apply orElse_Some in H; tauto. }
    destruct Hcases as [Hk|Hm].
    + exists [], st. cbn. rewrite Nat.add_0_r.
      repeat split; [constructor|assumption].
    + apply IH in Hm as (w1 & st1 & E1 & I1 & M1 & K1).
      destruct (endIndex st <? endIndex st1); [|discriminate].
      apply IHf in K1 as (w2 & st2 & E2 & I2 & M2 & K2).
      exists (w1 ++ w2), st2. split; [|split; [|split]].
      * rewrite E1, E2. now rewrite app_assoc.
      * rewrite I2, I1, length_app. lia.
      * cbn [matches] in *. econstructor; eassumption.
      * assumption.
Qed.

(** A match consumes a word of the pattern and leaves its captures. *)
Lemma m_matches r : forall k st res,
  m r k st = Some res ->
  exists w st', rest st = w ++ rest st'
                /\ endIndex st' = endIndex st + List.length w
                /\ matches r w (captures st) (captures st')
                /\ k st' = Some res.
Proof.
  induction r as [c|p|r1 IH1 r2 IH2|r1 IH1 r2 IH2|g r1 IH1|i r1 IH1|];
    intros k st res H.
  - cbn in H. destruct (rest st) as [|x s'] eqn:E; [discriminate|].
    destruct (N.eqb_spec x c) as [->|]; [|discriminate].
    exists [c], (advance st s'). cbn. repeat split; try assumption. lia.
  - cbn in H. destruct (rest st) as [|x s'] eqn:E; [discriminate|].
    destruct (p x) eqn:Hp; [|discriminate].
    exists [x], (advance st s'). cbn. repeat split; try assumption;
      [lia|eauto].
  - rewrite m_Seq in H.
    apply IH1 in H as (w1 & st1 & E1 & I1 & M1 & H).
    apply IH2 in H as (w2 & st2 & E2 & I2 & M2 & H).
    exists (w1 ++ w2), st2. split; [|split; [|split]].
    + rewrite E1, E2. now rewrite app_assoc.
    + rewrite I2, I1, length_app. lia.
    + cbn. eauto 6.
    + assumption.
  - cbn [m] in H. apply orElse_Some in H as [H|H];
      [apply IH1 in H|apply IH2 in H];
      destruct H as (w & st' & E & I & M & H); exists w, st'; cbn; auto.
  - cbn [m] in H. eapply repeatMatcher_matches; eassumption.
  - cbn [m] in H. apply IH1 in H as (w & st' & E & I & M & H).
    exists w, (setCapture i st st'). unfold setCapture in *.
    cbn [rest endIndex captures matches].
    split; [assumption|]. split; [assumption|]. split; [|assumption].
    exists (captures st'). split; [assumption|].
    rewrite I, E. replace (endIndex st + List.length w - endIndex st)
      with (List.length w) by lia.
    now rewrite firstn_length_app.
  - cbn [m] in H. destruct (endIndex st =? 0); [|discriminate].
    exists [], st. cbn. rewrite Nat.add_0_r. auto.
Qed.

(** A successful search has found a word of the pattern in the text, and
    returns the captures of that word and what follows it. *)
Lemma search_matches r s : forall idx res,
  search r idx s = Some res ->
  exists pre w,
    s = pre ++ w ++ rest res /\ matches r w [] (captures res)
    /\ endIndex res = idx + List.length pre + List.length w.
Proof.
  induction s as [|c s IH]; intros idx res H; rewrite search_eq in H.
  - destruct (m r Some (mkState idx [] [])) eqn:E; [|discriminate].
    injection H as ->.
    apply m_matches in E as (w & st' & E & I & M & K). cbn in *.
    injection K as ->.
    exists [], w. cbn. repeat split; auto. lia.
  - destruct (m r Some (mkState idx (c :: s) [])) eqn:E.
    + injection H as ->.
      apply m_matches in E as (w & st' & E & I & M & K). cbn in *.
      injection K as ->.
      exists [], w. cbn. repeat split; auto. lia.
    + apply IH in H as (pre & w & E' & M & I).
      exists (c :: pre), w. cbn. repeat split; auto; [now f_equal|lia].
Qed.

Lemma iterated_Class p w c c' :
  iterated (matches (Class p)) w c c' -> forallb p w = true /\ c' = c.
Proof.
  induction 1 as [|w1 w2 c c1 c2 [(x & -> & Hx) ->] _ [IH ->]];
    [now split|].
  cbn. now rewrite Hx.
Qed.

Lemma matches_Lit l w c c' : matches (Lit l) w c c' -> w = l /\ c' = c.
Proof.
  revert w c c'. induction l as [|x l IH]; intros w c c' H.
  - cbn in H. inversion H as [|w1 w2 ? c1 ? [(y & _ & Hy) _] _]; subst;
      [now split|discriminate].
  - destruct l as [|x' l]; [cbn in H; now destruct H|].
    change (Lit (x :: x' :: l)) with (Seq (Chr x) (Lit (x' :: l))) in H.
    cbn [matches] in H. destruct H as (w1 & w2 & c1 & -> & [-> ->] & H2).
    apply IH in H2 as [-> ->]. now split.
Qed.

Lemma matches_Plus_Class greedy p w c c' :
  matches (Plus greedy (Class p)) w c c' ->
  w <> [] /\ forallb p w = true /\ c' = c.
Proof.
  unfold Plus. cbn [matches].
  intros (w1 & w2 & c1 & -> & [(x & -> & Hx) ->] & H2).
  apply iterated_Class in H2 as [H2 ->].
  split; [discriminate|]. cbn. now rewrite Hx.
Qed.

(* ===================================================================== *)
(** * Facts on the outcome lines *)
(* ===================================================================== *)

(** A pattern that opens with [^] matches at the start of the text
    only. *)
Lemma search_Bol r s : forall idx,
  search (Seq Bol r) (S idx) s = None.
Proof.
  induction s as [|c s IH]; intros idx; rewrite search_eq; cbn [m endIndex];
    cbn [Nat.eqb]; [reflexivity|apply IH].
Qed.

Lemma exec_Bol r s :
  exec (Seq Bol r) s = m (Seq Bol r) Some (mkState 0 s []).
Proof.
  unfold exec. rewrite search_eq.
  destruct (m (Seq Bol r) Some (mkState 0 s [])); [reflexivity|].
  destruct s; [reflexivity|apply search_Bol].
Qed.

(** What a match of the outcome pattern has read. *)
Lemma exec_outcome ln mt :
  exec outcomeRe ln = Some mt ->
  exists ws1 n ws2 ws3 w,
    ln = js "test" ++ ws1 ++ n ++ ws2 ++ js "..." ++ ws3 ++ w ++ rest mt
    /\ isSpaces ws1 /\ isSpaces ws2 /\ isSpaces ws3
    /\ n <> [] /\ forallb isDot n = true
    /\ In w outcomeWords
    /\ captures mt = [(2, w); (1, n)].
Proof.
  unfold outcomeRe. rewrite exec_Bol. intros H.
  apply m_matches in H as (w0 & st' & E & _ & M & K).
  injection K as ->. cbn [rest captures] in *.
  cbn [matches] in M.
  destruct M as (b & x1 & c1 & -> & [-> ->] & M).
  destruct M as (t & x2 & c2 & -> & Mt & M).
  apply matches_Lit in Mt as [-> ->].
  destruct M as (ws1 & x3 & c3 & -> & M1 & M).
  apply matches_Plus_Class in M1 as (N1 & S1 & ->).
  destruct M as (n & x4 & c4 & -> & (c5 & Mn & ->) & M).
  apply matches_Plus_Class in Mn as (Nn & Dn & ->).
  destruct M as (ws2 & x5 & c6 & -> & M2 & M).
  apply matches_Plus_Class in M2 as (N2 & S2 & ->).
  destruct M as (d & x6 & c7 & -> & Md & M).
  apply matches_Lit in Md as [-> ->].
  destruct M as (ws3 & w & c8 & -> & M3 & (c9 & Mw & Ec)).
  apply matches_Plus_Class in M3 as (N3 & S3 & ->).
  assert (Hw : In w outcomeWords /\ c9 = [(1, n)]).
  { destruct Mw as [Mw|[Mw|Mw]]; apply matches_Lit in Mw as [-> ->];
      unfold outcomeWords; cbn; auto. }
  destruct Hw as [Hw ->].
  exists ws1, n, ws2, ws3, w. unfold isSpaces.
  repeat split; try assumption.
  rewrite E. cbn [app]. now rewrite <- !app_assoc.
Qed.

Lemma toLowerCase_outcome w :
  In w outcomeWords ->
  In (toLowerCase w) [js "ok"; js "failed"; js "ignored"].
Proof.
  unfold outcomeWords. intros [<-|[<-|[<-|[]]]]; cbn; auto.
Qed.

(** What a line gives is read off the line. *)
Lemma testOfLine_In ln t :
  In t (testOfLine ln) ->
  exists ws1 ws2 ws3 w rest',
    ln = js "test" ++ ws1 ++ name t ++ ws2 ++ js "..." ++ ws3 ++ w ++ rest'
    /\ isSpaces ws1 /\ isSpaces ws2 /\ isSpaces ws3
    /\ name t <> [] /\ forallb isDot (name t) = true
    /\ In w outcomeWords /\ status t = toLowerCase w.
Proof.
  unfold testOfLine. destruct (exec outcomeRe ln) as [mt|] eqn:E; [|intros []].
  intros [<-|[]].
  apply exec_outcome in E as (ws1 & n & ws2 & ws3 & w & -> & H1 & H2 & H3
                               & Hn & Hd & Hw & Hc).
  unfold group. rewrite Hc. cbn [lookup Nat.eqb name status].
  exists ws1, ws2, ws3, w, (rest mt). repeat split; try assumption.
  all: try apply H1; try apply H2; try apply H3.
Qed.

(** The three filters of the report on a status that the parser gives. *)
Lemma status_groups (t : TestResult) :
  In (status t) [js "ok"; js "failed"; js "ignored"] ->
  (if hasStatus "failed" t then 1 else 0)
  + (if hasStatus "ok" t then 1 else 0)
  + (if hasStatus "ignored" t then 1 else 0) = 1.
Proof.
  unfold hasStatus. intros [<-|[<-|[<-|[]]]]; reflexivity.
Qed.

Lemma filter_length_cons A (f : A -> bool) x l :
  List.length (filter f (x :: l))
  = (if f x then 1 else 0) + List.length (filter f l).
Proof. cbn. now destruct (f x). Qed.

(* ===================================================================== *)
(** * More facts on the matcher *)
(* ===================================================================== *)

(** A greedy [p*] takes the whole run when what follows accepts that. *)
Lemma m_Star_greedy p w tail i caps k res :
  forallb p w = true -> stopsAt p tail ->
  k (mkState (i + List.length w) tail caps) = Some res ->
  m (Star true (Class p)) k (mkState i (w ++ tail) caps) = Some res.
Proof.
  intros Hw Ht Hk. cbn [m rest].
  apply repeat_greedy; try assumption. rewrite length_app. lia.
Qed.

(** A greedy [p+] likewise. *)
Lemma m_Plus_greedy p w tail i caps k res :
  w <> [] -> forallb p w = true -> stopsAt p tail ->
  k (mkState (i + List.length w) tail caps) = Some res ->
  m (Plus true (Class p)) k (mkState i (w ++ tail) caps) = Some res.
Proof.
  intros Hne Hw Ht Hk. destruct w as [|c w]; [contradiction|].
  cbn [forallb] in Hw. apply andb_prop in Hw as [Hc Hw].
  unfold Plus. rewrite m_Seq. cbn [app]. rewrite m_Class_cons, Hc.
  apply m_Star_greedy; try assumption.
  rewrite <- Hk. do 2 f_equal. cbn [List.length]. lia.
Qed.

(** A capture of a greedy [p+]. *)
Lemma m_group_plus p g w tail i caps k res :
  w <> [] -> forallb p w = true -> stopsAt p tail ->
  k (mkState (i + List.length w) tail ((g, w) :: caps)) = Some res ->
  m (Group g (Plus true (Class p))) k (mkState i (w ++ tail) caps)
  = Some res.
Proof.
  intros Hne Hw Ht Hk. cbn [m].
  apply (m_Plus_greedy p w tail i caps); try assumption.
  unfold setCapture. cbn [endIndex rest captures].
  replace (i + List.length w - i) with (List.length w) by lia.
  now rewrite firstn_length_app.
Qed.

(** A greedy run followed by a literal fails where the run is not followed
    by the literal: giving back part of the run leaves a code unit of the
    class in front, with which the literal does not start. *)
Lemma repeat_greedy_fail p c0 l k :
  p c0 = false ->
  forall s fuel i caps,
    startsWith (c0 :: l) (dropWhile p s) = false ->
    repeatMatcher (m (Class p)) true (m (Lit (c0 :: l)) k) fuel
      (mkState i s caps) = None.
Proof.
  intros Hc0 s. induction s as [|x s IH]; intros fuel i caps H.
  - destruct fuel as [|fuel]; [|rewrite repeatMatcher_S, m_Class_nil];
      cbn [orElse repeatMatcher]; now apply m_Lit_fail.
  - assert (Hk : m (Lit (c0 :: l)) k (mkState i (x :: s) caps) = None).
    { apply m_Lit_fail. cbn [dropWhile] in H.
      destruct (p x) eqn:Hx; [|assumption].
      cbn [startsWith]. destruct (N.eqb_spec c0 x) as [->|];
        [congruence|reflexivity]. }
    destruct fuel as [|fuel]; [exact Hk|].
    rewrite repeatMatcher_S, m_Class_cons, Hk.
    destruct (p x) eqn:Hx; [|reflexivity].
    cbn [endIndex].
    replace (i <? S i) with true by (symmetry; apply Nat.ltb_lt; lia).
    rewrite IH; [reflexivity|]. cbn [dropWhile] in H. now rewrite Hx in H.
Qed.

Lemma m_Plus_fail p c0 l k s i caps :
  p c0 = false ->
  startsWith (c0 :: l) (dropWhile p s) = false ->
  m (Plus true (Class p)) (m (Lit (c0 :: l)) k) (mkState i s caps) = None.
Proof.
  intros Hc0 H. unfold Plus. rewrite m_Seq.
  destruct s as [|x s]; [apply m_Class_nil|].
  rewrite m_Class_cons. destruct (p x) eqn:Hx; [|reflexivity].
  cbn [m rest]. apply repeat_greedy_fail; [assumption|].
  cbn [dropWhile] in H. now rewrite Hx in H.
Qed.

(** A lazy run stops at the first place where what follows accepts. *)
Lemma repeat_lazy_at p k : forall w fuel i tail caps res,
  forallb p w = true -> List.length w <= fuel ->
  (forall a c b, w = a ++ c :: b ->
     k (mkState (i + List.length a) (c :: b ++ tail) caps) = None) ->
  k (mkState (i + List.length w) tail caps) = Some res ->
  repeatMatcher (m (Class p)) false k fuel (mkState i (w ++ tail) caps)
  = Some res.
Proof.
  induction w as [|c w IH]; intros fuel i tail caps res Hw Hf Hn Hk.
  - cbn [List.length app] in *. rewrite Nat.add_0_r in Hk.
    destruct fuel as [|fuel]; [exact Hk|].
    rewrite repeatMatcher_S. now rewrite Hk.
  - cbn [forallb] in Hw. apply andb_prop in Hw as [Hc Hw].
    destruct fuel as [|fuel]; [cbn in Hf; lia|].
    rewrite repeatMatcher_S. cbn [app].
    pose proof (Hn [] c w eq_refl) as H0. cbn [List.length] in H0.
    rewrite Nat.add_0_r in H0. rewrite H0.
    cbn [orElse]. rewrite m_Class_cons, Hc. cbn [endIndex].
    replace (i <? S i) with true by (symmetry; apply Nat.ltb_lt; lia).
    apply IH; try assumption.
    + cbn in Hf. lia.
    + intros a c' b E. specialize (Hn (c :: a) c' b).
      cbn [List.length app] in Hn. rewrite <- Nat.add_succ_comm in Hn.
      apply Hn. now rewrite E.
    + rewrite <- Hk. do 2 f_equal. cbn. lia.
Qed.

(** ** Runs of white space inside a name *)

Lemma dropWhile_app_stop p x tail :
  x <> [] -> stopsAt p (rev x) ->
  dropWhile p (x ++ tail) = dropWhile p x ++ tail /\ dropWhile p x <> [].
Proof.
  induction x as [|c x IH]; intros Hne Hs; [contradiction|].
  cbn [app dropWhile]. destruct (p c) eqn:Hc; [|split; [reflexivity|discriminate]].
  destruct x as [|c' x].
  - cbn in Hs. congruence.
  - apply IH; [discriminate|].
    cbn [rev] in Hs |- *. unfold stopsAt in *.
    destruct (rev x ++ [c']) eqn:E; [now destruct (rev x)|].
    cbn in Hs. exact Hs.
Qed.

Lemma dropWhile_suffix p s : exists a, s = a ++ dropWhile p s.
Proof.
  induction s as [|c s [a IH]]; [now exists []|].
  cbn. destruct (p c); [|now exists []].
  exists (c :: a). cbn. now f_equal.
Qed.

Lemma includes_false_suffix l a d :
  includes l (a ++ d) = false -> startsWith l d = false.
Proof.
  induction a as [|x a IH]; cbn [app].
  - destruct d; cbn; intros H; now apply orb_false_elim in H.
  - intros H. cbn [includes] in H. apply orb_false_elim in H as [_ H].
    auto.
Qed.

Lemma stopsAt_rev_suffix p a c b :
  stopsAt p (rev (a ++ c :: b)) -> stopsAt p (rev (c :: b)).
Proof.
  rewrite rev_app_distr. unfold stopsAt.
  destruct (rev (c :: b)) eqn:E.
  - apply (f_equal (@List.length _)) in E. rewrite length_rev in E.
    discriminate.
  - cbn. auto.
Qed.

(** No three dots start at a place of a name that holds none, when white
    space follows the name. *)
Lemma dots_not_at d t tail :
  d <> [] -> startsWith (js "...") d = false -> isSpace t = true ->
  startsWith (js "...") (d ++ t :: tail) = false.
Proof.
  intros Hne Hd Ht.
  assert (T : N.eqb 46 t = false).
  { destruct (N.eqb_spec 46 t) as [<-|]; [discriminate|reflexivity]. }
  change (js "...") with [46%N; 46%N; 46%N] in *.
  destruct d as [|x [|y [|z d]]]; [contradiction| | |];
    cbn [app startsWith] in *.
  - now rewrite T, andb_false_r.
  - now rewrite T, !andb_false_r.
  - exact Hd.
Qed.

Lemma m_Bol k i s caps :
  m Bol k (mkState i s caps) = if i =? 0 then k (mkState i s caps) else None.
Proof. reflexivity. Qed.

Lemma m_Group g r k st :
  m (Group g r) k st = m r (fun st' => k (setCapture g st st')) st.
Proof. reflexivity. Qed.

Lemma m_Alt r1 r2 k st :
  m (Alt r1 r2) k st = orElse (m r1 k st) (m r2 k st).
Proof. reflexivity. Qed.

Lemma m_Star g r k st :
  m (Star g r) k st = repeatMatcher (m r) g k (List.length (rest st)) st.
Proof. reflexivity. Qed.

Lemma stopsAt_app p x y : x <> [] -> stopsAt p x -> stopsAt p (x ++ y).
Proof. destruct x; [contradiction|]. cbn. auto. Qed.

(** The status and what follows it, after the last run of white space. *)
Lemma outcome_status w post i caps n :
  In w outcomeWords ->
  m (Group 2 (Alt (Lit (js "ok"))
                 (Alt (Lit (js "FAILED")) (Lit (js "ignored")))))
    Some (mkState i (w ++ post) ((1, n) :: caps))
  = Some (mkState (i + List.length w) post ((2, w) :: (1, n) :: caps)).
Proof.
  intros Hw. rewrite m_Group. unfold outcomeWords in Hw.
  destruct Hw as [<-|[<-|[<-|[]]]]; rewrite !m_Alt.
  - rewrite m_Lit. unfold setCapture. cbn [endIndex rest captures orElse].
    replace (i + List.length (js "ok") - i) with (List.length (js "ok"))
      by lia.
    now rewrite firstn_length_app.
  - rewrite (m_Lit_fail _ (js "ok")) by reflexivity.
    cbn [orElse]. rewrite m_Lit.
    unfold setCapture. cbn [endIndex rest captures orElse].
    replace (i + List.length (js "FAILED") - i)
      with (List.length (js "FAILED")) by lia.
    now rewrite firstn_length_app.
  - rewrite (m_Lit_fail _ (js "ok")) by reflexivity.
    rewrite (m_Lit_fail _ (js "FAILED")) by reflexivity.
    cbn [orElse]. rewrite m_Lit.
    unfold setCapture. cbn [endIndex rest captures orElse].
    replace (i + List.length (js "ignored") - i)
      with (List.length (js "ignored")) by lia.
    now rewrite firstn_length_app.
Qed.

Lemma outcomeWords_stop w post :
  In w outcomeWords -> stopsAt isSpace (w ++ post).
Proof.
  unfold outcomeWords. intros [<-|[<-|[<-|[]]]]; reflexivity.
Qed.

(** What follows the name in the pattern, on what follows the name in an
    outcome line. *)
Lemma outcome_tail ws2 ws3 w post i caps n :
  isSpaces ws2 -> isSpaces ws3 -> In w outcomeWords ->
  exists j,
    m (Seq (Plus true (Class isSpace))
      (Seq (Lit (js "..."))
      (Seq (Plus true (Class isSpace))
           (Group 2 (Alt (Lit (js "ok"))
                    (Alt (Lit (js "FAILED")) (Lit (js "ignored"))))))))
      Some (mkState i (ws2 ++ js "..." ++ ws3 ++ w ++ post)
              ((1, n) :: caps))
    = Some (mkState j post ((2, w) :: (1, n) :: caps)).
Proof.
  intros [N2 S2] [N3 S3] Hw. eexists.
  rewrite m_Seq. apply m_Plus_greedy; [assumption|assumption|reflexivity|].
  rewrite m_Seq, m_Lit, m_Seq.
  apply m_Plus_greedy;
    [assumption|assumption|now apply outcomeWords_stop|].
  now apply outcome_status.
Qed.

(** The match of the outcome pattern on an outcome line. *)
Lemma outcome_at ws1 n ws2 ws3 w post :
  isSpaces ws1 -> isSpaces ws2 -> isSpaces ws3 ->
  n <> [] -> forallb isDot n = true ->
  stopsAt isSpace n -> stopsAt isSpace (rev n) ->
  includes (js "...") n = false ->
  In w outcomeWords ->
  exists j,
    m outcomeRe Some
      (mkState 0 (js "test" ++ ws1 ++ n ++ ws2 ++ js "..." ++ ws3 ++ w
                    ++ post) [])
    = Some (mkState j post [(2, w); (1, n)]).
Proof.
  intros [N1 S1] H2 H3 Nn Dn Fn Ln In3 Hw.
  destruct n as [|c0 n']; [contradiction|].
  cbn [forallb] in Dn. apply andb_prop in Dn as [Dc Dn].
  destruct (outcome_tail ws2 ws3 w post
              (4 + List.length ws1 + S (List.length n')) [] (c0 :: n')
              H2 H3 Hw) as [j Hj].
  exists j. unfold outcomeRe.
  rewrite m_Seq, m_Bol. cbn [Nat.eqb].
  rewrite m_Seq, m_Lit, m_Seq.
  apply m_Plus_greedy;
    [assumption|assumption|now apply stopsAt_app|].
  rewrite m_Seq, m_Group. unfold Plus at 1. rewrite m_Seq.
  cbn [app]. rewrite m_Class_cons, Dc. rewrite m_Star. cbn [rest].
  apply repeat_lazy_at.
  - assumption.
  - rewrite length_app. lia.
  - intros a c b E. unfold setCapture. cbn [endIndex rest captures].
    rewrite m_Seq. change (js "...") with [46%N; 46%N; 46%N].
    match goal with
    | |- m _ (m (Seq (Lit ?l) ?R) ?k) _ = _ =>
        change (m (Seq (Lit l) R) k) with (m (Lit l) (m R k))
    end.
    apply m_Plus_fail; [reflexivity|].
    change (c :: b ++ ws2 ++ [46%N; 46%N; 46%N] ++ ws3 ++ w ++ post)
      with ((c :: b) ++ ws2 ++ [46%N; 46%N; 46%N] ++ ws3 ++ w ++ post).
    destruct (dropWhile_app_stop isSpace (c :: b)
                (ws2 ++ [46%N; 46%N; 46%N] ++ ws3 ++ w ++ post))
      as [-> Hd].
    + discriminate.
    + apply (stopsAt_rev_suffix isSpace (c0 :: a)). cbn [app].
      now rewrite <- E.
    + destruct H2 as [N2 S2]. destruct ws2 as [|t ws2]; [contradiction|].
      cbn [forallb] in S2. apply andb_prop in S2 as [St _].
      cbn [app]. apply dots_not_at; [assumption| |assumption].
      destruct (dropWhile_suffix isSpace (c :: b)) as [a' Ea].
      apply (includes_false_suffix _ ((c0 :: a) ++ a')).
      rewrite <- app_assoc, <- Ea. cbn [app]. now rewrite <- E.
  - unfold setCapture. cbn [endIndex rest captures].
    replace (S (0 + List.length (js "test") + List.length ws1)
             + List.length n'
             - (0 + List.length (js "test") + List.length ws1))
      with (List.length (c0 :: n')) by (cbn [List.length]; lia).
    change (c0 :: n' ++ ws2 ++ js "..." ++ ws3 ++ w ++ post)
      with ((c0 :: n') ++ ws2 ++ js "..." ++ ws3 ++ w ++ post).
    rewrite firstn_length_app. refine (eq_trans _ Hj). do 2 f_equal.
    change (List.length (js "test")) with 4. lia.
Qed.

(* ===================================================================== *)
(** * Facts on the patterns of [getProjectInfo] *)
(* ===================================================================== *)

Lemma m_Chr_cons c k i s caps :
  m (Chr c) k (mkState i (c :: s) caps) = k (mkState (S i) s caps).
Proof. cbn. now rewrite N.eqb_refl. Qed.

Lemma nameRe_eq : nameRe = Seq (Lit (js "name")) quotedValue.
Proof. reflexivity. Qed.

Lemma versionRe_eq : versionRe = Seq (Lit (js "version")) quotedValue.
Proof. reflexivity. Qed.

(** The match at an assignment. *)
Lemma assignment_at key v ws1 ws2 post i :
  forallb isSpace ws1 = true -> forallb isSpace ws2 = true ->
  v <> [] -> forallb notQuote v = true ->
  exists j,
    m (Seq (Lit key) quotedValue) Some
      (mkState i (key ++ ws1 ++ [61%N] ++ ws2 ++ [34%N] ++ v ++ [34%N]
                    ++ post) [])
    = Some (mkState j post [(1, v)]).
Proof.
  intros S1 S2 Nv Qv. eexists. unfold quotedValue.
  rewrite m_Seq, m_Lit, m_Seq.
  apply m_Star_greedy; [assumption|reflexivity|].
  cbn [app]. rewrite m_Seq, m_Chr_cons, m_Seq.
  apply m_Star_greedy; [assumption|reflexivity|].
  rewrite m_Seq, m_Chr_cons, m_Seq.
  apply m_group_plus; [assumption|assumption|reflexivity|].
  rewrite m_Chr_cons. reflexivity.
Qed.

(** What a match of one of the two patterns has read. *)
Lemma assignment_found key text st :
  exec (Seq (Lit key) quotedValue) text = Some st ->
  exists pre v,
    assigns key v pre (rest st) text
    /\ v <> [] /\ forallb notQuote v = true
    /\ captures st = [(1, v)].
Proof.
  unfold exec. intros H.
  apply search_matches in H as (pre & w & E & M & _).
  unfold quotedValue in M. cbn [matches] in M.
  destruct M as (k & x1 & c1 & -> & Mk & M).
  apply matches_Lit in Mk as [-> ->].
  destruct M as (ws1 & x2 & c2 & -> & M1 & M).
  apply iterated_Class in M1 as [S1 ->].
  destruct M as (e & x3 & c3 & -> & [-> ->] & M).
  destruct M as (ws2 & x4 & c4 & -> & M2 & M).
  apply iterated_Class in M2 as [S2 ->].
  destruct M as (q & x5 & c5 & -> & [-> ->] & M).
  destruct M as (v & q' & c6 & -> & (c7 & Mv & ->) & [-> Ec]).
  apply matches_Plus_Class in Mv as (Nv & Qv & ->).
  exists pre, v. split; [|auto].
  exists ws1, ws2. split; [|auto].
  rewrite E. now rewrite <- !app_assoc.
Qed.

(** The search returns the match at a position before which the pattern
    matches nowhere. *)
Lemma search_after r : forall n text idx st,
  n <= List.length text ->
  matchesBefore r n idx text = false ->
  m r Some (mkState (idx + n) (skipn n text) []) = Some st ->
  search r idx text = Some st.
Proof.
  induction n as [|n IH]; intros text idx st Hlen Hb Hat; rewrite search_eq.
  - rewrite Nat.add_0_r in Hat. cbn [skipn] in Hat. now rewrite Hat.
  - cbn [matchesBefore] in Hb.
    destruct (m r Some (mkState idx text [])); [discriminate|].
    destruct text as [|c text]; [cbn in Hlen; lia|].
    apply IH.
    + cbn in Hlen. lia.
    + assumption.
    + cbn [skipn] in Hat. now rewrite Nat.add_succ_r in Hat.
Qed.

(** The first assignment of the key is the one that is read. *)
Lemma first_assignment key v pre post text :
  assigns key v pre post text ->
  matchesBefore (Seq (Lit key) quotedValue) (List.length pre) 0 text
  = false ->
  v <> [] -> forallb notQuote v = true ->
  forall fallback,
    firstGroupOr (exec (Seq (Lit key) quotedValue) text) fallback = v.
Proof.
  intros (ws1 & ws2 & -> & S1 & S2) Hb Nv Qv.
  destruct (assignment_at key v ws1 ws2 post (List.length pre) S1 S2 Nv Qv)
    as [j Hj].
  assert (E : exec (Seq (Lit key) quotedValue)
                (pre ++ key ++ ws1 ++ [61%N] ++ ws2 ++ [34%N] ++ v
                   ++ [34%N] ++ post)
              = Some (mkState j post [(1, v)])).
  { unfold exec. apply (search_after _ (List.length pre)).
    - rewrite length_app. lia.
    - assumption.
    - now rewrite skipn_length_app. }
  rewrite E. intros fallback. reflexivity.
Qed.

(* ===================================================================== *)
(** * Facts on the report of the diagnostics *)
(* ===================================================================== *)

Section ReportFacts.

Variable otherNumber : number -> jsstring.

Lemma toString_primitive v :
  isPrimitive v = true -> exists s, toString otherNumber v = Normal s.
Proof. destruct v as [| |[|]| | | |]; cbn; intros H; eauto; discriminate. Qed.

(** What the body of the loop appends does not depend on the output so
    far. *)
Lemma formatEntry_app output d :
  formatEntry otherNumber output d
  = andThen (formatEntry otherNumber [] d)
      (fun e => Normal (output ++ e)).
Proof.
  unfold formatEntry.
  destruct (toBoolean (code d)); [destruct (toString otherNumber (code d))|];
    cbn [andThen]; try reflexivity.
  all: destruct (toString otherNumber (message d)); cbn [andThen];
    try reflexivity.
  all: destruct (toString otherNumber (file d)); cbn [andThen];
    try reflexivity.
  all: destruct (toString otherNumber (line d)); cbn [andThen];
    try reflexivity.
  all: destruct (toString otherNumber (column d)); cbn [andThen];
    try reflexivity.
  all: destruct (toBoolean (suggestion d));
    [destruct (toString otherNumber (suggestion d))|]; cbn [andThen];
    try reflexivity.
  all: f_equal; cbn [app]; rewrite <- ?app_assoc; reflexivity.
Qed.

Lemma fold_Throw e ds :
  fold_left (fun output d =>
               andThen output (fun output => formatEntry otherNumber output d))
    ds (Throw e) = Throw e.
Proof. induction ds; cbn; auto. Qed.

(** The loop appends the entries in order. *)
Lemma fold_entries : forall ds es output,
  Forall2 (fun d e => formatEntry otherNumber [] d = Normal e) ds es ->
  fold_left (fun output d =>
               andThen output (fun output => formatEntry otherNumber output d))
    ds (Normal output)
  = Normal (output ++ List.concat es).
Proof.
  induction ds as [|d ds IH]; intros es output H; inversion H; subst.
  - cbn. now rewrite app_nil_r.
  - cbn [fold_left andThen]. rewrite formatEntry_app.
    match goal with E : formatEntry _ [] d = _ |- _ => rewrite E end.
    cbn [andThen]. rewrite (IH _ _ ltac:(eassumption)).
    cbn [List.concat]. now rewrite app_assoc.
Qed.

(** The loop stops at the first entry that throws. *)
Lemma fold_entries_throw : forall ds1 es d ds2 output e,
  Forall2 (fun d e => formatEntry otherNumber [] d = Normal e) ds1 es ->
  formatEntry otherNumber [] d = Throw e ->
  fold_left (fun output d =>
               andThen output (fun output => formatEntry otherNumber output d))
    (ds1 ++ d :: ds2) (Normal output)
  = Throw e.
Proof.
  intros ds1 es d ds2 output e H Hd.
  rewrite fold_left_app, (fold_entries _ _ _ H). cbn [fold_left andThen].
  rewrite formatEntry_app, Hd. cbn [andThen]. apply fold_Throw.
Qed.

Lemma formatEntry_primitive d :
  forallb isPrimitive (printedFields d) = true ->
  exists e, formatEntry otherNumber [] d = Normal e.
Proof.
  unfold printedFields. cbn [forallb]. rewrite !andb_true_iff.
  intros (Hc & Hm & Hf & Hl & Hk & Hs & _).
  apply toString_primitive in Hc as [c Hc], Hm as [m' Hm], Hf as [f Hf],
    Hl as [l Hl], Hk as [k Hk], Hs as [s Hs].
  unfold formatEntry. rewrite Hc, Hm, Hf, Hl, Hk, Hs.
  destruct (toBoolean (code d)), (toBoolean (suggestion d)); cbn [andThen];
    eauto.
Qed.

Lemma entries_primitive ds :
  Forall (fun d => forallb isPrimitive (printedFields d) = true) ds ->
  exists es,
    Forall2 (fun d e => formatEntry otherNumber [] d = Normal e) ds es.
Proof.
  induction 1 as [|d ds Hd _ [es IH]]; [exists []; constructor|].
  destruct (formatEntry_primitive d Hd) as [e He].
  exists (e :: es). now constructor.
Qed.

Lemma formatDiagnostics_cons d ds :
  formatDiagnostics otherNumber (d :: ds)
  = fold_left (fun output d =>
                 andThen output
                   (fun output => formatEntry otherNumber output d))
      (d :: ds) (Normal (foundLine (d :: ds))).
Proof. reflexivity. Qed.

End ReportFacts.

(** The loop keeps what the output held. *)
Lemma fold_prefix otherNumber : forall ds output r,
  fold_left (fun output d =>
               andThen output (fun output => formatEntry otherNumber output d))
    ds (Normal output) = Normal r ->
  exists x, r = output ++ x.
Proof.
  induction ds as [|d ds IH]; intros output r H.
  - cbn in H. injection H as <-. exists []. now rewrite app_nil_r.
  - cbn [fold_left andThen] in H. rewrite formatEntry_app in H.
    destruct (formatEntry otherNumber [] d) as [e|e]; cbn [andThen] in H.
    + apply IH in H as [x ->]. exists (e ++ x). now rewrite app_assoc.
    + now rewrite fold_Throw in H.
Qed.

(** An object with a property [toString] does not print. *)
Lemma toString_own ps x otherNumber :
  lookupProp (js "toString") ps = Some x ->
  toString otherNumber (VObject ps) = Throw TypeError.
Proof. cbn. now intros ->. Qed.

(* ===================================================================== *)
(** * Facts on the process *)
(* ===================================================================== *)

Lemma listen_resolved c e r :
  resolved c = Some r -> resolved (listen c e) = Some r.
Proof.
  destruct e; cbn; unfold resolve; intros H; try assumption;
    now rewrite H.
Qed.

Lemma fold_resolved es : forall c r,
  resolved c = Some r -> resolved (fold_left listen es c) = Some r.
Proof.
  induction es as [|e es IH]; intros c r H; [assumption|].
  cbn. apply IH. now apply listen_resolved.
Qed.

Lemma fold_quiet es : forall c,
  forallb (fun e => negb (isSettling e)) es = true ->
  fold_left listen es c
  = mkCollector (collectedStdout c ++ stdoutOf es)
      (collectedStderr c ++ stderrOf es) (resolved c).
Proof.
  induction es as [|e es IH]; intros c H.
  - cbn. rewrite !app_nil_r. now destruct c.
  - cbn [forallb] in H. apply andb_prop in H as [He H].
    cbn [fold_left]. rewrite (IH _ H).
    destruct e; try discriminate; cbn; now rewrite <- ?app_assoc.
Qed.

(* ===================================================================== *)
(** * Facts on the tool-call handler *)
(* ===================================================================== *)

Lemma iotry_Normal A B (a : A) (f : A -> IO (completion B)) :
  iotry (ioret (Normal a)) f = f a.
Proof. reflexivity. Qed.

Lemma jseq_refl a : jseq a a = true.
Proof. now destruct (jseq_spec a a). Qed.

Lemma jseq_neq a b : a <> b -> jseq a b = false.
Proof. intros H. now destruct (jseq_spec a b). Qed.

Section ServerFacts.

Variable existsSync : jsstring -> bool.
Variable join : jsstring -> jsstring -> jsstring.
Variable cargo : list jsstring -> jsstring -> CommandResult.
Variable readFile : jsstring -> completion jsstring.
Variable JSON_parse : jsstring -> completion value.
Variable otherNumber : number -> jsstring.
Variable argvOf : list value -> completion (list jsstring).

(** The guard of the handler lets a call with a path and its marker file
    through to the [switch]. *)
Lemma handler_valid switch name args p log :
  get args "path" = Normal (VString p) -> p <> [] ->
  existsSync (join p (js "Cargo.toml")) = true ->
  handler existsSync join switch name args log
  = switch name args p (log ++ [ExistsSync (join p (js "Cargo.toml"))]).
Proof.
  intros Hp Hne He. unfold handler. rewrite Hp.
  destruct p as [|c p]; [contradiction|]. cbn [toBoolean truthy_string negb].
  unfold iobind, validateRustProject. now rewrite He.
Qed.

(** [runCargoCommand] spawns one process, unless [spawn] throws. *)
Lemma runCargo_cases cargoArgs cwd log :
  (exists e, runCargo cargo argvOf cargoArgs cwd log = (Throw e, log)
             /\ plainArgs cargoArgs = None)
  \/ (exists argv,
        runCargo cargo argvOf cargoArgs cwd log
        = (Normal (cargo argv cwd), log ++ [Spawn (js "cargo") argv cwd])).
Proof.
  unfold runCargo. destruct (plainArgs cargoArgs) as [argv|].
  - right. now exists argv.
  - destruct (argvOf cargoArgs) as [argv|e].
    + right. now exists argv.
    + left. now exists e.
Qed.

Lemma runCargo_plain cargoArgs argv cwd log :
  plainArgs cargoArgs = Some argv ->
  runCargo cargo argvOf cargoArgs cwd log
  = (Normal (cargo argv cwd), log ++ [Spawn (js "cargo") argv cwd]).
Proof. unfold runCargo. now intros ->. Qed.

Lemma iotry_runCargo B cargoArgs cwd (f : CommandResult -> IO (completion B))
    log :
  (exists e, iotry (runCargo cargo argvOf cargoArgs cwd) f log = (Throw e, log))
  \/ (exists argv,
        iotry (runCargo cargo argvOf cargoArgs cwd) f log
        = f (cargo argv cwd) (log ++ [Spawn (js "cargo") argv cwd])).
Proof.
  unfold iotry, iobind.
  destruct (runCargo_cases cargoArgs cwd log) as [(e & -> & _)|(argv & ->)].
  - left. now exists e.
  - right. now exists argv.
Qed.

Lemma quiet_answer t : quiet (answer t).
Proof. intros log. right. eexists. split; reflexivity. Qed.

Lemma quiet_text (c : completion jsstring) f :
  (forall t, quiet (f t)) -> quiet (iotry (ioret c) f).
Proof.
  intros H. destruct c as [t|e]; [apply H|].
  intros log. left. now exists e.
Qed.

Lemma quiet_if (b : bool) c1 c2 : quiet c1 -> quiet c2 ->
  quiet (if b then c1 else c2).
Proof. now destruct b. Qed.

Lemma outcome_run name cargoArgs path f log :
  In name toolNames ->
  (forall r, quiet (f r)) ->
  switchOutcome name path log
    (iotry (runCargo cargo argvOf cargoArgs path) f log).
Proof.
  intros Hin Hq.
  destruct (iotry_runCargo _ cargoArgs path f log) as [(e & ->)|(argv & ->)].
  - left. now exists e.
  - right. right. exists argv. split; [assumption|].
    destruct (Hq (cargo argv path) (log ++ [Spawn (js "cargo") argv path]))
      as [(e & ->)|(resp & -> & H)]; cbn [fst snd]; eauto.
Qed.

Lemma outcome_get name path (c : completion value) f log :
  (forall v, switchOutcome name path log (f v log)) ->
  switchOutcome name path log (iotry (ioret c) f log).
Proof.
  intros H. destruct c as [v|e]; [apply H|]. left. now exists e.
Qed.

Ltac listed := unfold toolNames, tools; cbn [map toolName In]; tauto.

Lemma toolSwitch_outcome name args path log :
  switchOutcome name path log (toolSwitch join cargo readFile JSON_parse
                                 otherNumber argvOf name args path log).
Proof.
  clear existsSync. unfold toolSwitch.
  repeat match goal with
         | |- switchOutcome _ _ _ ((if jseq ?a ?b then _ else _) _) =>
             destruct (jseq_spec a b) as [->|?]
         end.
  all: repeat (apply outcome_get; intros ?).
  all: try (apply outcome_run; [listed|]; intros r;
            repeat first [ apply quiet_answer
                         | apply quiet_text; intros ?
                         | apply quiet_if
                         | match goal with
                           | |- quiet (let (_, _) := ?p in _) => destruct p
                           end ]).
  - destruct (getProjectInfo join readFile (VString (path))) as [info|].
    + apply outcome_run; [listed|]. intros r. apply quiet_answer.
    + right. left. eexists. split; [reflexivity|]. cbn. auto.
  - right. left. eexists. split; [reflexivity|]. split; [reflexivity|].
    left. split; [reflexivity|].
    unfold toolNames, tools. cbn [map toolName In]. intuition congruence.
Qed.

(** The ways through the guard of the handler. *)
Lemma handler_cases switch name args log :
  (exists e, handler existsSync join switch name args log = (Throw e, log))
  \/ (handler existsSync join switch name args log
      = (Normal (mkResponse (js "Error: path is required") true), log)
      /\ exists path, get args "path" = Normal path
                      /\ toBoolean path = false)
  \/ (exists p,
        get args "path" = Normal (VString p) /\ p <> []
        /\ existsSync (join p (js "Cargo.toml")) = false
        /\ handler existsSync join switch name args log
           = (Normal (mkResponse
                        (js "Error: No Cargo.toml found at " ++ p
                           ++ js ". Is this a Rust project?") true),
              log ++ [ExistsSync (join p (js "Cargo.toml"))]))
  \/ (exists p,
        get args "path" = Normal (VString p) /\ p <> []
        /\ existsSync (join p (js "Cargo.toml")) = true
        /\ handler existsSync join switch name args log
           = switch name args p
               (log ++ [ExistsSync (join p (js "Cargo.toml"))])).
Proof.
  unfold handler. destruct (get args "path") as [path|e] eqn:G.
  2:{ left. now exists e. }
  destruct (toBoolean path) eqn:T; cbn [negb].
  2:{ right. left. split; [reflexivity|]. now exists path. }
  destruct path as [| | | |p| |];
    try (left; exists TypeError; reflexivity).
  assert (Hp : p <> []) by (intros ->; discriminate).
  unfold iobind, validateRustProject.
  destruct (existsSync (join p (js "Cargo.toml"))) eqn:E.
  - right. right. right. exists p. auto.
  - right. right. left. exists p. auto.
Qed.

End ServerFacts.

(** A value with one property that can be read has all of them read
    without an exception. *)
Lemma get_total args k v k' :
  get args k = Normal v -> exists v', get args k' = Normal v'.
Proof.
  destruct args as [| | | | | |ps]; cbn; try discriminate; eauto.
  intros _. destruct (lookupProp (js k') ps); eauto.
Qed.

Ltac differ := let H := fresh in intros H; vm_compute in H; discriminate H.

(** The case of a tool in the [switch]. *)
Ltac pick_case :=
  unfold toolSwitch; repeat (rewrite jseq_neq by differ); rewrite jseq_refl.

Section SwitchFacts.

Variable cargo : list jsstring -> jsstring -> CommandResult.
Variable argvOf : list value -> completion (list jsstring).

Lemma iotry_run_plain B cargoArgs argv cwd
    (f : CommandResult -> IO (completion B)) log :
  plainArgs cargoArgs = Some argv ->
  iotry (runCargo cargo argvOf cargoArgs cwd) f log
  = f (cargo argv cwd) (log ++ [Spawn (js "cargo") argv cwd]).
Proof.
  intros H. unfold iotry, iobind. now rewrite (runCargo_plain _ _ _ argv).
Qed.

End SwitchFacts.

Lemma plainArgs_app a b x y :
  plainArgs a = Some x -> plainArgs b = Some y ->
  plainArgs (a ++ b) = Some (x ++ y).
Proof.
  revert x. induction a as [|v a IH]; intros x Ha Hb.
  - cbn in Ha. injection Ha as <-. exact Hb.
  - cbn [plainArgs app] in *. destruct (plainArg v) as [s|]; [|discriminate].
    destruct (plainArgs a) as [ss|]; [|discriminate].
    injection Ha as <-. now rewrite (IH ss eq_refl Hb).
Qed.

(** The arguments a flag adds. *)
Lemma plainArgs_pushIf cond more cargoArgs x y :
  plainArgs cargoArgs = Some x -> plainArgs more = Some y ->
  plainArgs (pushIf cond more cargoArgs)
  = Some (x ++ if toBoolean cond then y else []).
Proof.
  intros Hx Hy. unfold pushIf. destruct (toBoolean cond).
  - now apply plainArgs_app.
  - now rewrite app_nil_r.
Qed.

(** What the first line starts with, the text starts with. *)
Lemma first_line_prefix : forall s l0 ls l,
  split LF s = l0 :: ls -> startsWith l l0 = true -> startsWith l s = true.
Proof.
  induction s as [|c s IH]; intros l0 ls l E Hl.
  - cbn in E. injection E as <- <-. exact Hl.
  - cbn [split] in E. destruct (N.eqb c LF).
    + injection E as <- <-. now destruct l.
    + pose proof (split_nonempty LF s) as Hne.
      destruct (split LF s) as [|l1 ls1] eqn:E1; [contradiction|].
      injection E as <- <-. destruct l as [|a l]; [reflexivity|].
      cbn [startsWith] in Hl |- *. apply andb_prop in Hl as [Ha Hl].
      rewrite Ha. cbn [andb]. now apply (IH l1 ls1).
Qed.

(** A text holds the word that one of its lines starts with. *)
Lemma includes_split l : forall s ln,
  In ln (split LF s) -> startsWith l ln = true -> includes l s = true.
Proof.
  intros s. induction s as [|c s IH]; intros ln Hin Hs.
  - cbn in Hin. destruct Hin as [<-|[]]. destruct l; [reflexivity|].
    discriminate.
  - cbn [includes]. cbn [split] in Hin.
    destruct (N.eqb c LF).
    + destruct Hin as [<-|Hin].
      * destruct l; [reflexivity|discriminate].
      * rewrite (IH ln Hin Hs). apply orb_true_r.
    + pose proof (split_nonempty LF s) as Hne.
      destruct (split LF s) as [|l0 ls] eqn:E; [contradiction|].
      destruct Hin as [<-|Hin].
      * destruct l as [|a l]; [reflexivity|].
        cbn [startsWith] in Hs |- *. apply andb_prop in Hs as [Ha Hl].
        now rewrite Ha, (first_line_prefix s l0 ls l E Hl).
      * rewrite (IH ln (or_intror Hin) Hs). apply orb_true_r.
Qed.

Lemma no_prefixed_line l s :
  includes l s = false -> filter (startsWith l) (split LF s) = [].
Proof.
  intros H. destruct (filter (startsWith l) (split LF s)) as [|ln ls] eqn:E;
    [reflexivity|].
  assert (Hin : In ln (filter (startsWith l) (split LF s)))
    by (rewrite E; now left).
  apply filter_In in Hin as [Hin Hs].
  rewrite (includes_split l s ln Hin Hs) in H. discriminate.
Qed.

(** The outcomes of two texts in a row, the first of which is empty or
    ends its last line. *)
Lemma testsOf_streams err out :
  err = [] \/ (exists e, err = e ++ [LF]) ->
  testsOf (err ++ out) = testsOf err ++ testsOf out.
Proof.
  intros [->|[e ->]]; [reflexivity|].
  unfold testsOf. rewrite <- app_assoc. cbn [app].
  rewrite !split_app, !flat_map_app. cbn [split flat_map].
  change (testOfLine []) with (@nil TestResult).
  now rewrite !app_nil_r.
Qed.

Section MetadataFacts.

Variable JSON_parse : jsstring -> completion value.
Variable otherNumber : number -> jsstring.

(** The loop over the targets appends to the output it is given. *)
Lemma listTargets_app : forall targets output,
  listTargets otherNumber targets output
  = (fst (listTargets otherNumber targets []),
     output ++ snd (listTargets otherNumber targets [])).
Proof.
  induction targets as [|t ts IH]; intros output; cbn [listTargets].
  - cbn. now rewrite app_nil_r.
  - destruct (targetLine otherNumber t) as [l|e].
    + rewrite (IH (output ++ l)), (IH ([] ++ l)). cbn [fst snd app].
      now rewrite <- app_assoc.
    + cbn. now rewrite app_nil_r.
Qed.

Lemma listTargets_all : forall targets lines output,
  Forall2 (fun t l => targetLine otherNumber t = Normal l) targets lines ->
  listTargets otherNumber targets output
  = (Normal tt, output ++ List.concat lines).
Proof.
  induction targets as [|t ts IH]; intros lines output H; inversion H; subst;
    cbn [listTargets List.concat].
  - now rewrite app_nil_r.
  - match goal with E : targetLine _ t = _ |- _ => rewrite E end.
    rewrite (IH _ _ ltac:(eassumption)). now rewrite <- app_assoc.
Qed.

Lemma listTargets_stop : forall good lines bad more e output,
  Forall2 (fun t l => targetLine otherNumber t = Normal l) good lines ->
  targetLine otherNumber bad = Throw e ->
  listTargets otherNumber (good ++ bad :: more) output
  = (Throw e, output ++ List.concat lines).
Proof.
  induction good as [|t ts IH]; intros lines bad more e output H Hb;
    inversion H; subst; cbn [listTargets List.concat app].
  - rewrite Hb. now rewrite app_nil_r.
  - match goal with E : targetLine _ t = _ |- _ => rewrite E end.
    rewrite (IH _ _ _ _ _ ltac:(eassumption) Hb). now rewrite <- app_assoc.
Qed.

(** The statements of the [try] append to the output they are given. *)
Lemma describeMetadata_app stdout output :
  snd (describeMetadata JSON_parse otherNumber stdout output)
  = output ++ snd (describeMetadata JSON_parse otherNumber stdout []).
Proof.
  unfold describeMetadata.
  destruct (andThen (JSON_parse stdout) _) as [pkg|e];
    [|cbn; now rewrite app_nil_r].
  destruct (toBoolean pkg); [|cbn; now rewrite app_nil_r].
  destruct (andThen (get pkg "targets") _) as [targets|e];
    [|cbn [snd app]; reflexivity].
  rewrite listTargets_app.
  rewrite (listTargets_app targets ([] ++ _)).
  destruct (fst (listTargets otherNumber targets [])) as [[]|e];
    [|cbn [snd app]; now rewrite <- !app_assoc].
  destruct (dependenciesLine otherNumber pkg) as [l|e]; cbn [snd app];
    now rewrite <- !app_assoc.
Qed.

End MetadataFacts.

Lemma get_getKey v k : get v k = getKey v (js k).
Proof. reflexivity. Qed.

(** The guard of the handler reads the path and nothing else. *)
Lemma handler_ext existsSync join switch name args1 args2 log :
  get args1 "path" = get args2 "path" ->
  (forall p l, switch name args1 p l = switch name args2 p l) ->
  handler existsSync join switch name args1 log
  = handler existsSync join switch name args2 log.
Proof.
  intros Hp Hs. unfold handler. rewrite Hp.
  destruct (get args2 "path") as [path|e]; [|reflexivity].
  destruct (negb (toBoolean path)); [reflexivity|].
  unfold iobind. destruct (validateRustProject existsSync join path log)
    as [[[|]|e] l]; destruct path; try reflexivity. apply Hs.
Qed.

Lemma sameTruth_pushIf v1 v2 more cargoArgs :
  sameTruth (Normal v1) (Normal v2) ->
  pushIf v1 more cargoArgs = pushIf v2 more cargoArgs.
Proof. intros [H _]. unfold pushIf. now rewrite H. Qed.

Lemma sameTruth_default v1 v2 d more cargoArgs :
  sameTruth (Normal v1) (Normal v2) ->
  pushIf (withDefault d v1) more cargoArgs
  = pushIf (withDefault d v2) more cargoArgs.
Proof.
  intros [H [U1 U2]]. unfold pushIf.
  destruct v1, v2; cbn [withDefault] in *;
    try reflexivity; try (now rewrite H);
    try (now (discriminate (U1 eq_refl) || discriminate (U2 eq_refl))).
Qed.

(* ===================================================================== *)
(** * More tests of the repository, run on the model *)
(* ===================================================================== *)

(** The tests of [formatDiagnostics] and [getProjectInfo] in
    [utils.test.ts]. *)

Example test_format_empty :
  formatDiagnostics noOtherNumber [] = Normal (js "No issues found.").
Proof. reflexivity. Qed.

Example test_format_single_error :
  exists result,
    formatDiagnostics noOtherNumber
      [mkDiagnostic (str "error") (str "E0425") (str "cannot find value `x`")
         (str "src/main.rs") (num 10) (num 5) VUndefined VUndefined]
    = Normal result
    /\ includes (js "Found 1 error(s) and 0 warning(s)") result = true
    /\ includes crossMark result = true
    /\ includes (js "[E0425]") result = true
    /\ includes (js "cannot find value `x`") result = true
    /\ includes (js "src/main.rs:10:5") result = true.
Proof. eexists. split; [reflexivity|]. vm_compute. repeat split. Qed.

Example test_format_warning_with_suggestion :
  exists result,
    formatDiagnostics noOtherNumber
      [mkDiagnostic (str "warning") (str "unused_variables")
         (str "unused variable: `y`") (str "src/lib.rs") (num 5) (num 9)
         VUndefined (str "_y")]
    = Normal result
    /\ includes (js "Found 0 error(s) and 1 warning(s)") result = true
    /\ includes warningSign result = true
    /\ includes (lightBulb ++ js " Suggestion: _y") result = true.
Proof. eexists. split; [reflexivity|]. vm_compute. repeat split. Qed.

Example test_format_mixed :
  exists result,
    formatDiagnostics noOtherNumber
      [mkDiagnostic (str "error") VUndefined (str "error 1") (str "a.rs")
         (num 1) (num 1) VUndefined VUndefined;
       mkDiagnostic (str "warning") VUndefined (str "warning 1") (str "b.rs")
         (num 2) (num 2) VUndefined VUndefined;
       mkDiagnostic (str "error") VUndefined (str "error 2") (str "c.rs")
         (num 3) (num 3) VUndefined VUndefined]
    = Normal result
    /\ includes (js "Found 2 error(s) and 1 warning(s)") result = true.
Proof. eexists. split; [reflexivity|]. vm_compute. repeat split. Qed.

Example test_format_note :
  exists result,
    formatDiagnostics noOtherNumber
      [mkDiagnostic (str "note") VUndefined (str "some note")
         (str "src/main.rs") (num 1) (num 1) VUndefined VUndefined]
    = Normal result
    /\ includes infoSign result = true
    /\ includes (js "some note") result = true.
Proof. eexists. split; [reflexivity|]. vm_compute. repeat split. Qed.

Example test_project_name_and_version :
  getProjectInfo joinPosix
    (fun _ => Normal (nl ++ js "[package]" ++ nl ++ js' "name = 'my-project'"
                         ++ nl ++ js' "version = '1.2.3'" ++ nl
                         ++ js' "edition = '2021'" ++ nl))
    (str "/tmp/project")
  = Some (ProjectInfo.mk (js "my-project") (js "1.2.3")).
Proof. vm_compute. reflexivity. Qed.

Example test_project_missing_file :
  getProjectInfo joinPosix unreadable (str "/tmp/project") = None.
Proof. reflexivity. Qed.

Example test_project_without_name :
  getProjectInfo joinPosix
    (fun _ => Normal (nl ++ js "[package]" ++ nl ++ js' "version = '1.0.0'"
                         ++ nl))
    (str "/tmp/project")
  = Some (ProjectInfo.mk (js "unknown") (js "1.0.0")).
Proof. vm_compute. reflexivity. Qed.

Example test_project_without_version :
  getProjectInfo joinPosix
    (fun _ => Normal (nl ++ js "[package]" ++ nl
                         ++ js' "name = 'test-project'" ++ nl))
    (str "/tmp/project")
  = Some (ProjectInfo.mk (js "test-project") (js "0.0.0")).
Proof. vm_compute. reflexivity. Qed.

Example test_project_workspace_version :
  getProjectInfo joinPosix
    (fun _ => Normal (nl ++ js "[package]" ++ nl
                         ++ js' "name = 'workspace-member'" ++ nl
                         ++ js "version.workspace = true" ++ nl))
    (str "/tmp/project")
  = Some (ProjectInfo.mk (js "workspace-member") (js "0.0.0")).
Proof. vm_compute. reflexivity. Qed.

(* ===================================================================== *)
(** * Further properties of the parsing and report functions *)
(* ===================================================================== *)

(** X1 ([parseTestOutput]): every recognised outcome is read off a line of
    the output: the line starts with [test], white space, the name, white
    space, three dots, white space and one of [ok], [FAILED] and
    [ignored]; the name is not empty and holds no line terminator, and the
    status is that word in lower case, so one of [ok], [failed] and
    [ignored]. *)
Theorem outcomes_read_off_lines output t :
  In t (fst (parseTestOutput output)) ->
  exists ln ws1 ws2 ws3 w rest',
    In ln (split LF output)
    /\ ln = js "test" ++ ws1 ++ name t ++ ws2 ++ js "..." ++ ws3 ++ w
              ++ rest'
    /\ isSpaces ws1 /\ isSpaces ws2 /\ isSpaces ws3
    /\ name t <> [] /\ forallb isDot (name t) = true
    /\ In w outcomeWords /\ status t = toLowerCase w
    /\ In (status t) [js "ok"; js "failed"; js "ignored"].
Proof.
  cbn [parseTestOutput fst]. unfold testsOf. intros H.
  apply in_flat_map in H as (ln & Hln & Ht).
  apply testOfLine_In in Ht
    as (ws1 & ws2 & ws3 & w & rest' & E & H1 & H2 & H3 & Hn & Hd & Hw & Hs).
  exists ln, ws1, ws2, ws3, w, rest'.
  repeat (split; [assumption|]).
  rewrite Hs. now apply toLowerCase_outcome.
Qed.

Lemma outcomes_read_off_lines_witness :
  In (mkTestResult (js "tests::adds") (js "failed"))
     (fst (parseTestOutput (js "running 1 test" ++ nl
                              ++ js "test tests::adds ... FAILED")))
  /\ exists ln ws1 ws2 ws3 w rest',
       In ln (split LF (js "running 1 test" ++ nl
                          ++ js "test tests::adds ... FAILED"))
       /\ ln = js "test" ++ ws1 ++ js "tests::adds" ++ ws2 ++ js "..."
                 ++ ws3 ++ w ++ rest'
       /\ isSpaces ws1 /\ isSpaces ws2 /\ isSpaces ws3
       /\ js "tests::adds" <> [] /\ forallb isDot (js "tests::adds") = true
       /\ In w outcomeWords /\ js "failed" = toLowerCase w
       /\ In (js "failed") [js "ok"; js "failed"; js "ignored"].
Proof.
  assert (H : In (mkTestResult (js "tests::adds") (js "failed"))
                (fst (parseTestOutput (js "running 1 test" ++ nl
                        ++ js "test tests::adds ... FAILED")))).
  { vm_compute. auto. }
  split; [exact H|].
  exact (outcomes_read_off_lines _ _ H).
Defined.

(** X2 ([parseTestOutput]): a line of the output that reads [test], the
    name, three dots and one of the three words, with white space between
    them, gives the outcome of that name and word, whatever follows the
    word on the line; the name may hold white space, but neither starts
    nor ends with it, and holds no line terminator and no three dots in a
    row. *)
Theorem outcome_line_recognised output ws1 n ws2 ws3 w rest' :
  In (js "test" ++ ws1 ++ n ++ ws2 ++ js "..." ++ ws3 ++ w ++ rest')
     (split LF output) ->
  isSpaces ws1 -> isSpaces ws2 -> isSpaces ws3 ->
  n <> [] -> forallb isDot n = true ->
  stopsAt isSpace n -> stopsAt isSpace (rev n) ->
  includes (js "...") n = false ->
  In w outcomeWords ->
  testOfLine (js "test" ++ ws1 ++ n ++ ws2 ++ js "..." ++ ws3 ++ w ++ rest')
  = [mkTestResult n (toLowerCase w)]
  /\ In (mkTestResult n (toLowerCase w)) (fst (parseTestOutput output)).
Proof.
  intros Hin H1 H2 H3 Nn Dn Fn Ln I3 Hw.
  assert (E : testOfLine (js "test" ++ ws1 ++ n ++ ws2 ++ js "..." ++ ws3
                            ++ w ++ rest')
              = [mkTestResult n (toLowerCase w)]).
  { destruct (outcome_at ws1 n ws2 ws3 w rest' H1 H2 H3 Nn Dn Fn Ln I3 Hw)
      as [j Hj].
    unfold testOfLine, outcomeRe. rewrite exec_Bol. fold outcomeRe.
    rewrite Hj. reflexivity. }
  split; [exact E|].
  cbn [parseTestOutput fst]. unfold testsOf. apply in_flat_map.
  eexists. split; [exact Hin|]. rewrite E. now left.
Qed.

Lemma outcome_line_recognised_witness :
  testOfLine (js "test" ++ js " " ++ js "src/lib.rs - add (line 3)"
                ++ js " " ++ js "..." ++ js " " ++ js "ok" ++ js " <0.01s>")
  = [mkTestResult (js "src/lib.rs - add (line 3)") (toLowerCase (js "ok"))]
  /\ In (mkTestResult (js "src/lib.rs - add (line 3)")
           (toLowerCase (js "ok")))
        (fst (parseTestOutput
                (js "running 1 test" ++ nl
                   ++ js "test src/lib.rs - add (line 3) ... ok <0.01s>"
                   ++ nl))).
Proof.
  apply (outcome_line_recognised
           (js "running 1 test" ++ nl
              ++ js "test src/lib.rs - add (line 3) ... ok <0.01s>" ++ nl)
           (js " ") (js "src/lib.rs - add (line 3)") (js " ") (js " ")
           (js "ok") (js " <0.01s>")).
  - vm_compute. auto.
  - split; [discriminate|reflexivity].
  - split; [discriminate|reflexivity].
  - split; [discriminate|reflexivity].
  - discriminate.
  - reflexivity.
  - reflexivity.
  - reflexivity.
  - reflexivity.
  - vm_compute. auto.
Defined.

(** X3 ([parseTestOutput], [formatTestResults]): the three groups of the
    report, failed, passed and ignored, take every outcome of the parser
    once: their sizes add up to the number of outcomes. *)
Theorem outcomes_counted_once output :
  List.length (filter (hasStatus "failed") (fst (parseTestOutput output)))
  + List.length (filter (hasStatus "ok") (fst (parseTestOutput output)))
  + List.length (filter (hasStatus "ignored") (fst (parseTestOutput output)))
  = List.length (fst (parseTestOutput output)).
Proof.
  assert (H : forall t, In t (fst (parseTestOutput output)) ->
                        In (status t) [js "ok"; js "failed"; js "ignored"]).
  { intros t Ht. cbn [parseTestOutput fst] in Ht. unfold testsOf in Ht.
    apply in_flat_map in Ht as (ln & _ & Ht).
    apply testOfLine_In in Ht
      as (ws1 & ws2 & ws3 & w & rest' & _ & _ & _ & _ & _ & _ & Hw & ->).
    now apply toLowerCase_outcome. }
  induction (fst (parseTestOutput output)) as [|t ts IH]; [reflexivity|].
  rewrite !filter_length_cons. cbn [List.length].
  pose proof (status_groups t (H t (or_introl eq_refl))) as Ht.
  specialize (IH (fun t' Ht' => H t' (or_intror Ht'))). lia.
Qed.

(** X4 ([parseTestOutput]): the summary has one of two forms.  Either the
    output holds a summary line, [test result: ] followed by a status
    without a line terminator, a dot, a space and the three counts, and
    the summary repeats the three counts of that one line as they are
    written, each a run of digits that is not empty; or the summary is the
    number of the outcomes followed by [ tests found]. *)
Theorem summary_has_one_of_two_forms output :
  (exists pre w d1 d2 d3 post,
     output = pre ++ js "test result: " ++ w ++ js ". " ++ d1
                ++ js " passed; " ++ d2 ++ js " failed; " ++ d3
                ++ js " ignored" ++ post
     /\ forallb isDot w = true
     /\ isCount d1 = true /\ isCount d2 = true /\ isCount d3 = true
     /\ snd (parseTestOutput output)
        = d1 ++ js " passed, " ++ d2 ++ js " failed, " ++ d3
            ++ js " ignored")
  \/ (exec summaryRe output = None
      /\ snd (parseTestOutput output)
         = Number_toString (List.length (fst (parseTestOutput output)))
             ++ js " tests found").
Proof.
  cbn [parseTestOutput fst snd]. unfold summaryOf.
  destruct (exec summaryRe output) as [st|] eqn:E; [left|right; auto].
  unfold exec in E. apply search_matches in E as (pre & w0 & E & M & _).
  unfold summaryRe in M. cbn [matches] in M.
  destruct M as (t & x1 & c1 & -> & Mt & M).
  apply matches_Lit in Mt as [-> ->].
  destruct M as (w & x2 & c2 & -> & (c2' & Mw & ->) & M).
  apply iterated_Class in Mw as [Dw ->].
  destruct M as (s1 & x3 & c3 & -> & Ms & M).
  apply matches_Lit in Ms as [-> ->].
  destruct M as (d1 & x4 & c4 & -> & (c4' & M1 & ->) & M).
  apply matches_Plus_Class in M1 as (N1 & D1 & ->).
  destruct M as (s2 & x5 & c5 & -> & Ms & M).
  apply matches_Lit in Ms as [-> ->].
  destruct M as (d2 & x6 & c6 & -> & (c6' & M2 & ->) & M).
  apply matches_Plus_Class in M2 as (N2 & D2 & ->).
  destruct M as (s3 & x7 & c7 & -> & Ms & M).
  apply matches_Lit in Ms as [-> ->].
  destruct M as (d3 & s4 & c8 & -> & (c8' & M3 & ->) & Ms).
  apply matches_Plus_Class in M3 as (N3 & D3 & ->).
  apply matches_Lit in Ms as [-> Ec].
  exists pre, w, d1, d2, d3, (rest st).
  split; [rewrite E; now rewrite <- !app_assoc|].
  split; [assumption|].
  repeat (split; [now apply isCount_intro|]).
  unfold group. rewrite Ec. reflexivity.
Qed.

(** X5 ([parseCargoDiagnostics]): a line of the output gives one
    diagnostic at most, so the diagnostics are no more than the lines that
    are not blank: a compiler message with several spans is reported once,
    at its primary span. *)
Theorem one_diagnostic_per_line JSON_parse output diagnostics :
  parseCargoDiagnostics JSON_parse output = Normal diagnostics ->
  List.length diagnostics <= List.length (linesOf output)
  /\ List.length (linesOf output) <= List.length (split LF output).
Proof.
  rewrite parseCargoDiagnostics_spec. intros H. injection H as <-.
  split.
  - induction (linesOf output) as [|ln lines IH]; [reflexivity|].
    cbn [flat_map]. rewrite length_app. cbn [List.length].
    pose proof (emitted_length JSON_parse ln). lia.
  - unfold linesOf. apply filter_length_le.
Qed.

Lemma one_diagnostic_per_line_witness :
  List.length
    [mkDiagnostic (str "error") VUndefined (str "mismatched types")
       (str "src/a.rs") (num 1) (num 1) VUndefined VUndefined]
  <= List.length (linesOf (unlabelledFirst ++ nl))
  /\ List.length (linesOf (unlabelledFirst ++ nl))
     <= List.length (split LF (unlabelledFirst ++ nl)).
Proof.
  apply (one_diagnostic_per_line JSON.parse (unlabelledFirst ++ nl)).
  vm_compute. reflexivity.
Defined.

(* ===================================================================== *)
(** * Properties of [formatDiagnostics] *)
(* ===================================================================== *)

(** X6 ([formatDiagnostics]): the report is [No issues found.] for the
    empty list of diagnostics and for no other list. *)
Theorem no_issues_iff_no_diagnostics otherNumber diagnostics :
  formatDiagnostics otherNumber diagnostics = Normal (js "No issues found.")
  <-> diagnostics = [].
Proof.
  split; [|now intros ->].
  destruct diagnostics as [|d ds]; [reflexivity|].
  rewrite formatDiagnostics_cons. intros H.
  apply fold_prefix in H as [x H]. discriminate.
Qed.

(** X7 ([formatDiagnostics]): the report of a list that is not empty is
    the line of the counts followed by one entry for each diagnostic, in
    the order of the list and whatever its level; the counts are those of
    the levels that are exactly [error] and [warning], so that they add up
    to the number of entries at most.  An entry that throws makes the
    report throw. *)
Theorem report_lists_every_diagnostic otherNumber diagnostics entries :
  diagnostics <> [] ->
  Forall2 (fun d e => formatEntry otherNumber [] d = Normal e)
    diagnostics entries ->
  formatDiagnostics otherNumber diagnostics
  = Normal (foundLine diagnostics ++ List.concat entries)
  /\ List.length entries = List.length diagnostics
  /\ List.length (filter (hasLevel "error") diagnostics)
     + List.length (filter (hasLevel "warning") diagnostics)
     <= List.length entries
  /\ forall d more e,
       formatEntry otherNumber [] d = Throw e ->
       formatDiagnostics otherNumber (diagnostics ++ d :: more) = Throw e.
Proof.
  intros Hne H. destruct diagnostics as [|d ds]; [contradiction|].
  split; [|split; [|split]].
  - rewrite formatDiagnostics_cons. now apply fold_entries.
  - symmetry. eapply Forall2_length. eassumption.
  - rewrite <- (Forall2_length H). clear.
    induction (d :: ds) as [|x l IH]; [reflexivity|].
    rewrite !filter_length_cons. cbn [List.length]. unfold hasLevel at 1 3.
    destruct (level x) as [| | | |s| |]; cbn [strictEqString]; try lia.
    destruct (jseq_spec s (js "error")) as [->|]; [cbn; lia|].
    destruct (jseq s (js "warning")); lia.
  - intros d' more e He.
    change ((d :: ds) ++ d' :: more) with (d :: (ds ++ d' :: more)).
    rewrite formatDiagnostics_cons.
    change (d :: ds ++ d' :: more) with ((d :: ds) ++ d' :: more) at 1.
    eapply fold_entries_throw; eassumption.
Qed.

Lemma report_lists_every_diagnostic_witness :
  formatDiagnostics noOtherNumber
    [mkDiagnostic (str "note") VUndefined (str "some note")
       (str "src/main.rs") (num 1) (num 1) VUndefined VUndefined;
     mkDiagnostic (str "error") (str "E0425") (str "cannot find value")
       (str "src/main.rs") (num 10) (num 5) VUndefined (str "y")]
  = Normal
      (foundLine
         [mkDiagnostic (str "note") VUndefined (str "some note")
            (str "src/main.rs") (num 1) (num 1) VUndefined VUndefined;
          mkDiagnostic (str "error") (str "E0425") (str "cannot find value")
            (str "src/main.rs") (num 10) (num 5) VUndefined (str "y")]
       ++ List.concat
            [infoSign ++ js " some note" ++ nl ++ js "   " ++ arrow
               ++ js " src/main.rs:1:1" ++ nl ++ nl;
             crossMark ++ js " [E0425] cannot find value" ++ nl
               ++ js "   " ++ arrow ++ js " src/main.rs:10:5" ++ nl
               ++ js "   " ++ lightBulb ++ js " Suggestion: y" ++ nl ++ nl]).
Proof.
  apply (report_lists_every_diagnostic noOtherNumber).
  - discriminate.
  - repeat constructor.
Defined.

(** X8 ([formatDiagnostics]): the report does not throw on diagnostics
    whose printed fields (code, message, file, line, column, suggestion)
    are no arrays and no objects; it does throw on a diagnostic whose
    message is an object with a property [toString]. *)
Theorem report_total_on_primitive_fields otherNumber :
  (forall diagnostics,
     Forall (fun d => forallb isPrimitive (printedFields d) = true)
       diagnostics ->
     exists text, formatDiagnostics otherNumber diagnostics = Normal text)
  /\ (forall d properties x more,
        toBoolean (code d) = false ->
        message d = VObject properties ->
        lookupProp (js "toString") properties = Some x ->
        formatDiagnostics otherNumber (d :: more) = Throw TypeError).
Proof.
  split.
  - intros ds H. destruct ds as [|d ds]; [eexists; reflexivity|].
    destruct (entries_primitive otherNumber _ H) as [es Hes].
    eexists. rewrite formatDiagnostics_cons. apply fold_entries. exact Hes.
  - intros d ps x more Hc Hm Hx. rewrite formatDiagnostics_cons.
    apply (fold_entries_throw otherNumber [] [] d more); [constructor|].
    unfold formatEntry. rewrite Hc, Hm.
    now rewrite (toString_own ps x).
Qed.

Lemma report_total_on_primitive_fields_witness :
  (exists text,
     formatDiagnostics noOtherNumber
       [mkDiagnostic (str "warning") VNull (str "unused") (str "a.rs")
          (num 2) (num 7) VUndefined (VBool false)]
     = Normal text)
  /\ formatDiagnostics noOtherNumber
       [mkDiagnostic (str "error") VNull
          (VObject [(js "toString", num 1)]) (str "a.rs") (num 2) (num 7)
          VUndefined VUndefined]
     = Throw TypeError.
Proof.
  split.
  - apply (proj1 (report_total_on_primitive_fields noOtherNumber)).
    repeat constructor.
  - apply (proj2 (report_total_on_primitive_fields noOtherNumber)
             _ [(js "toString", num 1)] (num 1)); reflexivity.
Defined.

(* ===================================================================== *)
(** * Properties of [getProjectInfo] *)
(* ===================================================================== *)

(** X9 ([getProjectInfo]): the name and the version of the result are read
    off the file: each is the value that the text assigns to its key
    somewhere, between double quotes, or its default ([unknown], [0.0.0])
    when the pattern of the key matches nowhere; neither is ever empty or
    holds a double quote. *)
Theorem project_info_read_off_file join readFile path info :
  getProjectInfo join readFile path = Some info ->
  exists p text,
    path = VString p
    /\ readFile (join p (js "Cargo.toml")) = Normal text
    /\ ((ProjectInfo.name info = js "unknown" /\ exec nameRe text = None)
        \/ exists pre post,
             assigns (js "name") (ProjectInfo.name info) pre post text)
    /\ ((ProjectInfo.version info = js "0.0.0"
         /\ exec versionRe text = None)
        \/ exists pre post,
             assigns (js "version") (ProjectInfo.version info) pre post text)
    /\ ProjectInfo.name info <> []
    /\ forallb notQuote (ProjectInfo.name info) = true
    /\ ProjectInfo.version info <> []
    /\ forallb notQuote (ProjectInfo.version info) = true.
Proof.
  unfold getProjectInfo. destruct path as [| | | |p| |]; try discriminate.
  destruct (readFile (join p (js "Cargo.toml"))) as [text|e] eqn:R;
    [|discriminate].
  intros H. injection H as <-. exists p, text.
  split; [reflexivity|]. split; [exact R|].
  cbn [ProjectInfo.name ProjectInfo.version].
  rewrite nameRe_eq, versionRe_eq.
  assert (K : forall key fallback,
            fallback <> [] -> forallb notQuote fallback = true ->
            ((firstGroupOr (exec (Seq (Lit key) quotedValue) text) fallback
              = fallback
              /\ exec (Seq (Lit key) quotedValue) text = None)
             \/ exists pre post,
                  assigns key
                    (firstGroupOr (exec (Seq (Lit key) quotedValue) text)
                       fallback) pre post text)
            /\ firstGroupOr (exec (Seq (Lit key) quotedValue) text) fallback
               <> []
            /\ forallb notQuote
                 (firstGroupOr (exec (Seq (Lit key) quotedValue) text)
                    fallback) = true).
  { intros key fallback Hf Hq.
    destruct (exec (Seq (Lit key) quotedValue) text) as [st|] eqn:E.
    - apply assignment_found in E as (pre & v & Ha & Nv & Qv & Ec).
      unfold firstGroupOr. rewrite Ec. cbn [lookup Nat.eqb].
      split; [right; eauto|auto].
    - cbn [firstGroupOr]. auto. }
  destruct (K (js "name") (js "unknown")) as (N1 & N2 & N3);
    [discriminate|reflexivity|].
  destruct (K (js "version") (js "0.0.0")) as (V1 & V2 & V3);
    [discriminate|reflexivity|].
  auto 8.
Qed.

Lemma project_info_read_off_file_witness :
  exists p text,
    str "/p" = VString p
    /\ (fun _ => Normal (js' "name='x'")) (joinPosix p (js "Cargo.toml"))
       = Normal text
    /\ ((ProjectInfo.name (ProjectInfo.mk (js "x") (js "0.0.0"))
         = js "unknown" /\ exec nameRe text = None)
        \/ exists pre post,
             assigns (js "name")
               (ProjectInfo.name (ProjectInfo.mk (js "x") (js "0.0.0")))
               pre post text)
    /\ ((ProjectInfo.version (ProjectInfo.mk (js "x") (js "0.0.0"))
         = js "0.0.0" /\ exec versionRe text = None)
        \/ exists pre post,
             assigns (js "version")
               (ProjectInfo.version (ProjectInfo.mk (js "x") (js "0.0.0")))
               pre post text)
    /\ ProjectInfo.name (ProjectInfo.mk (js "x") (js "0.0.0")) <> []
    /\ forallb notQuote
         (ProjectInfo.name (ProjectInfo.mk (js "x") (js "0.0.0"))) = true
    /\ ProjectInfo.version (ProjectInfo.mk (js "x") (js "0.0.0")) <> []
    /\ forallb notQuote
         (ProjectInfo.version (ProjectInfo.mk (js "x") (js "0.0.0"))) = true.
Proof.
  apply (project_info_read_off_file joinPosix
           (fun _ => Normal (js' "name='x'")) (str "/p")).
  reflexivity.
Defined.

(** X10 ([getProjectInfo]): the first assignment wins, wherever it stands:
    when the text assigns a value to [name] at a place before which the
    pattern of the name matches nowhere, that value is the name of the
    result, and likewise for [version]; the key may be the end of a longer
    word, as [version] is of [rust-version]. *)
Theorem first_assignment_is_read join readFile p text :
  readFile (join p (js "Cargo.toml")) = Normal text ->
  (forall pre n post,
     assigns (js "name") n pre post text ->
     matchesBefore nameRe (List.length pre) 0 text = false ->
     n <> [] -> forallb notQuote n = true ->
     exists info,
       getProjectInfo join readFile (VString p) = Some info
       /\ ProjectInfo.name info = n)
  /\ (forall pre v post,
        assigns (js "version") v pre post text ->
        matchesBefore versionRe (List.length pre) 0 text = false ->
        v <> [] -> forallb notQuote v = true ->
        exists info,
          getProjectInfo join readFile (VString p) = Some info
          /\ ProjectInfo.version info = v).
Proof.
  intros R. unfold getProjectInfo. rewrite R.
  split; intros pre v post Ha Hb Nv Qv; eexists; (split; [reflexivity|]);
    cbn [ProjectInfo.name ProjectInfo.version].
  - rewrite nameRe_eq in *. now apply (first_assignment _ v pre post).
  - rewrite versionRe_eq in *. now apply (first_assignment _ v pre post).
Qed.

Lemma first_assignment_is_read_witness :
  (exists info,
     getProjectInfo joinPosix
       (fun _ => Normal (js' "[package]" ++ nl ++ js' "name = 'a'" ++ nl
                           ++ js' "rust-version = '1.70'" ++ nl
                           ++ js' "version = '0.1.0'" ++ nl))
       (VString (js "/p")) = Some info
     /\ ProjectInfo.name info = js "a")
  /\ (exists info,
        getProjectInfo joinPosix
          (fun _ => Normal (js' "[package]" ++ nl ++ js' "name = 'a'" ++ nl
                              ++ js' "rust-version = '1.70'" ++ nl
                              ++ js' "version = '0.1.0'" ++ nl))
          (VString (js "/p")) = Some info
        /\ ProjectInfo.version info = js "1.70").
Proof.
  pose proof (first_assignment_is_read joinPosix
                (fun _ => Normal (js' "[package]" ++ nl ++ js' "name = 'a'"
                                    ++ nl ++ js' "rust-version = '1.70'"
                                    ++ nl ++ js' "version = '0.1.0'" ++ nl))
                (js "/p") _ eq_refl) as [Hn Hv].
  split.
  - apply (Hn (js "[package]" ++ nl) (js "a")
              (nl ++ js' "rust-version = '1.70'" ++ nl
                  ++ js' "version = '0.1.0'" ++ nl)).
    + exists (js " "), (js " "). repeat split.
    + reflexivity.
    + discriminate.
    + reflexivity.
  - apply (Hv (js "[package]" ++ nl ++ js' "name = 'a'" ++ nl ++ js "rust-")
              (js "1.70") (nl ++ js' "version = '0.1.0'" ++ nl)).
    + exists (js " "), (js " "). repeat split.
    + reflexivity.
    + discriminate.
    + reflexivity.
Defined.

(** X11 ([getProjectInfo]): the result is [null] exactly when the path is
    no string or the file cannot be read; when the file is read, a key
    that the text assigns no quoted value to gets its default. *)
Theorem project_info_null_or_defaults join readFile :
  (forall path,
     getProjectInfo join readFile path = None
     <-> forall p, path = VString p ->
                   exists e, readFile (join p (js "Cargo.toml")) = Throw e)
  /\ (forall p text,
        readFile (join p (js "Cargo.toml")) = Normal text ->
        exists info,
          getProjectInfo join readFile (VString p) = Some info
          /\ ((forall pre n post,
                 assigns (js "name") n pre post text ->
                 n = [] \/ forallb notQuote n = false) ->
              ProjectInfo.name info = js "unknown")
          /\ ((forall pre v post,
                 assigns (js "version") v pre post text ->
                 v = [] \/ forallb notQuote v = false) ->
              ProjectInfo.version info = js "0.0.0")).
Proof.
  split.
  - intros path. unfold getProjectInfo. split.
    + intros H p ->.
      destruct (readFile (join p (js "Cargo.toml"))) as [t|e];
        [discriminate|now exists e].
    + intros H. destruct path as [| | | |p| |]; try reflexivity.
      destruct (H p eq_refl) as [e ->]. reflexivity.
  - intros p text R. unfold getProjectInfo. rewrite R.
    eexists. split; [reflexivity|].
    cbn [ProjectInfo.name ProjectInfo.version].
    rewrite nameRe_eq, versionRe_eq.
    assert (K : forall key fallback,
              (forall pre v post,
                 assigns key v pre post text ->
                 v = [] \/ forallb notQuote v = false) ->
              firstGroupOr (exec (Seq (Lit key) quotedValue) text) fallback
              = fallback).
    { intros key fallback H.
      destruct (exec (Seq (Lit key) quotedValue) text) as [st|] eqn:E;
        [|reflexivity].
      apply assignment_found in E as (pre & v & Ha & Nv & Qv & _).
      destruct (H _ _ _ Ha) as [->|Hq]; [contradiction|congruence]. }
    split; apply K.
Qed.

Lemma project_info_null_or_defaults_witness :
  getProjectInfo joinPosix (fun _ => Throw TypeError) (str "/p") = None
  /\ exists info,
       getProjectInfo joinPosix
         (fun _ => Normal (js "version.workspace = true")) (VString (js "/p"))
       = Some info.
Proof.
  split.
  - apply (proj1 (project_info_null_or_defaults joinPosix
                    (fun _ => Throw TypeError))).
    intros p _. now exists TypeError.
  - destruct (proj2 (project_info_null_or_defaults joinPosix
                       (fun _ => Normal (js "version.workspace = true")))
                (js "/p") _ eq_refl) as (info & H & _).
    now exists info.
Defined.

(* ===================================================================== *)
(** * Properties of [runCargoCommand] *)
(* ===================================================================== *)

(** X12 ([runCargoCommand]): the promise is settled by the first [close]
    or [error] of the process and by nothing else.  At [close] it holds
    the chunks of the two streams so far, each stream in order, and the
    exit code, which is 1 when the process gave none; at [error] it holds
    the message of the error in place of all that was read from stderr,
    and the exit code 1.  What the process emits afterwards changes
    nothing; without [close] or [error] the promise stays pending. *)
Theorem first_settlement_wins before after :
  forallb (fun e => negb (isSettling e)) before = true ->
  (forall code,
     settled (before ++ Close code :: after)
     = Some (mkCommandResult (stdoutOf before) (stderrOf before)
               (match code with Some n => n | None => 1%Z end)))
  /\ (forall message,
        settled (before ++ ProcessError message :: after)
        = Some (mkCommandResult (stdoutOf before) message 1%Z))
  /\ settled before = None.
Proof.
  intros H. unfold settled.
  split; [|split]; intros; rewrite ?fold_left_app, (fold_quiet _ _ H);
    cbn [fold_left listen collectedStdout collectedStderr resolved app];
    try reflexivity.
  all: apply fold_resolved; reflexivity.
Qed.

Lemma first_settlement_wins_witness :
  (forall code,
     settled ([StdoutData (js "a"); StderrData (js "x");
               StdoutData (js "b")]
                ++ Close code :: [StdoutData (js "late"); Close (Some 0%Z)])
     = Some (mkCommandResult
               (stdoutOf [StdoutData (js "a"); StderrData (js "x");
                          StdoutData (js "b")])
               (stderrOf [StdoutData (js "a"); StderrData (js "x");
                          StdoutData (js "b")])
               (match code with Some n => n | None => 1%Z end)))
  /\ (forall message,
        settled ([StdoutData (js "a"); StderrData (js "x");
                  StdoutData (js "b")]
                   ++ ProcessError message
                   :: [StdoutData (js "late"); Close (Some 0%Z)])
        = Some (mkCommandResult
                  (stdoutOf [StdoutData (js "a"); StderrData (js "x");
                             StdoutData (js "b")])
                  message 1%Z))
  /\ settled [StdoutData (js "a"); StderrData (js "x"); StdoutData (js "b")]
     = None.
Proof.
  apply (first_settlement_wins
           [StdoutData (js "a"); StderrData (js "x"); StdoutData (js "b")]
           [StdoutData (js "late"); Close (Some 0%Z)]).
  reflexivity.
Defined.

(* ===================================================================== *)
(** * Properties of the tool-call handler *)
(* ===================================================================== *)

(** X13 (handler): the guard on the path, whatever the name of the tool
    and before anything is looked up or run.  A path that is absent or
    false as a condition, the empty string, 0, [false] and [null] among
    them, is answered with [Error: path is required]; a path that is true
    as a condition and no string makes the handler throw, as does an
    object of arguments that is [undefined] or [null]. *)
Theorem path_guard existsSync join switch name args log :
  (forall path,
     get args "path" = Normal path -> toBoolean path = false ->
     handler existsSync join switch name args log
     = (Normal (mkResponse (js "Error: path is required") true), log))
  /\ (forall path,
        get args "path" = Normal path -> toBoolean path = true ->
        (forall p, path <> VString p) ->
        handler existsSync join switch name args log = (Throw TypeError, log))
  /\ (nullish args = true ->
      handler existsSync join switch name args log = (Throw TypeError, log)).
Proof.
  unfold handler. split; [|split].
  - intros path -> ->. reflexivity.
  - intros path -> -> Hp. cbn [negb].
    destruct path; try reflexivity. now destruct (Hp s).
  - destruct args; try discriminate; reflexivity.
Qed.

Lemma path_guard_witness :
  handler allFiles joinPosix (someCases silentCargo) (js "bacon_check")
    (VObject [(js "path", num 0)]) []
  = (Normal (mkResponse (js "Error: path is required") true), [])
  /\ handler allFiles joinPosix (someCases silentCargo) (js "bacon_check")
       (VObject [(js "path", num 7)]) []
     = (Throw TypeError, [])
  /\ handler allFiles joinPosix (someCases silentCargo) (js "bacon_check")
       VUndefined []
     = (Throw TypeError, []).
Proof.
  split; [|split].
  - apply (proj1 (path_guard allFiles joinPosix (someCases silentCargo)
                    (js "bacon_check") (VObject [(js "path", num 0)]) [])
             (num 0)); reflexivity.
  - apply (proj1 (proj2 (path_guard allFiles joinPosix
                           (someCases silentCargo) (js "bacon_check")
                           (VObject [(js "path", num 7)]) []))
             (num 7)); [reflexivity|reflexivity|discriminate].
  - apply (proj2 (proj2 (path_guard allFiles joinPosix
                           (someCases silentCargo) (js "bacon_check")
                           VUndefined []))).
    reflexivity.
Defined.

Section ServerProperties.

Variable existsSync : jsstring -> bool.
Variable join : jsstring -> jsstring -> jsstring.
Variable cargo : list jsstring -> jsstring -> CommandResult.
Variable readFile : jsstring -> completion jsstring.
Variable JSON_parse : jsstring -> completion value.
Variable otherNumber : number -> jsstring.
Variable argvOf : list value -> completion (list jsstring).

Ltac agreement H :=
  unfold agreeAt in H; cbn [propertyType propertyName pathProperty] in H;
  first [ rewrite jseq_refl in H | rewrite jseq_neq in H by differ ].

Ltac flags :=
  repeat match goal with
         | H : sameTruth (getKey ?a (js ?k)) (getKey ?b (js ?k)) |- _ =>
             change (getKey a (js k)) with (get a k) in H;
             change (getKey b (js k)) with (get b k) in H;
             destruct (get a k), (get b k); cbn [sameTruth] in H;
             try contradiction; try (rewrite H; clear H)
         end.

Ltac same_flags :=
  repeat match goal with
         | H : toBoolean ?x = toBoolean ?y /\ _ |- _ =>
             first [ rewrite (sameTruth_default x y) by exact H
                   | rewrite (sameTruth_pushIf x y) by exact H ];
             clear H
         end.

(** X14 (handler): an answer that carries [isError] is given before any
    process is spawned and is one of the four refusals: no path, no
    [Cargo.toml] at the path, a [Cargo.toml] that cannot be read, a name
    that is no tool.  An answer that follows a run of cargo never carries
    it, whatever the exit code. *)
Theorem errors_are_refusals name args log resp log' :
  callTool existsSync join cargo readFile JSON_parse
    otherNumber argvOf name args log = (Normal resp, log') ->
  isError resp = true ->
  (exists extra,
     log' = log ++ extra /\ forallb (fun e => negb (isSpawn e)) extra = true)
  /\ (text resp = js "Error: path is required"
      \/ (exists p,
            get args "path" = Normal (VString p)
            /\ text resp = js "Error: No Cargo.toml found at " ++ p
                             ++ js ". Is this a Rust project?")
      \/ (text resp = js "Error: Could not parse Cargo.toml"
          /\ name = js "rust_project_info")
      \/ (text resp = js "Unknown tool: " ++ name
          /\ ~ In name toolNames)).
Proof.
  unfold callTool. intros H He.
  destruct (handler_cases existsSync join
                (toolSwitch join cargo readFile JSON_parse
                   otherNumber argvOf) name args log)
    as [(e & E)|[(E & _)|[(p & G & _ & _ & E)|(p & G & _ & _ & E)]]];
    rewrite E in H.
  - discriminate.
  - injection H as <- <-. split; [exists []; now rewrite app_nil_r|auto].
  - injection H as <- <-. split; [now eexists|]. right. left. eauto.
  - destruct (toolSwitch_outcome join cargo readFile JSON_parse otherNumber
                argvOf name args p
                (log ++ [ExistsSync (join p (js "Cargo.toml"))]))
      as [(e & O)|[(r & O & _ & T)|(argv & _ & _ & O)]];
      rewrite H in O.
    + discriminate.
    + injection O as -> ->. split; [now eexists|].
      destruct T as [T|T]; auto.
    + cbn [fst] in O. destruct O as [(e & O)|(r & O & Hr)];
        [discriminate|]. injection O as ->. congruence.
Qed.

(** X15 (handler): a call spawns one process at most.  The process is
    [cargo], run in the directory of the path argument, for a tool of the
    list, and only after the check for the marker file of that path has
    succeeded. *)
Theorem one_process_per_call name args log :
  exists r extra,
    callTool existsSync join cargo readFile JSON_parse
      otherNumber argvOf name args log = (r, log ++ extra)
    /\ (extra = []
        \/ exists p,
             get args "path" = Normal (VString p)
             /\ (extra = [ExistsSync (join p (js "Cargo.toml"))]
                 \/ exists argv,
                      extra = [ExistsSync (join p (js "Cargo.toml"));
                               Spawn (js "cargo") argv p]
                      /\ existsSync (join p (js "Cargo.toml")) = true
                      /\ In name toolNames)).
Proof.
  unfold callTool.
  destruct (handler_cases existsSync join
                (toolSwitch join cargo readFile JSON_parse
                   otherNumber argvOf) name args log)
    as [(e & E)|[(E & _)|[(p & G & _ & _ & E)|(p & G & _ & X & E)]]];
    rewrite E.
  - exists (Throw e), []. rewrite app_nil_r. auto.
  - eexists _, []. rewrite app_nil_r. auto.
  - eexists _, _. split; [reflexivity|]. right. exists p. auto.
  - destruct (toolSwitch_outcome join cargo readFile JSON_parse otherNumber
                argvOf name args p
                (log ++ [ExistsSync (join p (js "Cargo.toml"))]))
      as [(e & O)|[(r & O & _)|(argv & L & O & _)]].
    + rewrite O. eexists _, _. split; [reflexivity|]. right. exists p. auto.
    + rewrite O. eexists _, _. split; [reflexivity|]. right. exists p. auto.
    + destruct (toolSwitch join cargo readFile JSON_parse
                  otherNumber argvOf name args p _) as [r l']. cbn [snd] in O.
      subst l'. exists r. eexists. rewrite <- app_assoc.
      split; [reflexivity|]. right. exists p. split; [assumption|].
      right. exists argv. auto.
Qed.

(** X16 (handler, [tools]): on a call that passes the guard, the names
    that are answered with [Unknown tool] are exactly the names that the
    list of the tools does not hold: such a name gets that answer, with
    [isError] and without a process, and a name of the list never gets
    it. *)
Theorem unknown_tool_iff_not_listed name args p log :
  get args "path" = Normal (VString p) -> p <> [] ->
  existsSync (join p (js "Cargo.toml")) = true ->
  (~ In name toolNames ->
   callTool existsSync join cargo readFile JSON_parse
     otherNumber argvOf name args log
   = (Normal (mkResponse (js "Unknown tool: " ++ name) true),
      log ++ [ExistsSync (join p (js "Cargo.toml"))]))
  /\ (In name toolNames ->
      forall resp log',
        callTool existsSync join cargo readFile JSON_parse
          otherNumber argvOf name args log = (Normal resp, log') ->
        isError resp = true ->
        name = js "rust_project_info"
        /\ text resp = js "Error: Could not parse Cargo.toml").
Proof.
  intros G Hp X. unfold callTool.
  rewrite (handler_valid existsSync join _ name args p log G Hp X).
  split.
  - intros Hn.
    destruct (toolSwitch_outcome join cargo readFile JSON_parse otherNumber
                argvOf name args p
                (log ++ [ExistsSync (join p (js "Cargo.toml"))]))
      as [(e & O)|[(r & O & Hr & [[T _]|[_ T]])|(argv & L & _)]].
    + exfalso. revert O. unfold toolSwitch.
      repeat match goal with
             | |- context [jseq name ?b] =>
                 rewrite (jseq_neq name b)
                   by (intros ->; apply Hn; unfold toolNames, tools;
                       cbn [map toolName In]; tauto)
             end.
      discriminate.
    + rewrite O. destruct r as [t b]. cbn in *. now subst.
    + subst name. exfalso. apply Hn. unfold toolNames, tools.
      cbn [map toolName In]. tauto.
    + contradiction.
  - intros Hin resp log' H He.
    destruct (toolSwitch_outcome join cargo readFile JSON_parse otherNumber
                argvOf name args p
                (log ++ [ExistsSync (join p (js "Cargo.toml"))]))
      as [(e & O)|[(r & O & Hr & [[_ T]|[T1 T2]])|(argv & _ & _ & O)]];
      rewrite H in O.
    + discriminate.
    + contradiction.
    + injection O as -> ->. auto.
    + cbn [fst] in O. destruct O as [(e & O)|(r & O & Hr)];
        [discriminate|]. injection O as ->. congruence.
Qed.

(** X17 (handler, [tools]): the answer to a call of a tool depends on the
    arguments only through the properties that the schema of the tool
    declares: on a property of the type [boolean] through its truth and
    through its being given or not, on the other properties through their
    value.  Two objects of arguments that agree in this are answered
    alike, so what else an object holds is never read. *)
Theorem answer_depends_on_declared_arguments t args1 args2 log :
  In t tools ->
  Forall (fun pr => agreeAt pr args1 args2) (inputProperties t) ->
  callTool existsSync join cargo readFile JSON_parse
    otherNumber argvOf (toolName t) args1 log
  = callTool existsSync join cargo readFile JSON_parse
      otherNumber argvOf (toolName t) args2 log.
Proof.
  intros Hin Hall. unfold callTool.
  unfold tools in Hin. cbn [In] in Hin.
  repeat destruct Hin as [<-|Hin]; try contradiction;
    cbn [toolName inputProperties] in *;
    repeat match goal with
           | H : Forall _ (_ :: _) |- _ => inversion_clear H
           | H : Forall _ [] |- _ => clear H
           end;
    repeat match goal with
           | H : agreeAt _ _ _ |- _ => agreement H
           end;
    (apply handler_ext; [assumption|]); intros p l; pick_case;
    try reflexivity.
  - flags.
    all: rewrite ?iotry_Normal; try reflexivity.
    all: same_flags.
    all: reflexivity.
  - flags.
    all: rewrite ?iotry_Normal; try reflexivity.
    all: same_flags.
    all: reflexivity.
  - match goal with
    | H : getKey args1 (js "filter") = _ |- _ =>
        change (get args1 "filter" = get args2 "filter") in H; rewrite H
    end.
    flags.
    all: destruct (get args2 "filter").
    all: rewrite ?iotry_Normal; try reflexivity.
    all: same_flags.
    all: reflexivity.
  - flags.
    all: rewrite ?iotry_Normal; try reflexivity.
    all: same_flags.
    all: reflexivity.
  - flags.
    all: rewrite ?iotry_Normal; try reflexivity.
    all: same_flags.
    all: reflexivity.
Qed.

(** X18 ([bacon_check], [bacon_clippy]): the answer of the two tools is
    made from what cargo writes to stdout and from nothing else: neither
    the exit code nor stderr has a part in it.  So when stdout holds no
    located compiler message, because the code is clean or because cargo
    failed before it compiled anything, the answer is [No issues found.],
    without [isError]. *)
Theorem lint_answer_reads_stdout_only name args p log :
  get args "path" = Normal (VString p) -> p <> [] ->
  existsSync (join p (js "Cargo.toml")) = true ->
  In name [js "bacon_check"; js "bacon_clippy"] ->
  exists flags,
    callTool existsSync join cargo readFile JSON_parse
      otherNumber argvOf name args log
    = (andThen
         (diagnosticsOf JSON_parse otherNumber
            (stdout (cargo (skipn 6 name :: js "--message-format=json"
                              :: flags) p)))
         (fun t => Normal (mkResponse t false)),
       log ++ [ExistsSync (join p (js "Cargo.toml"));
               Spawn (js "cargo")
                 (skipn 6 name :: js "--message-format=json" :: flags) p])
    /\ (parseCargoDiagnostics JSON_parse
          (stdout (cargo (skipn 6 name :: js "--message-format=json"
                            :: flags) p)) = Normal [] ->
        fst (callTool existsSync join cargo readFile JSON_parse
               otherNumber argvOf name args log)
        = Normal (mkResponse (js "No issues found.") false)).
Proof.
  intros G Hp X Hn. unfold callTool.
  rewrite (handler_valid existsSync join _ name args p log G Hp X).
  destruct (get_total args "path" _ "all_targets" G) as [v1 E1].
  destruct (get_total args "path" _ "all_features" G) as [v2 E2].
  destruct (get_total args "path" _ "pedantic" G) as [v3 E3].
  destruct (get_total args "path" _ "fix" G) as [v4 E4].
  assert (K : forall c l,
            iotry (ioret c) (fun text => answer text) l
            = (andThen c (fun t => Normal (mkResponse t false)), l)).
  { intros [t|e] l; reflexivity. }
  destruct Hn as [<-|[<-|[]]]; pick_case.
  - rewrite E1, E2, !iotry_Normal.
    erewrite iotry_run_plain.
    2:{ apply plainArgs_pushIf; [|reflexivity].
        apply plainArgs_pushIf; reflexivity. }
    rewrite K, <- (app_assoc log).
    exists ((if toBoolean v1 then [js "--all-targets"] else [])
              ++ (if toBoolean v2 then [js "--all-features"] else [])).
    split; [reflexivity|].
    intros H. cbn [fst]. unfold diagnosticsOf.
    match type of H with
    | ?L = _ =>
        match goal with
        | |- context [parseCargoDiagnostics ?a ?b] =>
            change (parseCargoDiagnostics a b) with L
        end
    end.
    now rewrite H.
  - rewrite E1, E3, E4, !iotry_Normal.
    erewrite iotry_run_plain.
    2:{ apply plainArgs_pushIf; [|reflexivity].
        apply plainArgs_pushIf; [|reflexivity].
        apply plainArgs_pushIf; reflexivity. }
    rewrite K, <- (app_assoc log).
    exists ((if toBoolean (withDefault (VBool true) v1)
             then [js "--all-targets"] else [])
              ++ (if toBoolean v4
                  then [js "--fix"; js "--allow-dirty"; js "--allow-staged"]
                  else [])
              ++ (if toBoolean v3
                  then [js "--"; js "-W"; js "clippy::pedantic"] else [])).
    rewrite <- !app_assoc. split; [reflexivity|].
    intros H. cbn [fst]. unfold diagnosticsOf.
    match type of H with
    | ?L = _ =>
        match goal with
        | |- context [parseCargoDiagnostics ?a ?b] =>
            change (parseCargoDiagnostics a b) with L
        end
    end.
    now rewrite H.
Qed.

(** X19 ([bacon_build], [bacon_doc]): the first line of the answer follows
    the exit code of cargo and nothing else, the report below it follows
    stdout and nothing else.  The two need not agree: a run that fails
    without a located compiler message on stdout is answered with the line
    of the failure followed by [No issues found.]. *)
Theorem build_banner_follows_exit_code name args p log :
  get args "path" = Normal (VString p) -> p <> [] ->
  existsSync (join p (js "Cargo.toml")) = true ->
  In name [js "bacon_build"; js "bacon_doc"] ->
  exists flags good bad,
    (name = js "bacon_build" ->
     good = js " Build successful!" /\ bad = js " Build failed!")
    /\ (name = js "bacon_doc" ->
        good = js " Documentation generated successfully!"
        /\ bad = js " Documentation generation failed!")
    /\ callTool existsSync join cargo readFile JSON_parse
         otherNumber argvOf name args log
       = (andThen
            (diagnosticsOf JSON_parse otherNumber
               (stdout (cargo (skipn 6 name :: js "--message-format=json"
                                 :: flags) p)))
            (fun t =>
               Normal
                 (mkResponse
                    ((if Z.eqb
                          (exitCode
                             (cargo (skipn 6 name
                                       :: js "--message-format=json"
                                       :: flags) p)) 0
                      then checkMark ++ good ++ nl ++ nl
                      else crossMark ++ bad ++ nl ++ nl) ++ t) false)),
          log ++ [ExistsSync (join p (js "Cargo.toml"));
                  Spawn (js "cargo")
                    (skipn 6 name :: js "--message-format=json" :: flags)
                    p])
    /\ (parseCargoDiagnostics JSON_parse
          (stdout (cargo (skipn 6 name :: js "--message-format=json"
                            :: flags) p)) = Normal [] ->
        exitCode (cargo (skipn 6 name :: js "--message-format=json"
                           :: flags) p) <> 0%Z ->
        fst (callTool existsSync join cargo readFile JSON_parse
               otherNumber argvOf name args log)
        = Normal (mkResponse (crossMark ++ bad ++ nl ++ nl
                                ++ js "No issues found.") false)).
Proof.
  intros G Hp X Hn. unfold callTool.
  rewrite (handler_valid existsSync join _ name args p log G Hp X).
  destruct (get_total args "path" _ "all_targets" G) as [v1 E1].
  destruct (get_total args "path" _ "release" G) as [v2 E2].
  destruct (get_total args "path" _ "no_deps" G) as [v3 E3].
  destruct (get_total args "path" _ "open" G) as [v4 E4].
  assert (K : forall c l banner,
            iotry (ioret c) (fun text => answer (banner ++ text)) l
            = (andThen c (fun t => Normal (mkResponse (banner ++ t) false)),
               l)).
  { intros [t|e] l banner; reflexivity. }
  destruct Hn as [<-|[<-|[]]]; pick_case.
  - rewrite E1, E2, !iotry_Normal.
    erewrite iotry_run_plain.
    2:{ apply plainArgs_pushIf; [|reflexivity].
        apply plainArgs_pushIf; reflexivity. }
    rewrite K, <- (app_assoc log).
    exists ((if toBoolean v2 then [js "--release"] else [])
              ++ (if toBoolean v1 then [js "--all-targets"] else [])).
    exists (js " Build successful!"), (js " Build failed!").
    rewrite <- !app_assoc.
    split; [auto|]. split; [intros H; vm_compute in H; discriminate H|].
    split; [reflexivity|].
    intros H Hx. cbn [fst]. unfold diagnosticsOf.
    match type of H with
    | ?L = _ =>
        match goal with
        | |- context [parseCargoDiagnostics ?a ?b] =>
            change (parseCargoDiagnostics a b) with L
        end
    end.
    rewrite H. cbn [andThen formatDiagnostics List.length Nat.eqb].
    match goal with
    | |- context [Z.eqb ?a 0] =>
        destruct (Z.eqb_spec a 0) as [Hz|_]; [exfalso; apply Hx, Hz|]
    end.
    now rewrite <- !app_assoc.
  - rewrite E3, E4, !iotry_Normal.
    erewrite iotry_run_plain.
    2:{ apply plainArgs_pushIf; [|reflexivity].
        apply plainArgs_pushIf; reflexivity. }
    rewrite K, <- (app_assoc log).
    exists ((if toBoolean (withDefault (VBool true) v3)
             then [js "--no-deps"] else [])
              ++ (if toBoolean v4 then [js "--open"] else [])).
    exists (js " Documentation generated successfully!"),
      (js " Documentation generation failed!").
    rewrite <- !app_assoc.
    split; [intros H; vm_compute in H; discriminate H|]. split; [auto|].
    split; [reflexivity|].
    intros H Hx. cbn [fst]. unfold diagnosticsOf.
    match type of H with
    | ?L = _ =>
        match goal with
        | |- context [parseCargoDiagnostics ?a ?b] =>
            change (parseCargoDiagnostics a b) with L
        end
    end.
    rewrite H. cbn [andThen formatDiagnostics List.length Nat.eqb].
    match goal with
    | |- context [Z.eqb ?a 0] =>
        destruct (Z.eqb_spec a 0) as [Hz|_]; [exfalso; apply Hx, Hz|]
    end.
    now rewrite <- !app_assoc.
Qed.

(** X20 ([bacon_fmt_check]): on the exit code 0 the answer is the fixed
    line of success, whatever was printed.  On another exit code it lists
    the lines of stdout that start with [Diff in], in their order, under a
    count that is their number; stderr has no part in it, so a run that
    fails without such a line is answered with the count 0. *)
Theorem fmt_check_lists_diff_lines args p log :
  get args "path" = Normal (VString p) -> p <> [] ->
  existsSync (join p (js "Cargo.toml")) = true ->
  exists text,
    callTool existsSync join cargo readFile JSON_parse
      otherNumber argvOf (js "bacon_fmt_check") args log
    = (Normal (mkResponse text false),
       log ++ [ExistsSync (join p (js "Cargo.toml"));
               Spawn (js "cargo") [js "fmt"; js "--check"] p])
    /\ (exitCode (cargo [js "fmt"; js "--check"] p) = 0%Z ->
        text = checkMark ++ js " All files are properly formatted!")
    /\ (exitCode (cargo [js "fmt"; js "--check"] p) <> 0%Z ->
        text = warningSign ++ js " "
                 ++ Number_toString
                      (List.length
                         (filter (startsWith (js "Diff in"))
                            (split LF
                               (stdout (cargo [js "fmt"; js "--check"] p)))))
                 ++ js " file(s) need formatting:" ++ nl
                 ++ joinLines
                      (filter (startsWith (js "Diff in"))
                         (split LF
                            (stdout (cargo [js "fmt"; js "--check"] p))))
                 ++ nl ++ nl ++ js "Run bacon_fmt to fix.")
    /\ (exitCode (cargo [js "fmt"; js "--check"] p) <> 0%Z ->
        includes (js "Diff in") (stdout (cargo [js "fmt"; js "--check"] p))
        = false ->
        text = warningSign ++ js " 0 file(s) need formatting:" ++ nl
                 ++ nl ++ nl ++ js "Run bacon_fmt to fix.").
Proof.
  intros G Hp X. unfold callTool.
  rewrite (handler_valid existsSync join _ _ args p log G Hp X).
  pick_case.
  rewrite (iotry_run_plain cargo argvOf _ _ [js "fmt"; js "--check"])
    by reflexivity.
  rewrite <- (app_assoc log).
  destruct (Z.eqb_spec (exitCode (cargo [js "fmt"; js "--check"] p)) 0)
    as [Hz|Hz].
  - eexists. split; [reflexivity|]. split; [reflexivity|].
    split; intros; contradiction.
  - eexists. split; [reflexivity|]. split; [contradiction|].
    split; [reflexivity|]. intros _ Hi.
    rewrite (no_prefixed_line (js "Diff in")) by assumption.
    reflexivity.
Qed.

(** X21 ([bacon_fmt], [bacon_audit]): the exit code of cargo alone decides
    between the two forms of the answer.  On the exit code 0 the answer is
    a fixed line that shows nothing of what was printed; on another exit
    code the formatter shows stderr and the audit shows stdout, then
    stderr. *)
Theorem exit_code_decides_fmt_and_audit args p log :
  get args "path" = Normal (VString p) -> p <> [] ->
  existsSync (join p (js "Cargo.toml")) = true ->
  callTool existsSync join cargo readFile JSON_parse
    otherNumber argvOf (js "bacon_fmt") args log
  = (Normal
       (mkResponse
          (if Z.eqb (exitCode (cargo [js "fmt"] p)) 0
           then checkMark ++ js " Code formatted successfully!"
           else crossMark ++ js " Formatting failed:" ++ nl
                  ++ stderr (cargo [js "fmt"] p)) false),
     log ++ [ExistsSync (join p (js "Cargo.toml"));
             Spawn (js "cargo") [js "fmt"] p])
  /\ callTool existsSync join cargo readFile JSON_parse
       otherNumber argvOf (js "bacon_audit") args log
     = (Normal
          (mkResponse
             (if Z.eqb (exitCode (cargo [js "audit"] p)) 0
              then checkMark
                     ++ js " No known vulnerabilities found in dependencies!"
              else warningSign ++ js " Security audit results:" ++ nl ++ nl
                     ++ stdout (cargo [js "audit"] p) ++ nl
                     ++ stderr (cargo [js "audit"] p)) false),
        log ++ [ExistsSync (join p (js "Cargo.toml"));
                Spawn (js "cargo") [js "audit"] p]).
Proof.
  intros G Hp X. unfold callTool.
  rewrite !(handler_valid existsSync join _ _ args p log G Hp X).
  split; pick_case.
  - rewrite (iotry_run_plain cargo argvOf _ _ [js "fmt"]) by reflexivity.
    now rewrite <- (app_assoc log).
  - rewrite (iotry_run_plain cargo argvOf _ _ [js "audit"]) by reflexivity.
    rewrite <- (app_assoc log).
    now destruct (Z.eqb (exitCode (cargo [js "audit"] p)) 0).
Qed.

(** X22 ([bacon_test]): the answer is the report of what the parser reads
    in stderr followed by stdout, without [isError]; cargo is run with
    [test], the filter if there is one, and the two arguments of
    [no_capture] if it is set.  A run that fails without a failed outcome
    ends the answer with the compilation heading and stderr; and when
    stderr is empty or ends with a line feed, the outcomes are those of
    stderr followed by those of stdout. *)
Theorem test_answer_reads_both_streams args p log fv nc fargs :
  get args "path" = Normal (VString p) -> p <> [] ->
  existsSync (join p (js "Cargo.toml")) = true ->
  get args "filter" = Normal fv -> get args "no_capture" = Normal nc ->
  plainArgs (if toBoolean fv then [fv] else []) = Some fargs ->
  exists argv r tests summary,
    argv = js "test" :: fargs
             ++ (if toBoolean nc then [js "--"; js "--nocapture"] else [])
    /\ r = cargo argv p
    /\ (tests, summary) = parseTestOutput (stderr r ++ stdout r)
    /\ callTool existsSync join cargo readFile JSON_parse
         otherNumber argvOf (js "bacon_test") args log
       = (Normal (mkResponse
                    (formatTestResults tests summary (exitCode r) (stderr r))
                    false),
          log ++ [ExistsSync (join p (js "Cargo.toml"));
                  Spawn (js "cargo") argv p])
    /\ (exitCode r <> 0%Z -> failedOf tests = [] ->
        formatTestResults tests summary (exitCode r) (stderr r)
        = reportOf tests summary ++ nl ++ compilationHeading ++ nl
            ++ stderr r)
    /\ (stderr r = [] \/ (exists e, stderr r = e ++ [LF]) ->
        tests = testsOf (stderr r) ++ testsOf (stdout r)).
Proof.
  intros G Hp X Ef En Hf. unfold callTool.
  rewrite (handler_valid existsSync join _ _ args p log G Hp X).
  pick_case. rewrite Ef, En, !iotry_Normal.
  erewrite iotry_run_plain.
  2:{ apply plainArgs_pushIf; [|reflexivity]. unfold pushIf.
      destruct (toBoolean fv).
      - apply (plainArgs_app [str "test"] [fv] [js "test"]);
          [reflexivity|exact Hf].
      - cbn in Hf. injection Hf as <-. reflexivity. }
  rewrite <- (app_assoc log).
  cbn [app].
  eexists _, _, _, _. split; [reflexivity|]. split; [reflexivity|].
  split; [reflexivity|]. cbn [parseTestOutput app].
  split; [reflexivity|]. split.
  - intros Hx Hnone. rewrite formatTestResults_section, Hnone.
    cbn [List.length Nat.eqb andb].
    match goal with
    | |- context [Z.eqb ?a 0] =>
        destruct (Z.eqb_spec a 0) as [Hz|_]; [contradiction|reflexivity]
    end.
  - apply testsOf_streams.
Qed.

(** X23 ([rust_project_info]): when [Cargo.toml] cannot be read the answer
    is the refusal, before any process.  Otherwise cargo is asked for the
    metadata once, and the answer, without [isError], starts with the line
    of the name and the version that [getProjectInfo] gives and with the
    line of the path, whatever cargo prints: what the [try] adds comes
    behind them, and it is nothing when the output of cargo cannot be
    decoded. *)
Theorem project_info_answer args p log :
  get args "path" = Normal (VString p) -> p <> [] ->
  existsSync (join p (js "Cargo.toml")) = true ->
  (getProjectInfo join readFile (VString p) = None ->
   callTool existsSync join cargo readFile JSON_parse
     otherNumber argvOf (js "rust_project_info") args log
   = (Normal (mkResponse (js "Error: Could not parse Cargo.toml") true),
      log ++ [ExistsSync (join p (js "Cargo.toml"))]))
  /\ (forall info,
        getProjectInfo join readFile (VString p) = Some info ->
        exists more,
          callTool existsSync join cargo readFile JSON_parse
            otherNumber argvOf (js "rust_project_info") args log
          = (Normal
               (mkResponse
                  (package ++ js " Project: " ++ ProjectInfo.name info
                     ++ js " v" ++ ProjectInfo.version info ++ nl
                     ++ fileFolder ++ js " Path: " ++ p ++ nl ++ more)
                  false),
             log ++ [ExistsSync (join p (js "Cargo.toml"));
                     Spawn (js "cargo")
                       [js "metadata"; js "--no-deps";
                        js "--format-version=1"] p])
          /\ more
             = snd (describeMetadata JSON_parse otherNumber
                      (stdout (cargo [js "metadata"; js "--no-deps";
                                      js "--format-version=1"] p)) [])
          /\ (forall e,
                JSON_parse
                  (stdout (cargo [js "metadata"; js "--no-deps";
                                  js "--format-version=1"] p)) = Throw e ->
                more = [])).
Proof.
  intros G Hp X. unfold callTool.
  rewrite (handler_valid existsSync join _ _ args p log G Hp X).
  pick_case. split.
  - intros ->. reflexivity.
  - intros info ->.
    rewrite (iotry_run_plain cargo argvOf _ _
               [js "metadata"; js "--no-deps"; js "--format-version=1"])
      by reflexivity.
    rewrite <- (app_assoc log). unfold answer, ioret.
    rewrite describeMetadata_app.
    eexists. split; [|split; [reflexivity|]].
    + rewrite <- !app_assoc. reflexivity.
    + intros e He. unfold describeMetadata. now rewrite He.
Qed.

(** X24 ([rust_project_info]): of the metadata that cargo prints, the
    first package is described and no other.  Its targets are listed in
    their order, a line each, followed by the line of the dependencies if
    there is one; a target whose line cannot be made (its [kind] is no
    array, say) ends the listing there: the lines of the targets before it
    stay, and neither a later target nor the dependencies are shown. *)
Theorem targets_listed_until_malformed stdout metadata pkg others targets
    output :
  JSON_parse stdout = Normal metadata ->
  get metadata "packages" = Normal (VArray (pkg :: others)) ->
  toBoolean pkg = true ->
  get pkg "targets" = Normal (VArray targets) ->
  (forall lines deps,
     Forall2 (fun t l => targetLine otherNumber t = Normal l) targets lines ->
     dependenciesLine otherNumber pkg = Normal deps ->
     snd (describeMetadata JSON_parse otherNumber stdout output)
     = output ++ nl ++ clipboard ++ js " Targets:" ++ nl
         ++ List.concat lines ++ deps)
  /\ (forall good bad more lines e,
        targets = good ++ bad :: more ->
        Forall2 (fun t l => targetLine otherNumber t = Normal l) good lines ->
        targetLine otherNumber bad = Throw e ->
        snd (describeMetadata JSON_parse otherNumber stdout output)
        = output ++ nl ++ clipboard ++ js " Targets:" ++ nl
            ++ List.concat lines).
Proof.
  intros Hm Hp Ht Hts. unfold describeMetadata.
  rewrite Hm. cbn [andThen]. rewrite Hp. cbn [andThen nullish at0].
  rewrite Ht, Hts. cbn [andThen toBoolean iterate].
  split.
  - intros lines deps Hl Hd. rewrite (listTargets_all _ _ lines) by assumption.
    rewrite Hd. cbn [snd]. now rewrite <- !app_assoc.
  - intros good bad more lines e -> Hl Hb.
    rewrite (listTargets_stop _ _ lines _ _ e) by assumption.
    cbn [snd]. now rewrite <- !app_assoc.
Qed.

End ServerProperties.

Lemma errors_are_refusals_witness :
  (exists extra,
     [ExistsSync (js "/crate/Cargo.toml")] = [] ++ extra
     /\ forallb (fun e => negb (isSpawn e)) extra = true)
  /\ (text (mkResponse (js "Unknown tool: bacon_lint") true)
      = js "Error: path is required"
      \/ (exists p,
            get sampleArgs "path" = Normal (VString p)
            /\ text (mkResponse (js "Unknown tool: bacon_lint") true)
               = js "Error: No Cargo.toml found at " ++ p
                   ++ js ". Is this a Rust project?")
      \/ (text (mkResponse (js "Unknown tool: bacon_lint") true)
          = js "Error: Could not parse Cargo.toml"
          /\ js "bacon_lint" = js "rust_project_info")
      \/ (text (mkResponse (js "Unknown tool: bacon_lint") true)
          = js "Unknown tool: " ++ js "bacon_lint"
          /\ ~ In (js "bacon_lint") toolNames)).
Proof.
  apply (errors_are_refusals allFiles joinPosix failingCargo readManifest
           JSON.parse noOtherNumber refuseOdd (js "bacon_lint") sampleArgs []
           (mkResponse (js "Unknown tool: bacon_lint") true)
           [ExistsSync (js "/crate/Cargo.toml")]).
  - vm_compute. reflexivity.
  - reflexivity.
Defined.

Lemma unknown_tool_iff_not_listed_witness :
  callTool allFiles joinPosix failingCargo unreadable JSON.parse
    noOtherNumber refuseOdd (js "bacon_lint") sampleArgs []
  = (Normal (mkResponse (js "Unknown tool: " ++ js "bacon_lint") true),
     [] ++ [ExistsSync (joinPosix (js "/crate") (js "Cargo.toml"))]).
Proof.
  apply (proj1 (unknown_tool_iff_not_listed allFiles joinPosix failingCargo
                  unreadable JSON.parse noOtherNumber refuseOdd
                  (js "bacon_lint") sampleArgs (js "/crate") []
                  eq_refl ltac:(discriminate) eq_refl)).
  vm_compute. intuition discriminate.
Defined.

Lemma answer_depends_on_declared_arguments_witness :
  callTool allFiles joinPosix workingCargo readManifest JSON.parse
    noOtherNumber refuseOdd (js "bacon_clippy")
    (VObject [(js "path", str "/crate"); (js "pedantic", VBool true);
              (js "fix", num 0)]) []
  = callTool allFiles joinPosix workingCargo readManifest JSON.parse
      noOtherNumber refuseOdd (js "bacon_clippy")
      (VObject [(js "pedantic", str "no"); (js "path", str "/crate");
                (js "filter", str "x"); (js "fix", VNull)]) [].
Proof.
  apply (answer_depends_on_declared_arguments allFiles joinPosix workingCargo
           readManifest JSON.parse noOtherNumber refuseOdd
           (mkTool (js "bacon_clippy")
              (js "Run `cargo clippy` on a Rust project for comprehensive linting. Returns warnings about common mistakes, style issues, and potential bugs with suggested fixes.")
              [ pathProperty;
                mkProperty (js "all_targets") (js "boolean")
                  (js "Check all targets (lib, bins, tests, examples). Default: true");
                mkProperty (js "pedantic") (js "boolean")
                  (js "Enable pedantic lints for stricter checking. Default: false");
                mkProperty (js "fix") (js "boolean")
                  (js "Automatically apply suggested fixes where possible. Default: false") ]
              [js "path"])).
  - right. left. reflexivity.
  - repeat constructor; vm_compute; repeat split; try reflexivity;
      intros H; discriminate H.
Defined.

Lemma lint_answer_reads_stdout_only_witness :
  fst (callTool allFiles joinPosix failingCargo readManifest JSON.parse
         noOtherNumber refuseOdd (js "bacon_check") sampleArgs [])
  = Normal (mkResponse (js "No issues found.") false).
Proof.
  destruct (lint_answer_reads_stdout_only allFiles joinPosix failingCargo
              readManifest JSON.parse noOtherNumber refuseOdd
              (js "bacon_check") sampleArgs (js "/crate") []
              eq_refl ltac:(discriminate) eq_refl (or_introl eq_refl))
    as [flags [_ H]].
  apply H. reflexivity.
Defined.

Lemma build_banner_follows_exit_code_witness :
  fst (callTool allFiles joinPosix failingCargo readManifest JSON.parse
         noOtherNumber refuseOdd (js "bacon_build") sampleArgs [])
  = Normal (mkResponse (crossMark ++ js " Build failed!" ++ nl ++ nl
                          ++ js "No issues found.") false).
Proof.
  destruct (build_banner_follows_exit_code allFiles joinPosix failingCargo
              readManifest JSON.parse noOtherNumber refuseOdd
              (js "bacon_build") sampleArgs (js "/crate") []
              eq_refl ltac:(discriminate) eq_refl (or_introl eq_refl))
    as (flags & good & bad & Hb & _ & _ & H).
  destruct (Hb eq_refl) as [_ <-].
  apply H; [reflexivity|discriminate].
Defined.

Lemma fmt_check_lists_diff_lines_witness :
  exists text,
    callTool allFiles joinPosix workingCargo readManifest JSON.parse
      noOtherNumber refuseOdd (js "bacon_fmt_check") sampleArgs []
    = (Normal (mkResponse text false),
       [] ++ [ExistsSync (joinPosix (js "/crate") (js "Cargo.toml"));
              Spawn (js "cargo") [js "fmt"; js "--check"] (js "/crate")])
    /\ text = warningSign ++ js " 1 file(s) need formatting:" ++ nl
                ++ js "Diff in /crate/src/lib.rs:1:" ++ nl ++ nl
                ++ js "Run bacon_fmt to fix.".
Proof.
  destruct (fmt_check_lists_diff_lines allFiles joinPosix workingCargo
              readManifest JSON.parse noOtherNumber refuseOdd sampleArgs
              (js "/crate") [] eq_refl ltac:(discriminate) eq_refl)
    as (text & H & _ & Ht & _).
  exists text. split; [exact H|].
  rewrite Ht by discriminate. vm_compute. reflexivity.
Defined.

Lemma exit_code_decides_fmt_and_audit_witness :
  callTool allFiles joinPosix failingCargo readManifest JSON.parse
    noOtherNumber refuseOdd (js "bacon_fmt") sampleArgs []
  = (Normal
       (mkResponse
          (if Z.eqb (exitCode (failingCargo [js "fmt"] (js "/crate"))) 0
           then checkMark ++ js " Code formatted successfully!"
           else crossMark ++ js " Formatting failed:" ++ nl
                  ++ stderr (failingCargo [js "fmt"] (js "/crate"))) false),
     [] ++ [ExistsSync (joinPosix (js "/crate") (js "Cargo.toml"));
            Spawn (js "cargo") [js "fmt"] (js "/crate")])
  /\ callTool allFiles joinPosix failingCargo readManifest JSON.parse
       noOtherNumber refuseOdd (js "bacon_audit") sampleArgs []
     = (Normal
          (mkResponse
             (if Z.eqb (exitCode (failingCargo [js "audit"] (js "/crate"))) 0
              then checkMark
                     ++ js " No known vulnerabilities found in dependencies!"
              else warningSign ++ js " Security audit results:" ++ nl ++ nl
                     ++ stdout (failingCargo [js "audit"] (js "/crate"))
                     ++ nl
                     ++ stderr (failingCargo [js "audit"] (js "/crate")))
             false),
        [] ++ [ExistsSync (joinPosix (js "/crate") (js "Cargo.toml"));
               Spawn (js "cargo") [js "audit"] (js "/crate")]).
Proof.
  apply (exit_code_decides_fmt_and_audit allFiles joinPosix failingCargo
           readManifest JSON.parse noOtherNumber refuseOdd sampleArgs
           (js "/crate") []).
  - reflexivity.
  - discriminate.
  - reflexivity.
Defined.

Lemma test_answer_reads_both_streams_witness :
  exists argv r tests summary,
    argv = js "test" :: [js "tests::"]
             ++ (if toBoolean VUndefined
                 then [js "--"; js "--nocapture"] else [])
    /\ r = workingCargo argv (js "/crate")
    /\ (tests, summary) = parseTestOutput (stderr r ++ stdout r)
    /\ callTool allFiles joinPosix workingCargo readManifest JSON.parse
         noOtherNumber refuseOdd (js "bacon_test")
         (VObject [(js "path", str "/crate"); (js "filter", str "tests::")])
         []
       = (Normal (mkResponse
                    (formatTestResults tests summary (exitCode r) (stderr r))
                    false),
          [] ++ [ExistsSync (joinPosix (js "/crate") (js "Cargo.toml"));
                 Spawn (js "cargo") argv (js "/crate")])
    /\ (exitCode r <> 0%Z -> failedOf tests = [] ->
        formatTestResults tests summary (exitCode r) (stderr r)
        = reportOf tests summary ++ nl ++ compilationHeading ++ nl
            ++ stderr r)
    /\ (stderr r = [] \/ (exists e, stderr r = e ++ [LF]) ->
        tests = testsOf (stderr r) ++ testsOf (stdout r)).
Proof.
  apply (test_answer_reads_both_streams allFiles joinPosix workingCargo
           readManifest JSON.parse noOtherNumber refuseOdd
           (VObject [(js "path", str "/crate"); (js "filter", str "tests::")])
           (js "/crate") [] (str "tests::") VUndefined [js "tests::"]).
  - reflexivity.
  - discriminate.
  - reflexivity.
  - reflexivity.
  - reflexivity.
  - reflexivity.
Defined.

Lemma project_info_answer_witness :
  callTool allFiles joinPosix workingCargo unreadable JSON.parse
    noOtherNumber refuseOdd (js "rust_project_info") sampleArgs []
  = (Normal (mkResponse (js "Error: Could not parse Cargo.toml") true),
     [] ++ [ExistsSync (joinPosix (js "/crate") (js "Cargo.toml"))])
  /\ exists more,
       callTool allFiles joinPosix workingCargo readManifest JSON.parse
         noOtherNumber refuseOdd (js "rust_project_info") sampleArgs []
       = (Normal
            (mkResponse
               (package ++ js " Project: " ++ js "demo" ++ js " v"
                  ++ js "1.70" ++ nl ++ fileFolder ++ js " Path: "
                  ++ js "/crate" ++ nl ++ more) false),
          [] ++ [ExistsSync (joinPosix (js "/crate") (js "Cargo.toml"));
                 Spawn (js "cargo")
                   [js "metadata"; js "--no-deps"; js "--format-version=1"]
                   (js "/crate")]).
Proof.
  split.
  - apply (proj1 (project_info_answer allFiles joinPosix workingCargo
                    unreadable JSON.parse noOtherNumber refuseOdd sampleArgs
                    (js "/crate") [] eq_refl ltac:(discriminate) eq_refl)).
    reflexivity.
  - destruct (proj2 (project_info_answer allFiles joinPosix workingCargo
                       readManifest JSON.parse noOtherNumber refuseOdd
                       sampleArgs (js "/crate") [] eq_refl
                       ltac:(discriminate) eq_refl)
                (ProjectInfo.mk (js "demo") (js "1.70")))
      as (more & H & _).
    + vm_compute. reflexivity.
    + exists more. exact H.
Defined.

Lemma targets_listed_until_malformed_witness :
  snd (describeMetadata JSON.parse noOtherNumber brokenMetadata
         (js "Path: /crate" ++ nl))
  = (js "Path: /crate" ++ nl) ++ nl ++ clipboard ++ js " Targets:" ++ nl
      ++ List.concat [js "   - demo (lib)" ++ nl].
Proof.
  eapply (proj2 (targets_listed_until_malformed JSON.parse noOtherNumber
                   brokenMetadata _ _ _ _ (js "Path: /crate" ++ nl)
                   ltac:(vm_compute; reflexivity)
                   ltac:(vm_compute; reflexivity)
                   ltac:(reflexivity)
                   ltac:(vm_compute; reflexivity))
            [VObject [(js "name", str "demo");
                      (js "kind", VArray [str "lib"])]]
            (VObject [(js "name", str "cli"); (js "kind", str "bin")])
            [VObject [(js "name", str "late");
                      (js "kind", VArray [str "bin"])]]
            [js "   - demo (lib)" ++ nl] TypeError).
  - reflexivity.
  - repeat constructor.
  - reflexivity.
Defined.
